(** * Payment flows of the smart payment buttons: wallet capture and native

    A shallow embedding of [src/payment-flows/wallet-capture.js] and
    [src/payment-flows/native.js].

    Promises are run to their settled state: a promise-returning function
    is a state transformer that yields an [outcome] (resolved, rejected or
    still pending) together with the new state.  Every call that leaves the
    two modules (API calls, merchant callbacks, the socket, the popup,
    the logger) is recorded in a chronological trace, and its answer is
    read from an environment of oracles that may depend on the whole
    history so far.  An answer is available at the call, as a ZalgoPromise
    that resolves synchronously, so within a chain of promises that the
    code returns a continuation runs right after the call it waits for; a
    promise that never settles is [Pending] and its continuation never
    runs.

    Two things do not fit that picture and are modelled apart.  Where
    native.js drops a promise instead of returning it (the inner [close]
    behind its 500 ms timer, and [closeNative] when the inner [close] calls
    it), the caller goes on at once: what the dropped promise still has to
    do is left as a pending task of the page, which the event loop runs
    later, in any order and between any other operations.  And a merchant's
    [onApprove] is handed a [restart] action that it may call before it
    settles: an oracle says how often it does. *)

From stdpp Require Import base strings gmap list.
From Stdlib Require Import String List Bool Lia.
Import ListNotations.
Local Open Scope string_scope.
Local Open Scope list_scope.

(** ** JavaScript values *)

Inductive error_kind := GenericError | TypeError | PopupOpenError.

Record error := Error { err_kind : error_kind; err_message : string }.

Definition new_Error (msg : string) : error := Error GenericError msg.

(** A synchronous call either returns or throws. *)
Inductive result (A : Type) :=
| Ok (a : A)
| Throw (e : error).
Arguments Ok {A} a.
Arguments Throw {A} e.

(** The settled state of a promise. *)
Inductive outcome (A : Type) :=
| Resolved (a : A)
| Rejected (e : error)
| Pending.
Arguments Resolved {A} a.
Arguments Rejected {A} e.
Arguments Pending {A}.

(** [!x] on an optional string: [undefined] and [''] are falsy. *)
Definition truthy_string (o : option string) : bool :=
  match o with
  | Some s => negb (String.eqb s "")
  | None => false
  end.

Definition truthy_bool (o : option bool) : bool :=
  match o with
  | Some b => b
  | None => false
  end.

Definition truthy {A} (o : option A) : bool :=
  match o with
  | Some _ => true
  | None => false
  end.

(** [a === b] on optional strings. *)
Definition strict_eq (a b : option string) : bool := bool_decide (a = b).

(** ** Constants of [@paypal/sdk-constants] and [../constants] *)

Module FUNDING.
Definition PAYPAL := "paypal".
Definition VENMO := "venmo".

End FUNDING.

Module PLATFORM.
Definition MOBILE := "mobile".

End PLATFORM.

Module BUYER_INTENT.
(** Modelled from the spec: the constant of [../constants] that marks a
    buyer who wants to "pay with different funding/shipping". *)
Definition PAY_WITH_DIFFERENT_FUNDING_SHIPPING := "pay_with_different_funding_shipping".

End BUYER_INTENT.

Module USER_ACTION.
Definition COMMIT := "commit".
Definition CONTINUE := "continue".

End USER_ACTION.

(** ** Data model *)

(** Windows and sockets are handles, numbered as they are created. *)
Abbreviation window := nat (only parsing).
Abbreviation socket := nat (only parsing).

Record Instrument := {
  inst_instrumentID : option string;
  inst_type : option string;
  inst_oneClick : option bool
}.

Record WalletFunding := { instruments : list Instrument }.

Record ServiceData := {
  sd_buyerAccessToken : option string;
  sd_wallet : option (gmap string WalletFunding);
  sd_facilitatorAccessToken : string;
  sd_eligibility_native : bool
}.

Module Payment.
Record t := {
  win : option window;
  fundingSource : string;
  instrumentID : option string;
  buyerAccessToken : option string;
  venmoPayloadID : option string;
  authCode : option string;
  isClick : option bool;
  buyerIntent : option string
}.

End Payment.

Record ShippingAddress := { isFullAddress : bool }.

(** [order.checkoutSession] as [getSupplementalOrderInfo] resolves it. *)
Record CheckoutSession := {
  isShippingAddressRequired : bool;
  shippingAddress : option ShippingAddress
}.

Record ApproveRequest := {
  ar_orderID : string;
  ar_instrumentType : string;
  ar_buyerAccessToken : string;
  ar_instrumentID : string
}.

Record ApproveData := {
  payerID : option string;
  paymentID : option string;
  billingToken : option string;
  isNativeTransaction : option bool
}.

Record NativeSDKProps := {
  sdk_orderID : string;
  sdk_facilitatorAccessToken : string;
  sdk_pageUrl : string;
  sdk_commit : bool;
  sdk_userAgent : string;
  sdk_buttonSessionID : string;
  sdk_env : string;
  sdk_webCheckoutUrl : string;
  sdk_stageHost : option string;
  sdk_apiStageHost : option string;
  sdk_forceEligible : bool
}.

Module MESSAGE.
Inductive t := SET_PROPS | GET_PROPS | CLOSE | FALLBACK | ON_APPROVE | ON_CANCEL | ON_ERROR.

End MESSAGE.

(** ** The trace of calls that leave the two modules

    Calls that have no oracle below (the logger, [socket.on],
    [socket.onError], [socket.reconnect], [socket.close], [win.close],
    [checkout.init], [firebaseSocket]) return normally. *)

Inductive event :=
| ELog (level name : string) (err : option string) (flush : bool)
| ECreateOrder
| EGetPageUrl
| EGetSupplementalOrderInfo (orderID : string)
| EExchangeAccessTokenForAuthCode (token : string)
| EOneClickApproveOrder (req : ApproveRequest)
| EOnApprove (data : ApproveData)
| EOnCancel
| EOnError (e : error)
| EOnClick (funding : string)
| ECheckoutInit (p : Payment.t)
| ECheckoutStart (id : nat)
| ECheckoutClose (id : nat)
| EUniqueID
| EFirebaseSocket (sessionUID : string) (version : string) (config : option string)
| ESocketOnError (s : socket)
| ESocketOn (s : socket) (m : MESSAGE.t)
| ESocketReconnect (s : socket)
| ESocketSend (s : socket) (m : MESSAGE.t) (props : option NativeSDKProps)
| ESocketClose (s : socket)
| EPopup (url : string)
| EWindowClose (w : window)
| EDelay (ms : nat).

Definition history := list event.

(** The collaborators outside the two files.  Each oracle sees the history
    up to the call it answers. *)
Record Env := {
  env_createOrder : history -> outcome string;
  env_getPageUrl : history -> outcome string;
  env_getSupplementalOrderInfo : history -> string -> outcome CheckoutSession;
  env_exchangeAccessTokenForAuthCode : history -> string -> outcome string;
  env_oneClickApproveOrder : history -> ApproveRequest -> outcome ApproveData;
  env_onApprove : history -> ApproveData -> outcome unit;
  (** how often that [onApprove] call invokes the [restart] action it is
      handed, before it settles *)
  env_onApprove_restarts : history -> ApproveData -> nat;
  env_onCancel : history -> outcome unit;
  env_onError : history -> error -> outcome unit;
  env_onClick : history -> string -> outcome bool;
  env_checkoutStart : history -> nat -> outcome unit;
  env_checkoutClose : history -> nat -> outcome unit;
  env_stringifyError : error -> string;
  env_uniqueID : history -> string;
  env_socketSend : history -> socket -> MESSAGE.t -> outcome unit;
  env_popup : history -> string -> result window;
  env_isWindowClosed : history -> window -> bool;
  env_localStorage_getItem : history -> string -> result (option string);
  env_supportsPopups : bool;
  env_isIos : bool;
  env_isAndroid : bool;
  env_isSafari : bool;
  env_isChrome : bool;
  env_getUserAgent : string;
  env_getDomain : string;
  env_extendUrl : string -> list (string * option string) -> string;
  env_NATIVE_CHECKOUT_URI : string -> string;
  env_WEB_CHECKOUT_URI : string
}.

(** ** Promises as state transformers *)

Class Traced (S : Type) := {
  trace : S -> history;
  record : event -> S -> S
}.

#[global] Instance history_Traced : Traced history := {|
  trace := fun h => h;
  record := fun e h => (h ++ [e])%list
|}.

Definition M (S A : Type) : Type := S -> outcome A * S.

Definition resolve {S A} (a : A) : M S A := fun s => (Resolved a, s).
Definition reject {S A} (e : error) : M S A := fun s => (Rejected e, s).

(** [p.then(f)] *)
Definition then_ {S A B} (p : M S A) (f : A -> M S B) : M S B :=
  fun s =>
    match p s with
    | (Resolved a, s') => f a s'
    | (Rejected e, s') => (Rejected e, s')
    | (Pending, s') => (Pending, s')
    end.

(** [p.then(f, g)]: [g] handles a rejection of [p] only. *)
Definition then2 {S A B} (p : M S A) (f : A -> M S B) (g : error -> M S B) : M S B :=
  fun s =>
    match p s with
    | (Resolved a, s') => f a s'
    | (Rejected e, s') => g e s'
    | (Pending, s') => (Pending, s')
    end.

(** [p.catch(g)] *)
Definition catch {S A} (p : M S A) (g : error -> M S A) : M S A :=
  then2 p resolve g.

(** A call whose promise is dropped: what the call does before it returns
    is done, its outcome is not awaited. *)
Definition detach {S A} (p : M S A) : M S unit :=
  fun s => (Resolved tt, snd (p s)).

Notation "x <- p ;; k" := (then_ p (fun x => k))
  (at level 100, p at next level, right associativity).
Notation "p ;;; k" := (then_ p (fun _ => k))
  (at level 100, right associativity).

Section Calls.
Context {S : Type} `{Traced S}.

Definition emit (e : event) : M S unit := fun s => (Resolved tt, record e s).

(** An asynchronous call answered by an oracle. *)
Definition call {A} (e : event) (oracle : history -> outcome A) : M S A :=
  fun s => (oracle (trace s), record e s).

(** [getLogger().<level>(name, { err }).flush()] *)
Definition log_flush (level name : string) (err : option string) : M S unit :=
  emit (ELog level name err true).

Definition count_checkout_inits (h : history) : nat :=
  length (filter (fun e => match e with ECheckoutInit _ => true | _ => false end) h).

(** [checkout.init({ ..., payment })]: the instances are numbered in the
    order of their creation. *)
Definition checkout_init (p : Payment.t) : M S nat :=
  fun s => (Resolved (count_checkout_inits (trace s)), record (ECheckoutInit p) s).

Definition checkout_start (E : Env) (id : nat) : M S unit :=
  call (ECheckoutStart id) (fun h => env_checkoutStart E h id).

Definition checkout_close (E : Env) (id : nat) : M S unit :=
  call (ECheckoutClose id) (fun h => env_checkoutClose E h id).

(** [onApprove(data, { restart })]: the merchant's callback runs with the
    [restart] action in hand and may call it, any number of times, before
    its own promise settles.  Each of those calls runs as every call does
    here, with its answers at hand; what becomes of the promises that
    [restart] returns is the callback's business. *)
Definition call_onApprove (E : Env) (data : ApproveData) (restart : M S unit) : M S unit :=
  fun s =>
    (env_onApprove E (trace s) data,
     Nat.iter (env_onApprove_restarts E (trace s) data)
              (fun s' => snd (restart s')) (record (EOnApprove data) s)).

End Calls.

(** Modelled from the spec: [promiseNoop] of [../lib], which is not among
    the sources at hand.  It is the [close] of a flow that has nothing to
    release; the spec has such a [close()] resolve at once without doing
    anything. *)
Definition promiseNoop {S} : M S unit := resolve tt.

(** ** wallet-capture.js *)

Module WalletCapture.

Record Props := { onShippingChange : bool }.

(** What [initWalletCapture] returns, and the [restart] action that its
    [start] hands to [onApprove]. *)
Record PaymentFlowInstance := {
  start : M history unit;
  close : M history unit;
  restart : M history unit
}.

Definition isWalletCaptureEligible (props : Props) (serviceData : ServiceData) : bool :=
  if negb (truthy (sd_wallet serviceData)) then false
  else if negb (truthy_string (sd_buyerAccessToken serviceData)) then false
  else if onShippingChange props then false
  else true.

Definition find_instrument (walletFunding : WalletFunding) (instrumentID : option string)
  : option Instrument :=
  find (fun inst => strict_eq (inst_instrumentID inst) instrumentID)
       (instruments walletFunding).

Definition isWalletCapturePaymentEligible (serviceData : ServiceData) (payment : Payment.t) : bool :=
  if negb (String.eqb (Payment.fundingSource payment) FUNDING.PAYPAL) then false
  else if truthy (Payment.win payment) then false
  else match sd_wallet serviceData with
  | None => false
  | Some wallet =>
    if negb (truthy_string (Payment.instrumentID payment)) then false
    else match wallet !! Payment.fundingSource payment with
    | None => false
    | Some walletFunding =>
      match find_instrument walletFunding (Payment.instrumentID payment) with
      | None => false
      | Some instrument =>
        if negb (truthy_bool (inst_oneClick instrument)) then false
        else if negb (truthy_string (inst_type instrument)) then false
        else true
      end
    end
  end.

Section Init.
Variable E : Env.
Variable payment : Payment.t.
Variable serviceData : ServiceData.

(** [{ ...payment, authCode, isClick: false, buyerIntent }] *)
Definition checkoutPayment (authCode : string) : Payment.t := {|
  Payment.win := Payment.win payment;
  Payment.fundingSource := Payment.fundingSource payment;
  Payment.instrumentID := Payment.instrumentID payment;
  Payment.buyerAccessToken := Payment.buyerAccessToken payment;
  Payment.venmoPayloadID := Payment.venmoPayloadID payment;
  Payment.authCode := Some authCode;
  Payment.isClick := Some false;
  Payment.buyerIntent := Some BUYER_INTENT.PAY_WITH_DIFFERENT_FUNDING_SHIPPING
|}.

Section Closure.
Variables (buyerAccessToken instrumentID instrumentType : string).

Definition fallbackToWebCheckout : M history unit :=
  log_flush "info" "web_checkout_fallback" None ;;;
  authCode <- call (EExchangeAccessTokenForAuthCode buyerAccessToken)
                   (fun h => env_exchangeAccessTokenForAuthCode E h buyerAccessToken) ;;
  id <- checkout_init (checkoutPayment authCode) ;;
  checkout_start E id.

Definition shippingRequired (orderID : string) : M history bool :=
  order <- call (EGetSupplementalOrderInfo orderID)
                (fun h => env_getSupplementalOrderInfo E h orderID) ;;
  if negb (isShippingAddressRequired order) then resolve false
  else match shippingAddress order with
       | Some a => if isFullAddress a then resolve false else resolve true
       | None => resolve true
       end.

Definition approve_request (orderID : string) : ApproveRequest :=
  {| ar_orderID := orderID; ar_instrumentType := instrumentType;
     ar_buyerAccessToken := buyerAccessToken; ar_instrumentID := instrumentID |}.

Definition start_ : M history unit :=
  orderID <- call ECreateOrder (env_createOrder E) ;;
  requireShipping <- shippingRequired orderID ;;
  if (requireShipping : bool) then fallbackToWebCheckout
  else
    then2 (call (EOneClickApproveOrder (approve_request orderID))
                (fun h => env_oneClickApproveOrder E h (approve_request orderID)))
          (fun r =>
             let data := {| payerID := payerID r; paymentID := None;
                            billingToken := None; isNativeTransaction := None |} in
             call_onApprove E data fallbackToWebCheckout)
          (fun err =>
             log_flush "warn" "approve_order_error" (Some (env_stringifyError E err)) ;;;
             fallbackToWebCheckout).

End Closure.

Definition initWalletCapture : result PaymentFlowInstance :=
  if negb (truthy_string (Payment.instrumentID payment)) then
    Throw (new_Error "Instrument id required for wallet capture")
  else if negb (truthy_string (sd_buyerAccessToken serviceData)) then
    Throw (new_Error "Buyer access token required for wallet capture")
  else match sd_wallet serviceData with
  | None => Throw (Error TypeError "Cannot read property of undefined")
  | Some wallet =>
    match wallet !! Payment.fundingSource payment with
    | None => Throw (new_Error "Expected wallet to be present")
    | Some walletFunding =>
      match find_instrument walletFunding (Payment.instrumentID payment) with
      | None => Throw (new_Error "Expected instrument to be present")
      | Some instrument =>
        if negb (truthy_string (inst_type instrument)) then
          Throw (new_Error "Expected instrumen type")
        else
          let token := default "" (sd_buyerAccessToken serviceData) in
          let id := default "" (Payment.instrumentID payment) in
          let type := default "" (inst_type instrument) in
          Ok {| start := start_ token id type;
                close := resolve tt;
                restart := fallbackToWebCheckout token |}
      end
    end
  end.

End Init.

End WalletCapture.

(** ** native.js *)

Module Native.

Record Config := { version : string; firebase : option string }.

Record Props := {
  platform : string;
  onShippingChange : bool;
  createBillingAgreement : bool;
  createSubscription : bool;
  enableNativeCheckout : bool;
  onClick : bool;
  commit : bool;
  buttonSessionID : string;
  env : string;
  stageHost : option string;
  apiStageHost : option string
}.

(** What the [instance] variable of [initNative] currently holds: the
    initial [{ close: promiseNoop }], a web-checkout instance, or the
    [{ setProps, close }] pair that [connectNative] built over a socket. *)
Inductive Instance :=
| InstNoop
| InstCheckout (id : nat)
| InstNative (sock : socket).

Record AppSwitchPopup := { as_win : option window; as_appSwitched : bool }.

(** What is left of a promise that the flow has dropped: a callback that
    the page's event loop runs later. *)
Inductive task :=
| TaskClose
  (** the [then] callback of the inner [close] (lines 333-339), due when
      its 500 ms timer fires *)
| TaskReleased (sock : socket)
  (** the [then] callback of [closeNative] (lines 315-316), due when the
      close notice is acknowledged *).

Record State := {
  st_trace : history;
  (** module-level variables *)
  sessionUID : option string;
  nativeSocket : option socket;
  initialPageUrl : option string;
  (** cache of the memoized [getNativeSocket] *)
  socketMemo : gmap (string * option string * string) socket;
  (** variables closed over by one [initNative] call *)
  instance : Instance;
  appSwitch : option AppSwitchPopup;
  (** cache of the memoized [start] *)
  startMemo : option (outcome unit);
  (** callbacks of dropped promises that are still due *)
  pending : list task
}.

Definition set_trace (h : history) (s : State) : State :=
  {| st_trace := h; sessionUID := sessionUID s; nativeSocket := nativeSocket s;
     initialPageUrl := initialPageUrl s; socketMemo := socketMemo s;
     instance := instance s; appSwitch := appSwitch s; startMemo := startMemo s;
     pending := pending s |}.

Definition set_sessionUID (v : option string) (s : State) : State :=
  {| st_trace := st_trace s; sessionUID := v; nativeSocket := nativeSocket s;
     initialPageUrl := initialPageUrl s; socketMemo := socketMemo s;
     instance := instance s; appSwitch := appSwitch s; startMemo := startMemo s;
     pending := pending s |}.

Definition set_nativeSocket (v : option socket) (s : State) : State :=
  {| st_trace := st_trace s; sessionUID := sessionUID s; nativeSocket := v;
     initialPageUrl := initialPageUrl s; socketMemo := socketMemo s;
     instance := instance s; appSwitch := appSwitch s; startMemo := startMemo s;
     pending := pending s |}.

Definition set_initialPageUrl (v : option string) (s : State) : State :=
  {| st_trace := st_trace s; sessionUID := sessionUID s; nativeSocket := nativeSocket s;
     initialPageUrl := v; socketMemo := socketMemo s;
     instance := instance s; appSwitch := appSwitch s; startMemo := startMemo s;
     pending := pending s |}.

Definition set_socketMemo (v : gmap (string * option string * string) socket) (s : State) : State :=
  {| st_trace := st_trace s; sessionUID := sessionUID s; nativeSocket := nativeSocket s;
     initialPageUrl := initialPageUrl s; socketMemo := v;
     instance := instance s; appSwitch := appSwitch s; startMemo := startMemo s;
     pending := pending s |}.

Definition set_instance (v : Instance) (s : State) : State :=
  {| st_trace := st_trace s; sessionUID := sessionUID s; nativeSocket := nativeSocket s;
     initialPageUrl := initialPageUrl s; socketMemo := socketMemo s;
     instance := v; appSwitch := appSwitch s; startMemo := startMemo s;
     pending := pending s |}.

Definition set_appSwitch (v : option AppSwitchPopup) (s : State) : State :=
  {| st_trace := st_trace s; sessionUID := sessionUID s; nativeSocket := nativeSocket s;
     initialPageUrl := initialPageUrl s; socketMemo := socketMemo s;
     instance := instance s; appSwitch := v; startMemo := startMemo s;
     pending := pending s |}.

Definition set_startMemo (v : option (outcome unit)) (s : State) : State :=
  {| st_trace := st_trace s; sessionUID := sessionUID s; nativeSocket := nativeSocket s;
     initialPageUrl := initialPageUrl s; socketMemo := socketMemo s;
     instance := instance s; appSwitch := appSwitch s; startMemo := v;
     pending := pending s |}.

Definition set_pending (v : list task) (s : State) : State :=
  {| st_trace := st_trace s; sessionUID := sessionUID s; nativeSocket := nativeSocket s;
     initialPageUrl := initialPageUrl s; socketMemo := socketMemo s;
     instance := instance s; appSwitch := appSwitch s; startMemo := startMemo s;
     pending := v |}.

(** Leave a callback to the event loop. *)
Definition defer (t : task) (s : State) : State := set_pending (pending s ++ [t]) s.

#[global] Instance State_Traced : Traced State := {|
  trace := st_trace;
  record := fun e s => set_trace (st_trace s ++ [e])%list s
|}.

(** The page before any flow has run. *)
Definition initial_state : State :=
  {| st_trace := []; sessionUID := None; nativeSocket := None; initialPageUrl := None;
     socketMemo := ∅; instance := InstNoop; appSwitch := None; startMemo := None;
     pending := [] |}.

Definition modify (f : State -> State) : M State unit := fun s => (Resolved tt, f s).

Definition SOURCE_APP := "paypal_smart_payment_buttons".
Definition TARGET_APP := "paypal_native_checkout".

Definition count_sockets (h : history) : nat :=
  length (filter (fun e => match e with EFirebaseSocket _ _ _ => true | _ => false end) h).

Section Module_level.
Variable E : Env.

(** [memoize(({ sessionUID, firebaseConfig, version }) => firebaseSocket(...))]:
    one socket per distinct argument; sockets are numbered as created. *)
Definition getNativeSocket (uid : string) (firebaseConfig : option string) (ver : string)
  : State -> socket * State :=
  fun s =>
    match socketMemo s !! (uid, firebaseConfig, ver) with
    | Some sock => (sock, s)
    | None =>
      let sock := count_sockets (trace s) in
      (sock, set_socketMemo (<[(uid, firebaseConfig, ver) := sock]> (socketMemo s))
                            (record (EFirebaseSocket uid ver firebaseConfig) s))
    end.

Definition isNativeOptedIn (props : Props) (h : history) : bool :=
  if enableNativeCheckout props then true
  else match env_localStorage_getItem E h "__native_checkout__" with
       | Ok v => truthy_string v
       | Throw _ => false
       end.

Definition isNativeEligible (props : Props) (config : Config) (serviceData : ServiceData)
  (h : history) : bool :=
  if negb (String.eqb (platform props) PLATFORM.MOBILE) then false
  else if onShippingChange props then false
  else if createBillingAgreement props || createSubscription props then false
  else if negb (env_supportsPopups E) then false
  else if negb (truthy (firebase config)) then false
  else if (if env_isIos E then negb (env_isSafari E)
           else if env_isAndroid E then negb (env_isChrome E)
           else true) then false
  else if isNativeOptedIn props h then true
  else sd_eligibility_native serviceData.

Definition isNativePaymentEligible (s : State) (payment : Payment.t) (props : Props) : bool :=
  if truthy (Payment.win payment) then false
  else if negb (String.eqb (Payment.fundingSource payment) FUNDING.PAYPAL)
          && negb (String.eqb (Payment.fundingSource payment) FUNDING.VENMO) then false
  else if negb (truthy (nativeSocket s)) then false
  else if String.eqb (Payment.fundingSource payment) FUNDING.VENMO
          && negb (isNativeOptedIn props (trace s)) then false
  else true.

(** The handler that [setupNative] hands to [nativeSocket.onError]. *)
Definition onSocketError (err : error) : M State unit :=
  modify (set_nativeSocket None) ;;;
  emit (ELog "error" "native_socket_error" (Some (env_stringifyError E err)) false).

Definition setupNative (config : Config) (props : Props) : M State unit :=
  fun s =>
    let uid := env_uniqueID E (trace s) in
    let s1 := set_sessionUID (Some uid) (record EUniqueID s) in
    let (sock, s2) := getNativeSocket uid (firebase config) (version config) s1 in
    let s3 := set_nativeSocket (Some sock) s2 in
    let s4 := record (ESocketOnError sock) s3 in
    (pageUrl <- call EGetPageUrl (env_getPageUrl E) ;;
     modify (set_initialPageUrl (Some pageUrl))) s4.

Definition appSwitchPopup (url : string) : State -> result AppSwitchPopup * State :=
  fun s =>
    match env_popup E (trace s) url with
    | Ok w => (Ok {| as_win := Some w; as_appSwitched := false |}, record (EPopup url) s)
    | Throw err =>
      match err_kind err with
      | PopupOpenError =>
        if env_isIos E && env_isSafari E
        then (Ok {| as_win := None; as_appSwitched := true |}, record (EPopup url) s)
        else (Throw err, record (EPopup url) s)
      | _ => (Throw err, record (EPopup url) s)
      end
    end.

Definition didSwitch (a : AppSwitchPopup) (h : history) : bool :=
  if as_appSwitched a then true
  else match as_win a with
       | Some w => env_isAndroid E && env_isChrome E && env_isWindowClosed E h w
       | None => false
       end.

(** [appSwitch.close()] *)
Definition popup_close (a : AppSwitchPopup) : M State unit :=
  match as_win a with
  | Some w => emit (EWindowClose w)
  | None => resolve tt
  end.

End Module_level.

(** Messages the native app sends over the socket, with their payload. *)
Inductive message :=
| MsgGetProps
| MsgOnApprove (payerID paymentID billingToken : option string)
| MsgOnCancel
| MsgOnError (msg : string)
| MsgFallback (buyerAccessToken venmoPayloadID : option string).

Definition message_type (m : message) : MESSAGE.t :=
  match m with
  | MsgGetProps => MESSAGE.GET_PROPS
  | MsgOnApprove _ _ _ => MESSAGE.ON_APPROVE
  | MsgOnCancel => MESSAGE.ON_CANCEL
  | MsgOnError _ => MESSAGE.ON_ERROR
  | MsgFallback _ _ => MESSAGE.FALLBACK
  end.

(** [ZalgoPromise.hash] over two promises that were both started. *)
Definition hash2 {A B} (a : outcome A) (b : outcome B) : outcome (A * B) :=
  match a, b with
  | Resolved x, Resolved y => Resolved (x, y)
  | Rejected e, _ => Rejected e
  | _, Rejected e => Rejected e
  | _, _ => Pending
  end.

Section InitNative.
Variable E : Env.
Variable props : Props.
Variable config : Config.
Variable payment : Payment.t.
Variable serviceData : ServiceData.

Definition fundingSource : string := Payment.fundingSource payment.

(** The closure variables as [initNative] leaves them. *)
Definition initNative (s : State) : State :=
  set_startMemo None (set_appSwitch None (set_instance InstNoop s)).

Definition fallbackToWebCheckout (win : option window)
  (buyerAccessToken venmoPayloadID : option string) : M State unit :=
  let checkoutPayment := {|
    Payment.win := win;
    Payment.fundingSource := Payment.fundingSource payment;
    Payment.instrumentID := Payment.instrumentID payment;
    Payment.buyerAccessToken := buyerAccessToken;
    Payment.venmoPayloadID := venmoPayloadID;
    Payment.authCode := Payment.authCode payment;
    Payment.isClick := Some false;
    Payment.buyerIntent := Payment.buyerIntent payment |} in
  id <- checkout_init checkoutPayment ;;
  modify (set_instance (InstCheckout id)) ;;;
  checkout_start E id.

Definition getNativeUrl (s : State) : string :=
  let domain := if String.eqb fundingSource FUNDING.VENMO
                then "https://www.paypal.com" else env_getDomain E in
  env_extendUrl E (domain ++ env_NATIVE_CHECKOUT_URI E fundingSource)%string
    [("sessionUID", sessionUID s);
     ("buttonSessionID", Some (buttonSessionID props));
     ("pageUrl", initialPageUrl s)].

Definition getWebCheckoutFallbackUrl (orderID : string) : string :=
  env_extendUrl E (env_getDomain E ++ env_WEB_CHECKOUT_URI E)%string
    [("fundingSource", Some fundingSource);
     ("facilitatorAccessToken", Some (sd_facilitatorAccessToken serviceData));
     ("token", Some orderID);
     ("useraction", Some (if commit props then USER_ACTION.COMMIT else USER_ACTION.CONTINUE));
     ("native_xo", Some "1");
     ("venmoOverride", Some (if String.eqb fundingSource FUNDING.VENMO then "1" else "0"))].

Definition getSDKProps : M State NativeSDKProps :=
  r <- (fun s =>
          let (orderID, s1) := call ECreateOrder (env_createOrder E) s in
          let (pageUrl, s2) := call EGetPageUrl (env_getPageUrl E) s1 in
          (hash2 orderID pageUrl, s2)) ;;
  fun s =>
    (Resolved {|
       sdk_orderID := fst r;
       sdk_facilitatorAccessToken := sd_facilitatorAccessToken serviceData;
       sdk_pageUrl := snd r;
       sdk_commit := commit props;
       sdk_userAgent := env_getUserAgent E;
       sdk_buttonSessionID := buttonSessionID props;
       sdk_env := env props;
       sdk_webCheckoutUrl := getWebCheckoutFallbackUrl (fst r);
       sdk_stageHost := stageHost props;
       sdk_apiStageHost := apiStageHost props;
       sdk_forceEligible := isNativeOptedIn E props (trace s) |}, s).

(** The [setProps] closure that [connectNative] returns. *)
Definition setProps (sock : socket) : M State unit :=
  sdkProps <- getSDKProps ;;
  log_flush "info" "native_message_setprops" None ;;;
  call (ESocketSend sock MESSAGE.SET_PROPS (Some sdkProps))
       (fun h => env_socketSend E h sock MESSAGE.SET_PROPS) ;;;
  log_flush "info" "native_response_setprops" None.

(** What [closeNative] does once its close notice is acknowledged
    (lines 315-316). *)
Definition closeNative_acked (sock : socket) : M State unit :=
  log_flush "info" "native_response_close" None ;;;
  emit (ESocketClose sock).

(** The [closeNative] closure that [connectNative] returns as [close], for
    a caller that returns its promise. *)
Definition closeNative (sock : socket) : M State unit :=
  log_flush "info" "native_message_close" None ;;;
  call (ESocketSend sock MESSAGE.CLOSE None)
       (fun h => env_socketSend E h sock MESSAGE.CLOSE) ;;;
  closeNative_acked sock.

(** The same closure for a caller that drops its promise (line 334): the
    close notice goes out before the call returns, and the callback that
    waits for the acknowledgement is left to the event loop; it is never
    due when the notice fails or stays unanswered. *)
Definition closeNative_dropped (sock : socket) : M State unit :=
  log_flush "info" "native_message_close" None ;;;
  fun s =>
    match call (ESocketSend sock MESSAGE.CLOSE None)
               (fun h => env_socketSend E h sock MESSAGE.CLOSE) s with
    | (Resolved _, s') => (Pending, defer (TaskReleased sock) s')
    | (Rejected e, s') => (Rejected e, s')
    | (Pending, s') => (Pending, s')
    end.

(** [connectNative()]: throws without a socket; otherwise registers the
    five handlers, reconnects, and returns the closures over [socket]. *)
Definition connectNative : M State socket :=
  fun s =>
    match nativeSocket s with
    | None => (Rejected (new_Error "Native socket connection not established"), s)
    | Some sock =>
      (emit (ESocketOn sock MESSAGE.GET_PROPS) ;;;
       emit (ESocketOn sock MESSAGE.ON_APPROVE) ;;;
       emit (ESocketOn sock MESSAGE.ON_CANCEL) ;;;
       emit (ESocketOn sock MESSAGE.ON_ERROR) ;;;
       emit (ESocketOn sock MESSAGE.FALLBACK) ;;;
       emit (ESocketReconnect sock) ;;;
       resolve sock) s
    end.

(** The [restart] action handed to [onApprove] (line 281). *)
Definition restart : M State unit := fallbackToWebCheckout None None None.

(** The handlers registered by [connectNative] on [sock]. *)
Definition onMessage (sock : socket) (m : message) : M State unit :=
  match m with
  | MsgGetProps =>
    log_flush "info" "native_message_getprops" None ;;;
    _ <- getSDKProps ;; resolve tt
  | MsgOnApprove payerID paymentID billingToken =>
    log_flush "info" "native_message_onapprove" None ;;;
    emit (ESocketClose sock) ;;;
    let data := {| payerID := payerID; paymentID := paymentID;
                   billingToken := billingToken; isNativeTransaction := Some true |} in
    call_onApprove E data restart
  | MsgOnCancel =>
    log_flush "info" "native_message_oncancel" None ;;;
    emit (ESocketClose sock) ;;;
    call EOnCancel (env_onCancel E)
  | MsgOnError msg =>
    log_flush "info" "native_message_onerror" (Some msg) ;;;
    emit (ESocketClose sock) ;;;
    call (EOnError (new_Error msg)) (fun h => env_onError E h (new_Error msg))
  | MsgFallback buyerAccessToken venmoPayloadID =>
    log_flush "info" "native_message_fallback" None ;;;
    emit (ESocketClose sock) ;;;
    fallbackToWebCheckout None buyerAccessToken venmoPayloadID
  end.

Definition open : State -> result unit * State :=
  fun s =>
    match appSwitchPopup E (getNativeUrl s) s with
    | (Ok a, s') => (Ok tt, set_appSwitch (Some a) s')
    | (Throw e, s') => (Throw e, s')
    end.

Definition undefined_appSwitch : error :=
  Error TypeError "Cannot read property 'didSwitch' of undefined".

(** The [then] callback of the inner [close] (lines 333-339), run when the
    timer fires. *)
Definition close_body : M State unit :=
  (fun s =>
     match appSwitch s with
     | None => (Rejected undefined_appSwitch, s)
     | Some a =>
       if didSwitch E a (trace s)
       then (sock <- connectNative ;; detach (closeNative_dropped sock)) s
       else (Resolved tt, s)
     end) ;;;
  (fun s =>
     match appSwitch s with
     | Some a => popup_close a s
     | None => (Resolved tt, s)
     end).

(** The inner [close] of [initNative] (lines 331-341), as far as it runs
    before it returns: it starts the 500 ms timer, and its promise is
    pending until the timer has fired and the callback has run. *)
Definition close_ : M State unit :=
  emit (EDelay 500) ;;;
  fun s => (Pending, defer TaskClose s).

(** A callback that the event loop runs. *)
Definition run_task (t : task) : M State unit :=
  match t with
  | TaskClose => close_body
  | TaskReleased sock => closeNative_acked sock
  end.

Definition click : State -> result (outcome unit) * State :=
  fun s =>
    match open s with
    | (Throw e, s1) => (Throw e, s1)
    | (Ok _, s1) =>
      let (o, s2) :=
        then2 (if onClick props
               then call (EOnClick fundingSource) (fun h => env_onClick E h fundingSource)
               else resolve true)
              (fun valid : bool => if negb valid then detach close_ else resolve tt)
              (fun err => detach close_ ;;; reject err) s1 in
      (Ok o, s2)
    end.

(** [instance = connectNative(); return instance.setProps();] *)
Definition connect_setProps : M State unit :=
  sock <- connectNative ;;
  modify (set_instance (InstNative sock)) ;;;
  setProps sock.

(** The function that [start] memoizes. *)
Definition start_body : M State unit :=
  catch
    (call ECreateOrder (env_createOrder E) ;;;
     fun s =>
       match appSwitch s with
       | None => (Rejected undefined_appSwitch, s)
       | Some a =>
         if didSwitch E a (trace s)
         then (log_flush "info" "native_app_switch" None ;;;
               connect_setProps) s
         else (log_flush "info" "native_app_web_fallback" None ;;;
               fallbackToWebCheckout (as_win a) None None) s
       end)
    (fun err => detach close_ ;;; reject err).

(** [memoize(() => ...)]: the first promise is kept and handed out again. *)
Definition start : M State unit :=
  fun s =>
    match startMemo s with
    | Some o => (o, s)
    | None =>
      let (o, s') := start_body s in
      (o, set_startMemo (Some o) s')
    end.

(** [close: () => instance.close()] of the returned instance. *)
Definition close : M State unit :=
  fun s =>
    match instance s with
    | InstNoop => promiseNoop s
    | InstCheckout id => checkout_close E id s
    | InstNative sock => closeNative sock s
    end.

(** ** Operations on one page: the flow's caller, the socket, the native
    app, and the event loop, which runs any one of the callbacks that are
    due *)

Inductive op :=
| OpSetup
| OpSocketError (e : error)
| OpClick
| OpStart
| OpClose
| OpMessage (sock : socket) (m : message)
| OpRestart
| OpTask (n : nat).

Definition MESSAGE_eqb (a b : MESSAGE.t) : bool :=
  match a, b with
  | MESSAGE.SET_PROPS, MESSAGE.SET_PROPS
  | MESSAGE.GET_PROPS, MESSAGE.GET_PROPS
  | MESSAGE.CLOSE, MESSAGE.CLOSE
  | MESSAGE.FALLBACK, MESSAGE.FALLBACK
  | MESSAGE.ON_APPROVE, MESSAGE.ON_APPROVE
  | MESSAGE.ON_CANCEL, MESSAGE.ON_CANCEL
  | MESSAGE.ON_ERROR, MESSAGE.ON_ERROR => true
  | _, _ => false
  end.

(** Has a handler for [m] been registered on [sock]? *)
Definition registered (sock : socket) (m : MESSAGE.t) (h : history) : bool :=
  existsb (fun e => match e with
                    | ESocketOn s' m' => Nat.eqb s' sock && MESSAGE_eqb m' m
                    | _ => false
                    end) h.

Definition run_op (o : op) (s : State) : State :=
  match o with
  | OpSetup => snd (setupNative E config props s)
  | OpSocketError e => snd (onSocketError E e s)
  | OpClick => snd (click s)
  | OpStart => snd (start s)
  | OpClose => snd (close s)
  | OpMessage sock m =>
    if registered sock (message_type m) (trace s) then snd (onMessage sock m s) else s
  | OpRestart => snd (restart s)
  | OpTask n =>
    match pending s !! n with
    | Some t => snd (run_task t (set_pending (delete n (pending s)) s))
    | None => s
    end
  end.

Definition run_ops (ops : list op) (s : State) : State :=
  fold_left (fun s o => run_op o s) ops s.

End InitNative.

(** ** Properties of traces and of state changes *)

Definition handler_messages : list MESSAGE.t :=
  [MESSAGE.GET_PROPS; MESSAGE.ON_APPROVE; MESSAGE.ON_CANCEL; MESSAGE.ON_ERROR;
   MESSAGE.FALLBACK].

(** What [connectNative()] does to [sock]. *)
Definition connect_events (sock : socket) : history :=
  [ESocketOn sock MESSAGE.GET_PROPS; ESocketOn sock MESSAGE.ON_APPROVE;
   ESocketOn sock MESSAGE.ON_CANCEL; ESocketOn sock MESSAGE.ON_ERROR;
   ESocketOn sock MESSAGE.FALLBACK; ESocketReconnect sock].

(** In [h], all five handlers were registered on [sock] and [reconnect()]
    was called on it afterwards. *)
Definition ready (sock : socket) (h : history) : Prop :=
  exists h1 h2,
    h = h1 ++ ESocketReconnect sock :: h2 /\
    forall m, In m handler_messages -> In (ESocketOn sock m) h1.

(** Every [setProps] message in [h] goes out on a socket that is ready by
    then. *)
Definition setProps_guarded (h : history) : Prop :=
  forall pre post sock sdkProps,
    h = pre ++ ESocketSend sock MESSAGE.SET_PROPS sdkProps :: post ->
    ready sock pre.

(** Every event but the [setProps] message and the creation of a socket. *)
Definition quiet (e : event) : Prop :=
  match e with
  | ESocketSend _ MESSAGE.SET_PROPS _ | EFirebaseSocket _ _ _ => False
  | _ => True
  end.

(** [m] relates the state it starts in to the state it leaves. *)
Definition keeps {A} (R : State -> State -> Prop) (m : M State A) : Prop :=
  forall s, R s (snd (m s)).

(** Every operation but a call of [start()]. *)
Definition before_start (o : op) : Prop :=
  match o with
  | OpStart => False
  | _ => True
  end.

(** Every operation but a call of [start()], a call of the [restart]
    action and a fallback request of the native app. *)
Definition no_fallback (o : op) : Prop :=
  match o with
  | OpStart | OpRestart | OpMessage _ (MsgFallback _ _) => False
  | _ => True
  end.

(** Operations other than [setup] and the socket's error handler. *)
Definition flow_op (o : op) : Prop :=
  match o with
  | OpSetup | OpSocketError _ => False
  | _ => True
  end.

End Native.

(** ** Concrete pages used to exercise the flows *)

Module Scenario.

Definition count_uniqueIDs (h : history) : nat :=
  length (filter (fun e => match e with EUniqueID => true | _ => false end) h).

(** A cooperative page: every collaborator answers at once.  The order
    lookup, the approval call, the popup and the window-closed probe are
    left to the scenario; session ids are "A" for the first and "B" for
    every later [uniqueID()] call. *)
Definition page (order : CheckoutSession) (approve : outcome ApproveData)
  (popup : result window) (windowClosed : bool) : Env := {|
  env_createOrder := fun _ => Resolved "ORDER-1";
  env_getPageUrl := fun _ => Resolved "https://merchant.example/";
  env_getSupplementalOrderInfo := fun _ _ => Resolved order;
  env_exchangeAccessTokenForAuthCode := fun _ _ => Resolved "AUTH-1";
  env_oneClickApproveOrder := fun _ _ => approve;
  env_onApprove := fun _ _ => Resolved tt;
  env_onApprove_restarts := fun _ _ => 0;
  env_onCancel := fun _ => Resolved tt;
  env_onError := fun _ _ => Resolved tt;
  env_onClick := fun _ _ => Resolved true;
  env_checkoutStart := fun _ _ => Resolved tt;
  env_checkoutClose := fun _ _ => Resolved tt;
  env_stringifyError := err_message;
  env_uniqueID := fun h => if Nat.eqb (count_uniqueIDs h) 0 then "A" else "B";
  env_socketSend := fun _ _ _ => Resolved tt;
  env_popup := fun _ _ => popup;
  env_isWindowClosed := fun _ _ => windowClosed;
  env_localStorage_getItem := fun _ _ => Ok None;
  env_supportsPopups := true;
  env_isIos := false;
  env_isAndroid := true;
  env_isSafari := false;
  env_isChrome := true;
  env_getUserAgent := "Mozilla/5.0 (Linux; Android 10) Chrome/80";
  env_getDomain := "https://www.paypal.com";
  env_extendUrl := fun base _ => base;
  env_NATIVE_CHECKOUT_URI := fun _ => "/smart/checkout/native";
  env_WEB_CHECKOUT_URI := "/checkoutnow"
|}.

Definition card_I1 : Instrument :=
  {| inst_instrumentID := Some "I1"; inst_type := Some "card"; inst_oneClick := Some true |}.

Definition wallet_I1 : gmap string WalletFunding :=
  {[ FUNDING.PAYPAL := {| instruments := [card_I1] |} ]}.

Definition serviceData_I1 : ServiceData :=
  {| sd_buyerAccessToken := Some "TOKEN-1"; sd_wallet := Some wallet_I1;
     sd_facilitatorAccessToken := "FACILITATOR-1"; sd_eligibility_native := true |}.

Definition card_slow : Instrument :=
  {| inst_instrumentID := Some "I1"; inst_type := Some "card"; inst_oneClick := Some false |}.

Definition serviceData_slow : ServiceData :=
  {| sd_buyerAccessToken := Some "TOKEN-1";
     sd_wallet := Some {[ FUNDING.PAYPAL := {| instruments := [card_slow] |} ]};
     sd_facilitatorAccessToken := "FACILITATOR-1"; sd_eligibility_native := true |}.

(** A wallet whose PayPal entry lists the instrument id "I1" twice: first
    without one-click, then with it. *)
Definition serviceData_twice : ServiceData :=
  {| sd_buyerAccessToken := Some "TOKEN-1";
     sd_wallet := Some {[ FUNDING.PAYPAL := {| instruments := [card_slow; card_I1] |} ]};
     sd_facilitatorAccessToken := "FACILITATOR-1"; sd_eligibility_native := true |}.

Definition select (fundingSource : string) (instrumentID : option string) : Payment.t :=
  {| Payment.win := None; Payment.fundingSource := fundingSource;
     Payment.instrumentID := instrumentID; Payment.buyerAccessToken := None;
     Payment.venmoPayloadID := None; Payment.authCode := None;
     Payment.isClick := Some true; Payment.buyerIntent := None |}.

Definition payment_I1 : Payment.t := select FUNDING.PAYPAL (Some "I1").
Definition payment_I2 : Payment.t := select FUNDING.PAYPAL (Some "I2").

Definition approved : outcome ApproveData :=
  Resolved {| payerID := Some "PAYER-1"; paymentID := None; billingToken := None;
              isNativeTransaction := None |}.

Definition declined : outcome ApproveData := Rejected (new_Error "approval declined").

Definition needs_address : CheckoutSession :=
  {| isShippingAddressRequired := true; shippingAddress := None |}.

Definition has_full_address : CheckoutSession :=
  {| isShippingAddressRequired := true;
     shippingAddress := Some {| isFullAddress := true |} |}.

Definition no_shipping : CheckoutSession :=
  {| isShippingAddressRequired := false; shippingAddress := None |}.

(** [start()] of the wallet-capture instance for the selection "I1", run
    on a fresh page; a construction failure shows as [None]. *)
Definition wallet_start (E : Env) : option (outcome unit * history) :=
  match WalletCapture.initWalletCapture E payment_I1 serviceData_I1 with
  | Ok flow => Some (WalletCapture.start flow [])
  | Throw _ => None
  end.

(** The wallet-capture instance for the selection "I1". *)
Definition flow_I1 (E : Env) : WalletCapture.PaymentFlowInstance :=
  match WalletCapture.initWalletCapture E payment_I1 serviceData_I1 with
  | Ok flow => flow
  | Throw _ => {| WalletCapture.start := resolve tt; WalletCapture.close := resolve tt;
                  WalletCapture.restart := resolve tt |}
  end.

Definition props_native : Native.Props := {|
  Native.platform := PLATFORM.MOBILE;
  Native.onShippingChange := false;
  Native.createBillingAgreement := false;
  Native.createSubscription := false;
  Native.enableNativeCheckout := false;
  Native.onClick := false;
  Native.commit := true;
  Native.buttonSessionID := "BUTTON-1";
  Native.env := "production";
  Native.stageHost := None;
  Native.apiStageHost := None
|}.

Definition config_native : Native.Config :=
  {| Native.version := "5.0.1"; Native.firebase := Some "firebase-config" |}.

Definition payment_native : Payment.t := select FUNDING.PAYPAL None.

(** A page on Android Chrome whose popup opens as window 0. *)
Definition android (windowClosed : bool) : Env :=
  page no_shipping approved (Ok 0) windowClosed.

(** A fresh page on which [setup] has run once. *)
Definition after_setup (E : Env) : Native.State :=
  snd (Native.setupNative E config_native props_native Native.initial_state).

(** One native flow instance on that page, and what happens to it. *)
Definition native_run (E : Env) (ops : list Native.op) : Native.State :=
  Native.run_ops E props_native config_native payment_native serviceData_I1 ops
    (Native.initNative (after_setup E)).

Definition is_window_close (e : event) : bool :=
  match e with EWindowClose _ => true | _ => false end.

Definition is_delay (e : event) : bool :=
  match e with EDelay _ => true | _ => false end.

Definition is_socket_created (e : event) : bool :=
  match e with EFirebaseSocket _ _ _ => true | _ => false end.

Definition is_approve_call (e : event) : bool :=
  match e with EOneClickApproveOrder _ => true | _ => false end.

Definition is_checkout_init (e : event) : bool :=
  match e with ECheckoutInit _ => true | _ => false end.

End Scenario.

(** ** What the native flow may leave in a trace *)

Module NativeTrace.

(** The calls a native flow for [payment] makes: none of the wallet-capture
    API calls; web checkouts only for the same funding source, instrument,
    auth code and buyer intent, marked [isClick: false]; [onApprove] only
    with data marked as a native transaction. *)
Definition allowed (payment : Payment.t) (e : event) : Prop :=
  match e with
  | EGetSupplementalOrderInfo _
  | EExchangeAccessTokenForAuthCode _
  | EOneClickApproveOrder _ => False
  | ECheckoutInit p =>
    Payment.isClick p = Some false /\
    Payment.fundingSource p = Payment.fundingSource payment /\
    Payment.instrumentID p = Payment.instrumentID payment /\
    Payment.authCode p = Payment.authCode payment /\
    Payment.buyerIntent p = Payment.buyerIntent payment
  | EOnApprove data => isNativeTransaction data = Some true
  | EOnClick funding => funding = Payment.fundingSource payment
  | EDelay ms => ms = 500
  | _ => True
  end.

End NativeTrace.

(** ** Reading traces *)

Module Trace.

(** What was recorded after the history [h], given the later history [h']. *)
Definition since (h h' : history) : history := drop (length h) h'.

Definition count (p : event -> bool) (h : history) : nat := length (filter p h).

Definition is_approve_call (e : event) : bool :=
  match e with EOneClickApproveOrder _ => true | _ => false end.

Definition is_onApprove (e : event) : bool :=
  match e with EOnApprove _ => true | _ => false end.

Definition is_checkout_init (e : event) : bool :=
  match e with ECheckoutInit _ => true | _ => false end.

Definition is_window_close (e : event) : bool :=
  match e with EWindowClose _ => true | _ => false end.

Definition is_socket_send (e : event) : bool :=
  match e with ESocketSend _ _ _ => true | _ => false end.

(** Any call on a message socket. *)
Definition is_socket_call (e : event) : bool :=
  match e with
  | ESocketOnError _ | ESocketOn _ _ | ESocketReconnect _ | ESocketSend _ _ _
  | ESocketClose _ => true
  | _ => false
  end.

End Trace.

(** ** More pages: failing collaborators and other browsers *)

Module Cases.

Record Browser := { ios : bool; android : bool; safari : bool; chrome : bool }.

Definition android_chrome : Browser :=
  {| ios := false; android := true; safari := false; chrome := true |}.

Definition ios_safari : Browser :=
  {| ios := true; android := false; safari := true; chrome := false |}.

Definition ios_chrome : Browser :=
  {| ios := true; android := false; safari := false; chrome := true |}.

(** A page on which the listed collaborators answer as given and every
    other one answers at once, as on [Scenario.page]. *)
Definition world (createOrder : outcome string) (lookup : outcome CheckoutSession)
  (approve : outcome ApproveData) (onClick : outcome bool) (pageUrl : outcome string)
  (popup : result window) (windowClosed : bool) (browser : Browser) : Env := {|
  env_createOrder := fun _ => createOrder;
  env_getPageUrl := fun _ => pageUrl;
  env_getSupplementalOrderInfo := fun _ _ => lookup;
  env_exchangeAccessTokenForAuthCode := fun _ _ => Resolved "AUTH-1";
  env_oneClickApproveOrder := fun _ _ => approve;
  env_onApprove := fun _ _ => Resolved tt;
  env_onApprove_restarts := fun _ _ => 0;
  env_onCancel := fun _ => Resolved tt;
  env_onError := fun _ _ => Resolved tt;
  env_onClick := fun _ _ => onClick;
  env_checkoutStart := fun _ _ => Resolved tt;
  env_checkoutClose := fun _ _ => Resolved tt;
  env_stringifyError := err_message;
  env_uniqueID := fun h => if Nat.eqb (Scenario.count_uniqueIDs h) 0 then "A" else "B";
  env_socketSend := fun _ _ _ => Resolved tt;
  env_popup := fun _ _ => popup;
  env_isWindowClosed := fun _ _ => windowClosed;
  env_localStorage_getItem := fun _ _ => Ok None;
  env_supportsPopups := true;
  env_isIos := ios browser;
  env_isAndroid := android browser;
  env_isSafari := safari browser;
  env_isChrome := chrome browser;
  env_getUserAgent := "Mozilla/5.0";
  env_getDomain := "https://www.paypal.com";
  env_extendUrl := fun base _ => base;
  env_NATIVE_CHECKOUT_URI := fun _ => "/smart/checkout/native";
  env_WEB_CHECKOUT_URI := "/checkoutnow"
|}.

Definition order_id : outcome string := Resolved "ORDER-1".
Definition page_url : outcome string := Resolved "https://merchant.example/".
Definition lookup_ok : outcome CheckoutSession := Resolved Scenario.no_shipping.
Definition failed (msg : string) {A} : outcome A := Rejected (new_Error msg).
Definition blocked : result window := Throw (Error PopupOpenError "popup blocked").

(** The wallet-capture page of the scenarios, with the order creation and
    the order lookup left open. *)
Definition wallet_world (createOrder : outcome string) (lookup : outcome CheckoutSession)
  (approve : outcome ApproveData) : Env :=
  world createOrder lookup approve (Resolved true) page_url (Ok 0) false android_chrome.

(** A native page, with the order creation, the click validation, the popup
    and the browser left open. *)
Definition native_world (createOrder : outcome string) (onClick : outcome bool)
  (popup : result window) (windowClosed : bool) (browser : Browser) : Env :=
  world createOrder lookup_ok Scenario.approved onClick page_url popup windowClosed browser.

(** The props of the native scenarios with a click validation callback. *)
Definition props_validating : Native.Props := {|
  Native.platform := PLATFORM.MOBILE;
  Native.onShippingChange := false;
  Native.createBillingAgreement := false;
  Native.createSubscription := false;
  Native.enableNativeCheckout := false;
  Native.onClick := true;
  Native.commit := true;
  Native.buttonSessionID := "BUTTON-1";
  Native.env := "production";
  Native.stageHost := None;
  Native.apiStageHost := None
|}.

(** One native flow instance on a page where [setup] has run. *)
Definition ready_page (E : Env) : Native.State :=
  Native.initNative
    (snd (Native.setupNative E Scenario.config_native Scenario.props_native
            Native.initial_state)).

(** The same after a click. *)
Definition clicked (E : Env) (props : Native.Props) : Native.State :=
  snd (Native.click E props Scenario.payment_native (ready_page E)).

(** The page [E] with web checkouts whose [close()] fails. *)
Definition closing_fails (E : Env) : Env := {|
  env_createOrder := env_createOrder E;
  env_getPageUrl := env_getPageUrl E;
  env_getSupplementalOrderInfo := env_getSupplementalOrderInfo E;
  env_exchangeAccessTokenForAuthCode := env_exchangeAccessTokenForAuthCode E;
  env_oneClickApproveOrder := env_oneClickApproveOrder E;
  env_onApprove := env_onApprove E;
  env_onApprove_restarts := env_onApprove_restarts E;
  env_onCancel := env_onCancel E;
  env_onError := env_onError E;
  env_onClick := env_onClick E;
  env_checkoutStart := env_checkoutStart E;
  env_checkoutClose := fun _ _ => Rejected (new_Error "checkout already closed");
  env_stringifyError := env_stringifyError E;
  env_uniqueID := env_uniqueID E;
  env_socketSend := env_socketSend E;
  env_popup := env_popup E;
  env_isWindowClosed := env_isWindowClosed E;
  env_localStorage_getItem := env_localStorage_getItem E;
  env_supportsPopups := env_supportsPopups E;
  env_isIos := env_isIos E;
  env_isAndroid := env_isAndroid E;
  env_isSafari := env_isSafari E;
  env_isChrome := env_isChrome E;
  env_getUserAgent := env_getUserAgent E;
  env_getDomain := env_getDomain E;
  env_extendUrl := env_extendUrl E;
  env_NATIVE_CHECKOUT_URI := env_NATIVE_CHECKOUT_URI E;
  env_WEB_CHECKOUT_URI := env_WEB_CHECKOUT_URI E
|}.

(** A page on Android Chrome whose click validation says no and whose
    popup closes on its own, which the flow takes for an app switch; web
    checkouts on it fail to close. *)
Definition refused_click : Env :=
  closing_fails (native_world order_id (Resolved false) (Ok 0) true android_chrome).

(** A click, then the timer of the inner close fires, then the native app
    asks for a fallback on the handlers that the timer's callback has
    registered; [start()] is never called. *)
Definition fallback_before_start : list Native.op :=
  [Native.OpClick; Native.OpTask 0; Native.OpMessage 0 (Native.MsgFallback None None)].

End Cases.

(** * Properties *)


(** Unfold the promise combinators and the calls into plain matches. *)
Ltac run_promise :=
  cbv beta iota delta [then_ then2 catch detach resolve reject emit call log_flush
    checkout_init checkout_start checkout_close trace record history_Traced fst snd].

(** ** Wallet capture *)

Section WalletCaptureFacts.
Import WalletCapture.
Variable E : Env.
Variable payment : Payment.t.
Variable serviceData : ServiceData.

(** An [onApprove] that does not call [restart] is a plain call. *)
Lemma call_onApprove_plain (data : ApproveData) (restart : M history unit) (h : history) :
  env_onApprove_restarts E h data = 0 ->
  call_onApprove E data restart h = (env_onApprove E h data, (h ++ [EOnApprove data])%list).
Proof. intros Hn. unfold call_onApprove. cbn [trace history_Traced]. rewrite Hn. reflexivity. Qed.

(** What a successful construction has checked, and the closures it returns. *)
Lemma initWalletCapture_Ok (flow : PaymentFlowInstance) :
  initWalletCapture E payment serviceData = Ok flow ->
  exists token id type,
    sd_buyerAccessToken serviceData = Some token /\
    Payment.instrumentID payment = Some id /\
    start flow = start_ E payment token id type /\
    restart flow = fallbackToWebCheckout E payment token /\
    close flow = resolve tt.
Proof.
  unfold initWalletCapture.
  destruct (Payment.instrumentID payment) as [id|] eqn:Hid; [|discriminate].
  destruct (sd_buyerAccessToken serviceData) as [token|] eqn:Htok;
    [|destruct (negb _); discriminate].
  destruct (negb (truthy_string (Some id))); [discriminate|].
  destruct (negb (truthy_string (Some token))); [discriminate|].
  destruct (sd_wallet serviceData) as [wallet|]; [|discriminate].
  destruct (wallet !! Payment.fundingSource payment) as [wf|]; [|discriminate].
  destruct (find_instrument wf (Some id)) as [inst|]; [|discriminate].
  destruct (negb (truthy_string (inst_type inst))); [discriminate|].
  intros [= <-]. exists token, id, (default "" (inst_type inst)). simpl. auto.
Qed.

(** The fallback path, step by step: log, exchange the buyer access token,
    and only with an auth code create and start the web checkout. *)
Lemma fallbackToWebCheckout_run (token : string) (h : history) :
  let h1 := (h ++ [ELog "info" "web_checkout_fallback" None true])%list in
  let h2 := (h1 ++ [EExchangeAccessTokenForAuthCode token])%list in
  fallbackToWebCheckout E payment token h =
  match env_exchangeAccessTokenForAuthCode E h1 token with
  | Resolved authCode =>
    (env_checkoutStart E (h2 ++ [ECheckoutInit (checkoutPayment payment authCode)])
                       (count_checkout_inits h2),
     h2 ++ [ECheckoutInit (checkoutPayment payment authCode);
            ECheckoutStart (count_checkout_inits h2)])%list
  | Rejected e => (Rejected e, h2)
  | Pending => (Pending, h2)
  end.
Proof.
  unfold fallbackToWebCheckout. run_promise.
  destruct (env_exchangeAccessTokenForAuthCode E _ token); try reflexivity.
  rewrite <- !app_assoc. reflexivity.
Qed.

Lemma shippingRequired_run (orderID : string) (order : CheckoutSession) (h : history) :
  env_getSupplementalOrderInfo E h orderID = Resolved order ->
  shippingRequired E orderID h =
  (Resolved (isShippingAddressRequired order
             && negb (match shippingAddress order with
                      | Some a => isFullAddress a
                      | None => false
                      end)),
   (h ++ [EGetSupplementalOrderInfo orderID])%list).
Proof.
  intros Hq. unfold shippingRequired. run_promise. rewrite Hq.
  destruct (isShippingAddressRequired order); [|reflexivity].
  destruct (shippingAddress order) as [[[]]|]; reflexivity.
Qed.

(** Where [start()] stands once the order exists and its shipping needs
    are known. *)
Lemma start_after_lookup (token id type orderID : string) (order : CheckoutSession)
  (h : history) :
  env_createOrder E h = Resolved orderID ->
  env_getSupplementalOrderInfo E (h ++ [ECreateOrder]) orderID = Resolved order ->
  let h1 := (h ++ [ECreateOrder; EGetSupplementalOrderInfo orderID])%list in
  start_ E payment token id type h =
  if isShippingAddressRequired order
     && negb (match shippingAddress order with
              | Some a => isFullAddress a
              | None => false
              end)
  then fallbackToWebCheckout E payment token h1
  else
    match env_oneClickApproveOrder E h1 (approve_request token id type orderID) with
    | Resolved r =>
      let data := {| payerID := payerID r; paymentID := None; billingToken := None;
                     isNativeTransaction := None |} in
      call_onApprove E data (fallbackToWebCheckout E payment token)
        (h1 ++ [EOneClickApproveOrder (approve_request token id type orderID)])%list
    | Rejected err =>
      fallbackToWebCheckout E payment token
        (h1 ++ [EOneClickApproveOrder (approve_request token id type orderID);
                ELog "warn" "approve_order_error" (Some (env_stringifyError E err)) true])%list
    | Pending =>
      (Pending, h1 ++ [EOneClickApproveOrder (approve_request token id type orderID)])%list
    end.
Proof.
  intros Hc Hq h1. unfold start_.
  unfold then_ at 1. unfold call at 1. cbn [trace record history_Traced]. rewrite Hc.
  unfold then_ at 1. rewrite (shippingRequired_run _ _ _ Hq).
  replace ((h ++ [ECreateOrder]) ++ [EGetSupplementalOrderInfo orderID])%list with h1
    by (unfold h1; rewrite <- app_assoc; reflexivity).
  destruct (_ && _); [reflexivity|].
  run_promise.
  destruct (env_oneClickApproveOrder E h1 _); rewrite <- ?app_assoc; reflexivity.
Qed.

End WalletCaptureFacts.

(** C1 (as amended).  When the supplemental order info reports that a
    shipping address is required and the cart does not already hold a full
    address, [start()] of the wallet-capture instance makes no call to
    [oneClickApproveOrder]: after the order lookup it logs the fallback and
    exchanges the buyer access token; once that exchange yields an auth
    code it creates and starts the web checkout with a payment that
    carries the auth code, [isClick: false] and the buyer intent "pay with
    different funding/shipping", and the outcome of [start()] is the
    outcome of that checkout; an exchange that fails or stays pending ends
    [start()] the same way. *)
Theorem C1_required_shipping_takes_fallback
  (E : Env) (payment : Payment.t) (serviceData : ServiceData)
  (flow : WalletCapture.PaymentFlowInstance)
  (h : history) (orderID : string) (order : CheckoutSession) :
  WalletCapture.initWalletCapture E payment serviceData = Ok flow ->
  env_createOrder E h = Resolved orderID ->
  env_getSupplementalOrderInfo E (h ++ [ECreateOrder]) orderID = Resolved order ->
  isShippingAddressRequired order = true ->
  (forall a, shippingAddress order = Some a -> isFullAddress a = false) ->
  exists token,
    sd_buyerAccessToken serviceData = Some token /\
    let h1 := (h ++ [ECreateOrder; EGetSupplementalOrderInfo orderID;
                     ELog "info" "web_checkout_fallback" None true])%list in
    let h2 := (h1 ++ [EExchangeAccessTokenForAuthCode token])%list in
    (forall req, ~ In (EOneClickApproveOrder req)
                      (drop (length h) (snd (WalletCapture.start flow h)))) /\
    match env_exchangeAccessTokenForAuthCode E h1 token with
    | Resolved authCode =>
      let p := WalletCapture.checkoutPayment payment authCode in
      Payment.authCode p = Some authCode /\
      Payment.isClick p = Some false /\
      Payment.buyerIntent p = Some BUYER_INTENT.PAY_WITH_DIFFERENT_FUNDING_SHIPPING /\
      WalletCapture.start flow h =
      (env_checkoutStart E (h2 ++ [ECheckoutInit p]) (count_checkout_inits h2),
       h2 ++ [ECheckoutInit p; ECheckoutStart (count_checkout_inits h2)])%list
    | Rejected e => WalletCapture.start flow h = (Rejected e, h2)
    | Pending => WalletCapture.start flow h = (Pending, h2)
    end.
Proof.
  intros Hinit Hc Hq Hreq Hfull.
  destruct (initWalletCapture_Ok _ _ _ _ Hinit) as (token & id & type & Htok & _ & Hstart & _).
  exists token. split; [exact Htok|].
  rewrite Hstart, (start_after_lookup E payment token id type orderID order h Hc Hq).
  rewrite Hreq.
  assert (Hno : match shippingAddress order with
                | Some a => isFullAddress a
                | None => false
                end = false).
  { destruct (shippingAddress order) as [a|]; [apply Hfull|]; reflexivity. }
  rewrite Hno. cbn [andb negb].
  rewrite fallbackToWebCheckout_run. rewrite <- !app_assoc. cbn [app].
  destruct (env_exchangeAccessTokenForAuthCode E _ token) as [authCode|e|]; cbn [snd].
  - split; [|repeat split].
    intros req. rewrite <- ?app_assoc, drop_app_length. cbn [In app]. intros Hin.
    repeat (destruct Hin as [Hin|Hin]; [discriminate Hin|]). exact Hin.
  - split; [|reflexivity].
    intros req. rewrite <- ?app_assoc, drop_app_length. cbn [In app]. intros Hin.
    repeat (destruct Hin as [Hin|Hin]; [discriminate Hin|]). exact Hin.
  - split; [|reflexivity].
    intros req. rewrite <- ?app_assoc, drop_app_length. cbn [In app]. intros Hin.
    repeat (destruct Hin as [Hin|Hin]; [discriminate Hin|]). exact Hin.
Qed.

(** C1, on a page whose order needs an address that the cart lacks. *)
Lemma C1_required_shipping_witness :
  WalletCapture.start (Scenario.flow_I1 (Scenario.page Scenario.needs_address Scenario.approved (Ok 0) false)) [] =
  (Resolved tt,
   [ECreateOrder; EGetSupplementalOrderInfo "ORDER-1";
    ELog "info" "web_checkout_fallback" None true;
    EExchangeAccessTokenForAuthCode "TOKEN-1";
    ECheckoutInit (WalletCapture.checkoutPayment Scenario.payment_I1 "AUTH-1");
    ECheckoutStart 0]).
Proof.
  destruct (C1_required_shipping_takes_fallback
              (Scenario.page Scenario.needs_address Scenario.approved (Ok 0) false)
              Scenario.payment_I1 Scenario.serviceData_I1
              (Scenario.flow_I1 (Scenario.page Scenario.needs_address Scenario.approved (Ok 0) false))
              [] "ORDER-1" Scenario.needs_address)
    as (token & Htok & _ & Hrun).
  - reflexivity.
  - reflexivity.
  - reflexivity.
  - reflexivity.
  - intros a Ha. discriminate Ha.
  - injection Htok as <-. exact (proj2 (proj2 (proj2 Hrun))).
Defined.

(** C1 as stated fails: the order info reports that a shipping address is
    required, the cart already holds a full address, and [start()] calls
    [oneClickApproveOrder] and never creates a web checkout. *)
Lemma C1_counterexample :
  isShippingAddressRequired Scenario.has_full_address = true /\
  exists h,
    Scenario.wallet_start (Scenario.page Scenario.has_full_address Scenario.approved (Ok 0) false)
      = Some (Resolved tt, h) /\
    existsb Scenario.is_approve_call h = true /\
    existsb Scenario.is_checkout_init h = false.
Proof.
  split; [reflexivity|]. eexists. split; [vm_compute; reflexivity|]. split; reflexivity.
Qed.

(** C4.  When the one-click approval call rejects, [start()] logs
    [approve_order_error] with the stringified error and then runs the
    web-checkout fallback: from there on it is the [restart] path, and its
    outcome is the outcome of the token exchange and of the web checkout's
    own [start()], never the approval error. *)
Theorem C4_rejected_approval_takes_fallback
  (E : Env) (payment : Payment.t) (serviceData : ServiceData)
  (flow : WalletCapture.PaymentFlowInstance)
  (h : history) (orderID : string) (order : CheckoutSession) (err : error) :
  WalletCapture.initWalletCapture E payment serviceData = Ok flow ->
  env_createOrder E h = Resolved orderID ->
  env_getSupplementalOrderInfo E (h ++ [ECreateOrder]) orderID = Resolved order ->
  (isShippingAddressRequired order = false \/
   exists a, shippingAddress order = Some a /\ isFullAddress a = true) ->
  (forall req, env_oneClickApproveOrder E
                 (h ++ [ECreateOrder; EGetSupplementalOrderInfo orderID]) req
               = Rejected err) ->
  exists token req,
    sd_buyerAccessToken serviceData = Some token /\
    let h1 := h ++ [ECreateOrder; EGetSupplementalOrderInfo orderID;
                    EOneClickApproveOrder req;
                    ELog "warn" "approve_order_error" (Some (env_stringifyError E err)) true] in
    let h2 := h1 ++ [ELog "info" "web_checkout_fallback" None true] in
    let h3 := h2 ++ [EExchangeAccessTokenForAuthCode token] in
    WalletCapture.start flow h = WalletCapture.restart flow h1 /\
    match env_exchangeAccessTokenForAuthCode E h2 token with
    | Resolved authCode =>
      let p := WalletCapture.checkoutPayment payment authCode in
      WalletCapture.start flow h =
      (env_checkoutStart E (h3 ++ [ECheckoutInit p]) (count_checkout_inits h3),
       h3 ++ [ECheckoutInit p; ECheckoutStart (count_checkout_inits h3)])
    | Rejected e => WalletCapture.start flow h = (Rejected e, h3)
    | Pending => WalletCapture.start flow h = (Pending, h3)
    end.
Proof.
  intros Hinit Hc Hq Hship Hrej.
  destruct (initWalletCapture_Ok _ _ _ _ Hinit)
    as (token & id & type & Htok & _ & Hstart & Hrestart & _).
  exists token, (WalletCapture.approve_request token id type orderID).
  split; [exact Htok|].
  rewrite Hstart, Hrestart,
    (start_after_lookup E payment token id type orderID order h Hc Hq).
  assert (Hno : isShippingAddressRequired order
                && negb (match shippingAddress order with
                         | Some a => isFullAddress a
                         | None => false
                         end) = false).
  { destruct Hship as [-> | (a & -> & ->)]; [reflexivity|].
    apply andb_false_r. }
  rewrite Hno, Hrej. cbv zeta.
  rewrite <- !app_assoc. cbn [app].
  split; [reflexivity|].
  rewrite fallbackToWebCheckout_run. rewrite <- !app_assoc. cbn [app].
  destruct (env_exchangeAccessTokenForAuthCode E _ token); reflexivity.
Qed.

(** C4, on a page whose approval call is declined. *)
Lemma C4_rejected_approval_witness :
  fst (WalletCapture.start
         (Scenario.flow_I1 (Scenario.page Scenario.no_shipping Scenario.declined (Ok 0) false)) [])
  = Resolved tt.
Proof.
  destruct (C4_rejected_approval_takes_fallback
              (Scenario.page Scenario.no_shipping Scenario.declined (Ok 0) false)
              Scenario.payment_I1 Scenario.serviceData_I1
              (Scenario.flow_I1 (Scenario.page Scenario.no_shipping Scenario.declined (Ok 0) false))
              [] "ORDER-1" Scenario.no_shipping (new_Error "approval declined"))
    as (token & req & Htok & _ & Hrun).
  - reflexivity.
  - reflexivity.
  - reflexivity.
  - left. reflexivity.
  - intros req. reflexivity.
  - cbn in Hrun. rewrite Hrun. reflexivity.
Defined.

(** C6.  [initWalletCapture] throws, and so returns no instance, whenever
    the selected instrument id is missing, the buyer access token is
    missing, the wallet has no entry for the funding source, no instrument
    of that entry carries the selected id, or the instrument found for the
    id has no type. *)
Theorem C6_initWalletCapture_fails_fast
  (E : Env) (payment : Payment.t) (serviceData : ServiceData) :
  truthy_string (Payment.instrumentID payment) = false \/
  truthy_string (sd_buyerAccessToken serviceData) = false \/
  (forall wallet, sd_wallet serviceData = Some wallet ->
     wallet !! Payment.fundingSource payment = None) \/
  (forall wallet walletFunding inst,
     sd_wallet serviceData = Some wallet ->
     wallet !! Payment.fundingSource payment = Some walletFunding ->
     In inst (instruments walletFunding) ->
     inst_instrumentID inst <> Payment.instrumentID payment) \/
  (forall wallet walletFunding inst,
     sd_wallet serviceData = Some wallet ->
     wallet !! Payment.fundingSource payment = Some walletFunding ->
     WalletCapture.find_instrument walletFunding (Payment.instrumentID payment) = Some inst ->
     truthy_string (inst_type inst) = false) ->
  (exists e, WalletCapture.initWalletCapture E payment serviceData = Throw e) /\
  (forall flow, WalletCapture.initWalletCapture E payment serviceData <> Ok flow).
Proof.
  intros Hbad.
  assert (Hthrow : exists e, WalletCapture.initWalletCapture E payment serviceData = Throw e).
  { unfold WalletCapture.initWalletCapture.
    destruct (truthy_string (Payment.instrumentID payment)) eqn:Hid; cbn [negb]; [|eauto].
    destruct (truthy_string (sd_buyerAccessToken serviceData)) eqn:Htok; cbn [negb]; [|eauto].
    destruct (sd_wallet serviceData) as [wallet|] eqn:Hw; [|eauto].
    destruct (wallet !! Payment.fundingSource payment) as [wf|] eqn:Hwf; [|eauto].
    destruct (WalletCapture.find_instrument wf (Payment.instrumentID payment))
      as [inst|] eqn:Hfind; [|eauto].
    destruct (truthy_string (inst_type inst)) eqn:Hty; cbn [negb]; [|eauto].
    exfalso. destruct Hbad as [H|[H|[H|[H|H]]]].
    - discriminate H.
    - discriminate H.
    - specialize (H wallet eq_refl). congruence.
    - apply find_some in Hfind as [Hin Heq].
      apply (H wallet wf inst eq_refl Hwf Hin).
      unfold strict_eq in Heq. apply bool_decide_eq_true_1 in Heq. exact Heq.
    - rewrite (H wallet wf inst eq_refl Hwf Hfind) in Hty. discriminate Hty. }
  split; [exact Hthrow|].
  destruct Hthrow as [e He]. intros flow. rewrite He. discriminate.
Qed.

(** C6, for a selection without an instrument id. *)
Lemma C6_initWalletCapture_witness :
  exists e,
    WalletCapture.initWalletCapture
      (Scenario.page Scenario.no_shipping Scenario.approved (Ok 0) false)
      (Scenario.select FUNDING.PAYPAL None) Scenario.serviceData_I1 = Throw e.
Proof.
  apply (C6_initWalletCapture_fails_fast
           (Scenario.page Scenario.no_shipping Scenario.approved (Ok 0) false)
           (Scenario.select FUNDING.PAYPAL None) Scenario.serviceData_I1).
  left. reflexivity.
Defined.

(** [Array.find]: the first instrument of the entry that carries the id. *)
Lemma find_instrument_first (walletFunding : WalletFunding) (id : option string)
  (inst : Instrument) :
  WalletCapture.find_instrument walletFunding id = Some inst <->
  exists pre post,
    instruments walletFunding = pre ++ inst :: post /\
    inst_instrumentID inst = id /\
    forall other, In other pre -> inst_instrumentID other <> id.
Proof.
  unfold WalletCapture.find_instrument. destruct walletFunding as [l]. cbn [instruments].
  induction l as [|x l IH].
  - split; [discriminate|]. intros (pre & post & Heq & _). destruct pre; discriminate Heq.
  - cbn [find]. unfold strict_eq.
    destruct (bool_decide (inst_instrumentID x = id)) eqn:Hd.
    + apply bool_decide_eq_true_1 in Hd. split.
      * intros [= <-]. exists [], l. split; [reflexivity|]. split; [exact Hd|].
        intros other [].
      * intros (pre & post & Heq & Hid & Hpre). destruct pre as [|y pre].
        -- injection Heq as -> _. reflexivity.
        -- injection Heq as -> _. exfalso. apply (Hpre y); [left; reflexivity|exact Hd].
    + apply bool_decide_eq_false_1 in Hd. rewrite IH. split.
      * intros (pre & post & -> & Hid & Hpre). exists (x :: pre), post.
        split; [reflexivity|]. split; [exact Hid|].
        intros other [<-|Hin]; [exact Hd|apply Hpre, Hin].
      * intros (pre & post & Heq & Hid & Hpre). destruct pre as [|y pre].
        -- injection Heq as -> _. contradiction.
        -- injection Heq as -> ->. exists pre, post.
           split; [reflexivity|]. split; [exact Hid|].
           intros other Hin. apply Hpre. right. exact Hin.
Qed.

(** C8 (as amended).  [isWalletCapturePaymentEligible] returns true when
    the funding source is PAYPAL, no window is set, the selected instrument
    id is not empty, and the first instrument of the wallet's entry that
    carries that id has a non-empty type and [oneClick = true]; it returns
    false whenever no instrument of the entry carries the selected id, and
    whenever that first instrument lacks [oneClick = true], whatever the
    other fields are. *)
Theorem C8_isWalletCapturePaymentEligible :
  (forall walletFunding id inst,
     WalletCapture.find_instrument walletFunding id = Some inst <->
     exists pre post,
       instruments walletFunding = pre ++ inst :: post /\
       inst_instrumentID inst = id /\
       forall other, In other pre -> inst_instrumentID other <> id) /\
  (forall serviceData payment wallet walletFunding inst,
     Payment.fundingSource payment = FUNDING.PAYPAL ->
     Payment.win payment = None ->
     sd_wallet serviceData = Some wallet ->
     wallet !! FUNDING.PAYPAL = Some walletFunding ->
     truthy_string (Payment.instrumentID payment) = true ->
     WalletCapture.find_instrument walletFunding (Payment.instrumentID payment) = Some inst ->
     truthy_string (inst_type inst) = true ->
     inst_oneClick inst = Some true ->
     WalletCapture.isWalletCapturePaymentEligible serviceData payment = true) /\
  (forall serviceData payment,
     (forall wallet walletFunding inst,
        sd_wallet serviceData = Some wallet ->
        wallet !! Payment.fundingSource payment = Some walletFunding ->
        In inst (instruments walletFunding) ->
        inst_instrumentID inst <> Payment.instrumentID payment) ->
     WalletCapture.isWalletCapturePaymentEligible serviceData payment = false) /\
  (forall serviceData payment,
     (forall wallet walletFunding inst,
        sd_wallet serviceData = Some wallet ->
        wallet !! Payment.fundingSource payment = Some walletFunding ->
        WalletCapture.find_instrument walletFunding (Payment.instrumentID payment) = Some inst ->
        inst_oneClick inst <> Some true) ->
     WalletCapture.isWalletCapturePaymentEligible serviceData payment = false).
Proof.
  split; [exact find_instrument_first|]. split; [|split].
  - intros sd p wallet wf inst Hfs Hwin Hw Hwf Hid Hfind Hty Hone.
    unfold WalletCapture.isWalletCapturePaymentEligible.
    rewrite Hfs, Hwin, Hw, Hid, Hwf, Hfind, Hty, Hone. reflexivity.
  - intros sd p Hnone.
    unfold WalletCapture.isWalletCapturePaymentEligible.
    destruct (negb (String.eqb _ _)); [reflexivity|].
    destruct (truthy (Payment.win p)); [reflexivity|].
    destruct (sd_wallet sd) as [wallet|]; [|reflexivity].
    destruct (negb (truthy_string _)); [reflexivity|].
    destruct (wallet !! Payment.fundingSource p) as [wf|] eqn:Hwf; [|reflexivity].
    destruct (WalletCapture.find_instrument wf (Payment.instrumentID p))
      as [inst|] eqn:Hfind; [|reflexivity].
    exfalso. apply find_some in Hfind as [Hin Heq].
    apply (Hnone wallet wf inst eq_refl Hwf Hin).
    unfold strict_eq in Heq. apply bool_decide_eq_true_1 in Heq. exact Heq.
  - intros sd p Hone.
    unfold WalletCapture.isWalletCapturePaymentEligible.
    destruct (negb (String.eqb _ _)); [reflexivity|].
    destruct (truthy (Payment.win p)); [reflexivity|].
    destruct (sd_wallet sd) as [wallet|]; [|reflexivity].
    destruct (negb (truthy_string _)); [reflexivity|].
    destruct (wallet !! Payment.fundingSource p) as [wf|] eqn:Hwf; [|reflexivity].
    destruct (WalletCapture.find_instrument wf (Payment.instrumentID p))
      as [inst|] eqn:Hfind; [|reflexivity].
    specialize (Hone wallet wf inst eq_refl Hwf Hfind).
    destruct (inst_oneClick inst) as [[]|]; [congruence|reflexivity|reflexivity].
Qed.

(** C8 on the wallet that holds the one-click card "I1": selecting "I1"
    is eligible, selecting "I2" is not, and "I1" without [oneClick] is not. *)
Lemma C8_isWalletCapturePaymentEligible_witness :
  WalletCapture.isWalletCapturePaymentEligible Scenario.serviceData_I1 Scenario.payment_I1 = true /\
  WalletCapture.isWalletCapturePaymentEligible Scenario.serviceData_I1 Scenario.payment_I2 = false /\
  WalletCapture.isWalletCapturePaymentEligible Scenario.serviceData_slow Scenario.payment_I1 = false.
Proof.
  destruct C8_isWalletCapturePaymentEligible as (_ & Hyes & Habsent & Hslow).
  split; [|split].
  - apply (Hyes Scenario.serviceData_I1 Scenario.payment_I1 Scenario.wallet_I1
             {| instruments := [Scenario.card_I1] |} Scenario.card_I1);
      reflexivity.
  - apply Habsent. intros wallet wf inst [= <-] Hwf Hin.
    vm_compute in Hwf. injection Hwf as <-.
    destruct Hin as [<-|[]]. discriminate.
  - apply Hslow. intros wallet wf inst [= <-] Hwf Hfind.
    vm_compute in Hwf. injection Hwf as <-.
    vm_compute in Hfind. injection Hfind as <-. discriminate.
Defined.

(** C8 as stated fails: the wallet's entry for PAYPAL holds an instrument
    with the selected id "I1", a type and [oneClick = true], no window is
    set, and the payment is not eligible, because an earlier instrument of
    the entry carries the same id without [oneClick]. *)
Lemma C8_counterexample :
  Payment.fundingSource Scenario.payment_I1 = FUNDING.PAYPAL /\
  Payment.win Scenario.payment_I1 = None /\
  (exists wallet walletFunding,
     sd_wallet Scenario.serviceData_twice = Some wallet /\
     wallet !! FUNDING.PAYPAL = Some walletFunding /\
     In Scenario.card_I1 (instruments walletFunding)) /\
  inst_instrumentID Scenario.card_I1 = Payment.instrumentID Scenario.payment_I1 /\
  inst_type Scenario.card_I1 = Some "card" /\
  inst_oneClick Scenario.card_I1 = Some true /\
  WalletCapture.isWalletCapturePaymentEligible Scenario.serviceData_twice Scenario.payment_I1
  = false.
Proof.
  split; [reflexivity|]. split; [reflexivity|]. split.
  - eexists _, {| instruments := [Scenario.card_slow; Scenario.card_I1] |}.
    split; [reflexivity|]. split; [vm_compute; reflexivity|]. right. left. reflexivity.
  - repeat split; vm_compute; reflexivity.
Qed.

(** ** Native: how the operations change the state *)

Section Frame.
Import Native.
Variable E : Env.
Variable props : Props.
Variable config : Config.
Variable payment : Payment.t.
Variable serviceData : ServiceData.
Variable R : State -> State -> Prop.
Hypothesis R_refl : forall s, R s s.
Hypothesis R_trans : forall a b c, R a b -> R b c -> R a c.
Hypothesis R_record : forall e s, quiet e -> R s (record e s).
Hypothesis R_appSwitch : forall v s, R s (set_appSwitch v s).
Hypothesis R_checkout : forall id s, R s (set_instance (InstCheckout id) s).
Hypothesis R_startMemo : forall v s, R s (set_startMemo v s).
Hypothesis R_pending : forall v s, R s (set_pending v s).
Hypothesis R_connect_setProps : keeps R (connect_setProps E props payment serviceData).

Lemma keeps_resolve {A} (a : A) : keeps R (resolve a).
Proof. intros s. apply R_refl. Qed.

Lemma keeps_reject {A} (e : error) : keeps R (reject (A := A) e).
Proof. intros s. apply R_refl. Qed.

Lemma keeps_then {A B} (p : M State A) (f : A -> M State B) :
  keeps R p -> (forall a, keeps R (f a)) -> keeps R (then_ p f).
Proof.
  intros Hp Hf s. unfold then_. specialize (Hp s).
  destruct (p s) as [[a|e|] s']; cbn [snd] in *; [|assumption..].
  eapply R_trans; [eassumption|apply Hf].
Qed.

Lemma keeps_then2 {A B} (p : M State A) (f : A -> M State B) (g : error -> M State B) :
  keeps R p -> (forall a, keeps R (f a)) -> (forall e, keeps R (g e)) ->
  keeps R (then2 p f g).
Proof.
  intros Hp Hf Hg s. unfold then2. specialize (Hp s).
  destruct (p s) as [[a|e|] s']; cbn [snd] in *; [| |assumption].
  - eapply R_trans; [eassumption|apply Hf].
  - eapply R_trans; [eassumption|apply Hg].
Qed.

Lemma keeps_catch {A} (p : M State A) (g : error -> M State A) :
  keeps R p -> (forall e, keeps R (g e)) -> keeps R (catch p g).
Proof. intros Hp Hg. apply keeps_then2; auto using keeps_resolve. Qed.

Lemma keeps_detach {A} (p : M State A) : keeps R p -> keeps R (detach p).
Proof. intros Hp s. apply Hp. Qed.

Lemma keeps_emit (e : event) : quiet e -> keeps R (emit e).
Proof. intros He s. apply R_record, He. Qed.

Lemma keeps_call {A} (e : event) (oracle : history -> outcome A) :
  quiet e -> keeps R (call e oracle).
Proof. intros He s. apply R_record, He. Qed.

Lemma keeps_log_flush (level name : string) (err : option string) :
  keeps R (log_flush level name err).
Proof. apply keeps_emit. exact I. Qed.

Lemma keeps_checkout_init (p : Payment.t) : keeps R (checkout_init p).
Proof. intros s. apply R_record. exact I. Qed.

Lemma keeps_getSDKProps : keeps R (getSDKProps E props payment serviceData).
Proof.
  apply keeps_then.
  - intros s. unfold call. cbn [snd]. eapply R_trans; apply R_record; exact I.
  - intros r s. apply R_refl.
Qed.

Lemma keeps_closeNative_acked (sock : socket) : keeps R (closeNative_acked sock).
Proof.
  unfold closeNative_acked.
  apply keeps_then; [apply keeps_log_flush|intros _]. apply keeps_emit. exact I.
Qed.

Lemma keeps_closeNative (sock : socket) : keeps R (closeNative E sock).
Proof.
  unfold closeNative.
  apply keeps_then; [apply keeps_log_flush|intros _].
  apply keeps_then; [apply keeps_call; exact I|intros _].
  apply keeps_closeNative_acked.
Qed.

Lemma keeps_closeNative_dropped (sock : socket) : keeps R (closeNative_dropped E sock).
Proof.
  unfold closeNative_dropped. apply keeps_then; [apply keeps_log_flush|intros _].
  intros s. unfold call.
  destruct (env_socketSend E (trace s) sock MESSAGE.CLOSE) as [[]|e|]; cbn [snd];
    try (apply R_record; exact I).
  eapply R_trans; [|apply R_pending]. apply R_record. exact I.
Qed.

Lemma keeps_connectNative : keeps R connectNative.
Proof.
  intros s. unfold connectNative. destruct (nativeSocket s) as [sock|]; [|apply R_refl].
  revert s.
  change (keeps R (emit (ESocketOn sock MESSAGE.GET_PROPS) ;;;
                   emit (ESocketOn sock MESSAGE.ON_APPROVE) ;;;
                   emit (ESocketOn sock MESSAGE.ON_CANCEL) ;;;
                   emit (ESocketOn sock MESSAGE.ON_ERROR) ;;;
                   emit (ESocketOn sock MESSAGE.FALLBACK) ;;;
                   emit (ESocketReconnect sock) ;;;
                   resolve sock)).
  repeat (apply keeps_then; [apply keeps_emit; exact I|intros _]).
  apply keeps_resolve.
Qed.

Lemma keeps_popup_close (a : AppSwitchPopup) : keeps R (popup_close a).
Proof.
  unfold popup_close. destruct (as_win a); [apply keeps_emit; exact I|apply keeps_resolve].
Qed.

Lemma keeps_close_body : keeps R (close_body E).
Proof.
  unfold close_body. apply keeps_then; [|intros _].
  - intros s. destruct (appSwitch s) as [a|]; [|apply R_refl].
    destruct (didSwitch E a (trace s)); [|apply R_refl].
    apply keeps_then; [apply keeps_connectNative|].
    intros sock. apply keeps_detach, keeps_closeNative_dropped.
  - intros s. destruct (appSwitch s) as [a|]; [apply keeps_popup_close|apply R_refl].
Qed.

Lemma keeps_close_ : keeps R close_.
Proof.
  unfold close_. apply keeps_then; [apply keeps_emit; exact I|intros _].
  intros s. apply R_pending.
Qed.

Lemma keeps_run_task (t : task) : keeps R (run_task E t).
Proof. destruct t; [apply keeps_close_body|apply keeps_closeNative_acked]. Qed.

(** The event loop runs one of the callbacks that are due. *)
Lemma keeps_task (n : nat) (s : State) :
  R s (run_op E props config payment serviceData (OpTask n) s).
Proof.
  cbn [run_op]. destruct (pending s !! n) as [t|]; [|apply R_refl].
  eapply R_trans; [apply R_pending|apply keeps_run_task].
Qed.

(** [onApprove] with a [restart] action that keeps the relation. *)
Lemma keeps_call_onApprove (data : ApproveData) (again : M State unit) :
  keeps R again -> keeps R (call_onApprove E data again).
Proof.
  intros Hr s. unfold call_onApprove. cbn [snd].
  induction (env_onApprove_restarts E (trace s) data) as [|n IH].
  - apply R_record. exact I.
  - cbn [Nat.iter nat_rect]. eapply R_trans; [exact IH|apply Hr].
Qed.

Lemma keeps_open : forall s, R s (snd (open E props payment s)).
Proof.
  intros s. unfold open, appSwitchPopup.
  destruct (env_popup E (trace s) _) as [w|err]; cbn [snd].
  - eapply R_trans; [|apply R_appSwitch]; apply R_record; exact I.
  - destruct (err_kind err); cbn [snd]; try (apply R_record; exact I).
    destruct (env_isIos E && env_isSafari E); cbn [snd].
    + eapply R_trans; [|apply R_appSwitch]; apply R_record; exact I.
    + apply R_record; exact I.
Qed.

Lemma keeps_click : forall s, R s (snd (click E props payment s)).
Proof.
  intros s. unfold click. pose proof (keeps_open s) as Ho.
  destruct (open E props payment s) as [[[]|e] s1]; cbn [snd] in *; [|exact Ho].
  match goal with
  | |- R s (snd (let (o, s2) := ?m s1 in _)) =>
    assert (Hm : keeps R m); [|specialize (Hm s1); destruct (m s1) as [o s2]]
  end.
  - apply keeps_then2.
    + destruct (onClick props); [apply keeps_call; exact I|apply keeps_resolve].
    + intros [|]; cbn [negb]; [apply keeps_resolve|apply keeps_detach, keeps_close_].
    + intros err. apply keeps_then; [apply keeps_detach, keeps_close_|].
      intros _. apply keeps_reject.
  - cbn [snd] in *. eapply R_trans; eassumption.
Qed.

Lemma keeps_fallbackToWebCheckout (w : option window) (token payload : option string) :
  keeps R (fallbackToWebCheckout E payment w token payload).
Proof.
  unfold fallbackToWebCheckout.
  apply keeps_then; [apply keeps_checkout_init|intros id].
  apply keeps_then; [intros s; apply R_checkout|intros _].
  apply keeps_call. exact I.
Qed.

Lemma keeps_start_body : keeps R (start_body E props payment serviceData).
Proof.
  unfold start_body. apply keeps_catch.
  - apply keeps_then; [apply keeps_call; exact I|intros _].
    intros s. destruct (appSwitch s) as [a|]; [|apply R_refl].
    destruct (didSwitch E a (trace s)).
    + apply keeps_then; [apply keeps_log_flush|intros _]. apply R_connect_setProps.
    + apply keeps_then; [apply keeps_log_flush|intros _].
      apply keeps_fallbackToWebCheckout.
  - intros err. apply keeps_then; [apply keeps_detach, keeps_close_|].
    intros _. apply keeps_reject.
Qed.

Lemma keeps_start : keeps R (start E props payment serviceData).
Proof.
  intros s. unfold start. destruct (startMemo s); [apply R_refl|].
  pose proof (keeps_start_body s) as Hb.
  destruct (start_body E props payment serviceData s) as [o s']. cbn [snd] in *.
  eapply R_trans; [exact Hb|apply R_startMemo].
Qed.

Lemma keeps_close : keeps R (close E).
Proof.
  intros s. unfold close. destruct (instance s).
  - apply R_refl.
  - apply R_record. exact I.
  - apply keeps_closeNative.
Qed.

(** The handlers that ask for no web checkout, on a page whose [onApprove]
    never calls [restart]. *)
Lemma keeps_onMessage_no_fallback (sock : socket) (m : message) :
  (forall h data, env_onApprove_restarts E h data = 0) ->
  message_type m <> MESSAGE.FALLBACK ->
  keeps R (onMessage E props payment serviceData sock m).
Proof.
  intros Hq Hm. destruct m; cbn [onMessage]; [| | | |now destruct Hm];
    repeat (apply keeps_then; [|intros _]);
    first [apply keeps_log_flush | apply keeps_emit; exact I
          | apply keeps_call; exact I | apply keeps_getSDKProps | apply keeps_resolve
          | idtac].
  intros s. unfold call_onApprove. rewrite Hq. cbn [Nat.iter nat_rect snd].
  apply R_record. exact I.
Qed.

Lemma keeps_onMessage (sock : socket) (m : message) :
  keeps R (onMessage E props payment serviceData sock m).
Proof.
  destruct m; cbn [onMessage];
    repeat (apply keeps_then; [|intros _]);
    first [apply keeps_log_flush | apply keeps_emit; exact I
          | apply keeps_call; exact I | apply keeps_getSDKProps | apply keeps_resolve
          | apply keeps_call_onApprove; apply keeps_fallbackToWebCheckout
          | apply keeps_fallbackToWebCheckout].
Qed.

(** Everything but [setup] and the socket's error handler. *)
Lemma keeps_flow_op (o : op) (s : State) :
  flow_op o -> R s (run_op E props config payment serviceData o s).
Proof.
  destruct o; intros Ho; try contradiction.
  - apply keeps_click.
  - apply keeps_start.
  - apply keeps_close.
  - cbn [run_op]. destruct (registered _ _ _); [apply keeps_onMessage|apply R_refl].
  - apply keeps_fallbackToWebCheckout.
  - apply keeps_task.
Qed.

(** Where sending [setProps] and installing any delegate are as harmless as
    any other step, so is the app-switch branch of [start()]. *)
Hypothesis R_instance : forall v s, R s (set_instance v s).
Hypothesis R_send :
  forall sock sdkProps s, R s (record (ESocketSend sock MESSAGE.SET_PROPS sdkProps) s).

Lemma keeps_setProps (sock : socket) : keeps R (setProps E props payment serviceData sock).
Proof.
  unfold setProps.
  apply keeps_then; [apply keeps_getSDKProps|intros sdkProps].
  apply keeps_then; [apply keeps_log_flush|intros _].
  apply keeps_then; [intros s; apply R_send|intros _].
  apply keeps_log_flush.
Qed.

Lemma keeps_connect_setProps_send : keeps R (connect_setProps E props payment serviceData).
Proof.
  unfold connect_setProps.
  apply keeps_then; [apply keeps_connectNative|intros sock].
  apply keeps_then; [intros s; apply R_instance|intros _].
  apply keeps_setProps.
Qed.

End Frame.

(** Use a frame lemma whose side conditions are all in the context. *)
Ltac framed lem :=
  let H := fresh in
  first [ eassert (H := lem) | eassert (H := lem _) | eassert (H := lem _ _)
        | eassert (H := lem _ _ _) | eassert (H := lem _ _ _ _)
        | eassert (H := lem _ _ _ _ _) ];
  repeat (let T := type of H in
          match T with
          | ?P -> _ => let HP := fresh in assert (HP : P) by assumption; specialize (H HP); clear HP
          end);
  eapply H; clear H.

Section NativeFacts.
Import Native.
Variable E : Env.
Variable props : Props.
Variable config : Config.
Variable payment : Payment.t.
Variable serviceData : ServiceData.

(** [setup], step by step: a fresh session id, the memoized socket for it,
    the error handler, the page url. *)
Lemma setupNative_run (s : State) :
  let uid := env_uniqueID E (trace s) in
  let key := (uid, firebase config, version config) in
  let sock := match socketMemo s !! key with
              | Some sock => sock
              | None => count_sockets (trace s)
              end in
  let created := match socketMemo s !! key with
                 | Some _ => []
                 | None => [EFirebaseSocket uid (version config) (firebase config)]
                 end in
  let s' := snd (setupNative E config props s) in
  trace s' = trace s ++ [EUniqueID] ++ created ++ [ESocketOnError sock; EGetPageUrl] /\
  nativeSocket s' = Some sock /\
  socketMemo s' = match socketMemo s !! key with
                  | Some _ => socketMemo s
                  | None => <[key := sock]> (socketMemo s)
                  end /\
  sessionUID s' = Some uid /\
  instance s' = instance s /\
  appSwitch s' = appSwitch s /\
  startMemo s' = startMemo s.
Proof.
  cbv zeta. unfold setupNative, getNativeSocket. cbn [trace record State_Traced].
  cbn [socketMemo set_sessionUID set_trace st_trace].
  assert (Hcount : count_sockets (st_trace s ++ [EUniqueID]) = count_sockets (st_trace s)).
  { unfold count_sockets. rewrite filter_app, length_app. cbn. lia. }
  destruct (socketMemo s !! _) as [sock|]; run_promise; cbn [State_Traced trace record];
    destruct (env_getPageUrl E _); cbn; rewrite <- ?app_assoc, ?Hcount; cbn;
    repeat split; reflexivity.
Qed.

Lemma onSocketError_run (err : error) (s : State) :
  let s' := snd (onSocketError E err s) in
  trace s' = trace s ++ [ELog "error" "native_socket_error" (Some (env_stringifyError E err)) false] /\
  nativeSocket s' = None /\
  instance s' = instance s /\
  startMemo s' = startMemo s.
Proof. repeat split; reflexivity. Qed.

Lemma count_sockets_snoc (h : history) (e : event) :
  count_sockets (h ++ [e]) =
  count_sockets h + match e with EFirebaseSocket _ _ _ => 1 | _ => 0 end.
Proof.
  unfold count_sockets. rewrite filter_app, length_app. destruct e; reflexivity.
Qed.

(** The flow's own operations leave the module-level socket alone and
    create no socket. *)
Lemma flow_op_module (o : op) (s : State) :
  flow_op o ->
  let s' := run_op E props config payment serviceData o s in
  nativeSocket s' = nativeSocket s /\
  socketMemo s' = socketMemo s /\
  count_sockets (trace s') = count_sockets (trace s).
Proof.
  set (R := fun s s' : State =>
              nativeSocket s' = nativeSocket s /\
              socketMemo s' = socketMemo s /\
              count_sockets (trace s') = count_sockets (trace s)).
  assert (R_refl : forall s, R s s) by (intros; repeat split).
  assert (R_trans : forall a b c, R a b -> R b c -> R a c).
  { unfold R. intros a b c (-> & -> & ->) (-> & -> & ->). repeat split. }
  assert (R_record : forall e s, quiet e -> R s (record e s)).
  { intros e s0 He. repeat split. cbn [trace record State_Traced set_trace st_trace].
    rewrite count_sockets_snoc. destruct e; try lia. contradiction. }
  assert (R_send : forall sock sdkProps s,
             R s (record (ESocketSend sock MESSAGE.SET_PROPS sdkProps) s)).
  { intros sock p s0. repeat split. cbn [trace record State_Traced set_trace st_trace].
    rewrite count_sockets_snoc. lia. }
  assert (R_appSwitch : forall v s, R s (set_appSwitch v s)) by (intros; repeat split).
  assert (R_instance : forall v s, R s (set_instance v s)) by (intros; repeat split).
  assert (R_checkout : forall id s, R s (set_instance (InstCheckout id) s))
    by (intros; repeat split).
  assert (R_startMemo : forall v s, R s (set_startMemo v s)) by (intros; repeat split).
  assert (R_pending : forall v s, R s (set_pending v s)) by (intros; repeat split).
  assert (R_connect_setProps : keeps R (connect_setProps E props payment serviceData)).
  { framed (keeps_connect_setProps_send E props payment serviceData R). }
  intros Ho. framed (keeps_flow_op E props config payment serviceData R). exact Ho.
Qed.

(** Without a call of [start()], of the [restart] action or a fallback
    request, nothing replaces the delegate of [close()]. *)
Lemma no_fallback_instance (o : op) (s : State) :
  (forall h data, env_onApprove_restarts E h data = 0) ->
  no_fallback o ->
  instance (run_op E props config payment serviceData o s) = instance s.
Proof.
  set (R := fun s s' : State => instance s' = instance s).
  assert (R_refl : forall s, R s s) by reflexivity.
  assert (R_trans : forall a b c, R a b -> R b c -> R a c)
    by (unfold R; intros a b c -> ->; reflexivity).
  assert (R_record : forall e s, quiet e -> R s (record e s)) by reflexivity.
  assert (R_appSwitch : forall v s, R s (set_appSwitch v s)) by reflexivity.
  assert (R_pending : forall v s, R s (set_pending v s)) by reflexivity.
  intros Hquiet.
  destruct o as [|err| | | |sock m| |n]; cbn [no_fallback]; intros Ho;
    try contradiction.
  - apply (setupNative_run s).
  - apply (onSocketError_run err s).
  - framed (keeps_click E props payment R).
  - framed (keeps_close E R).
  - cbn [run_op]. destruct (registered _ _ _); [|reflexivity].
    framed (keeps_onMessage_no_fallback E props payment serviceData R); [exact Hquiet|].
    destruct m; try discriminate. contradiction.
  - framed (keeps_task E props config payment serviceData R).
Qed.

(** Without a call of [start()], the delegate of [close()] stays what it is
    or becomes a web checkout. *)
Lemma before_start_delegate (o : op) (s : State) :
  before_start o ->
  instance (run_op E props config payment serviceData o s) = instance s \/
  exists id, instance (run_op E props config payment serviceData o s) = InstCheckout id.
Proof.
  set (R := fun s s' : State =>
              instance s' = instance s \/ exists id, instance s' = InstCheckout id).
  assert (R_refl : forall s, R s s) by (intros; left; reflexivity).
  assert (R_trans : forall a b c, R a b -> R b c -> R a c).
  { unfold R. intros a b c Hab [Hbc|Hbc]; [rewrite Hbc; exact Hab|right; exact Hbc]. }
  assert (R_record : forall e s, quiet e -> R s (record e s)) by (intros; left; reflexivity).
  assert (R_appSwitch : forall v s, R s (set_appSwitch v s)) by (intros; left; reflexivity).
  assert (R_pending : forall v s, R s (set_pending v s)) by (intros; left; reflexivity).
  assert (R_checkout : forall id s, R s (set_instance (InstCheckout id) s))
    by (intros id s0; right; exists id; reflexivity).
  change (before_start o -> R s (run_op E props config payment serviceData o s)).
  destruct o as [|err| | | |sock m| |n]; cbn [before_start]; intros Ho;
    try contradiction.
  - left. apply (setupNative_run s).
  - left. apply (onSocketError_run err s).
  - framed (keeps_click E props payment R).
  - framed (keeps_close E R).
  - cbn [run_op]. destruct (registered _ _ _); [|apply R_refl].
    framed (keeps_onMessage E props payment serviceData R).
  - framed (keeps_fallbackToWebCheckout E payment R).
  - framed (keeps_task E props config payment serviceData R).
Qed.

(** Once [start()] has run, nothing forgets its promise. *)
Lemma startMemo_stable (o : op) (s : State) (r : outcome unit) :
  startMemo s = Some r ->
  startMemo (run_op E props config payment serviceData o s) = Some r.
Proof.
  set (R := fun s s' : State => startMemo s' = startMemo s).
  assert (R_refl : forall s, R s s) by reflexivity.
  assert (R_trans : forall a b c, R a b -> R b c -> R a c)
    by (unfold R; intros a b c -> ->; reflexivity).
  assert (R_record : forall e s, quiet e -> R s (record e s)) by reflexivity.
  assert (R_appSwitch : forall v s, R s (set_appSwitch v s)) by reflexivity.
  assert (R_checkout : forall id s, R s (set_instance (InstCheckout id) s)) by reflexivity.
  assert (R_pending : forall v s, R s (set_pending v s)) by reflexivity.
  intros Hmemo.
  enough (Hsame : R s (run_op E props config payment serviceData o s))
    by (unfold R in Hsame; rewrite Hsame; exact Hmemo).
  destruct o as [|err| | | |sock m| |n].
  - apply (setupNative_run s).
  - apply (onSocketError_run err s).
  - framed (keeps_click E props payment R).
  - cbn [run_op]. unfold start. rewrite Hmemo. apply R_refl.
  - framed (keeps_close E R).
  - cbn [run_op]. destruct (registered _ _ _); [|reflexivity].
    framed (keeps_onMessage E props payment serviceData R).
  - framed (keeps_fallbackToWebCheckout E payment R).
  - framed (keeps_task E props config payment serviceData R).
Qed.

Lemma startMemo_stable_ops (ops : list op) (s : State) (r : outcome unit) :
  startMemo s = Some r ->
  startMemo (run_ops E props config payment serviceData ops s) = Some r.
Proof.
  revert s. induction ops as [|o ops IH]; intros s Hmemo; [exact Hmemo|].
  cbn [run_ops fold_left]. apply IH, startMemo_stable, Hmemo.
Qed.

End NativeFacts.

(** C5.  A second call of the native [start()] returns the outcome of the
    first and changes nothing: no order is created, no popup opened and no
    [setProps] sent again.  The same holds for any later call, whatever
    happened on the page in between. *)
Theorem C5_native_start_twice
  (E : Env) (props : Native.Props) (config : Native.Config) (payment : Payment.t)
  (serviceData : ServiceData) (s : Native.State) :
  let first := Native.start E props payment serviceData s in
  Native.start E props payment serviceData (snd first) = first /\
  forall ops,
    let later := Native.run_ops E props config payment serviceData ops (snd first) in
    Native.start E props payment serviceData later = (fst first, later).
Proof.
  cbv zeta.
  assert (Hmemo : Native.startMemo (snd (Native.start E props payment serviceData s))
                  = Some (fst (Native.start E props payment serviceData s))).
  { unfold Native.start. destruct (Native.startMemo s) as [o|] eqn:Hs; [exact Hs|].
    destruct (Native.start_body E props payment serviceData s) as [o s']. reflexivity. }
  split.
  - unfold Native.start at 1. rewrite Hmemo.
    destruct (Native.start E props payment serviceData s); reflexivity.
  - intros ops. unfold Native.start at 1.
    rewrite (startMemo_stable_ops E props config payment serviceData ops _ _ Hmemo).
    reflexivity.
Qed.

(** C7 (as amended).  As long as [start()] was never called, whatever else
    happened on the page, [close()] of the native flow instance performs no
    message-socket close: its delegate is never the socket session, and it
    makes no call on a socket at all.  The delegate is either still the
    initial no-op, and then [close()] resolves and leaves the page as it
    is, or a web checkout that a fallback request of the native app or the
    [restart] action has installed, and then [close()] is that checkout's
    [close()] and ends as it does.  The delegate is still the initial no-op
    whenever no fallback request has arrived and [restart] has not been
    called, neither directly nor by the merchant's [onApprove]. *)
Theorem C7_native_close_before_start
  (E : Env) (props : Native.Props) (config : Native.Config) (payment : Payment.t)
  (serviceData : ServiceData) (s0 : Native.State) (ops : list Native.op) :
  Forall Native.before_start ops ->
  let s := Native.run_ops E props config payment serviceData ops (Native.initNative s0) in
  (forall sock, Native.instance s <> Native.InstNative sock) /\
  Forall (fun e => Trace.is_socket_call e = false)
         (Trace.since (trace s) (trace (snd (Native.close E s)))) /\
  (Native.close E s = (Resolved tt, s) \/
   exists id,
     Native.instance s = Native.InstCheckout id /\
     Native.close E s = (env_checkoutClose E (trace s) id, record (ECheckoutClose id) s)) /\
  ((forall h data, env_onApprove_restarts E h data = 0) ->
   Forall Native.no_fallback ops ->
   Native.close E s = (Resolved tt, s)).
Proof.
  intros Hops. cbv zeta.
  assert (Hinv : Native.instance
                   (Native.run_ops E props config payment serviceData ops
                      (Native.initNative s0)) = Native.InstNoop \/
                 exists id,
                   Native.instance
                     (Native.run_ops E props config payment serviceData ops
                        (Native.initNative s0)) = Native.InstCheckout id).
  { assert (H0 : Native.instance (Native.initNative s0) = Native.InstNoop \/
                 exists id, Native.instance (Native.initNative s0) = Native.InstCheckout id)
      by (left; reflexivity).
    revert H0. generalize (Native.initNative s0) as s.
    induction Hops as [|o ops Ho _ IH]; intros s Hs; [exact Hs|].
    cbn [Native.run_ops fold_left]. apply IH.
    destruct (before_start_delegate E props config payment serviceData o s Ho) as [Hsame|Hnew];
      [rewrite Hsame; exact Hs|right; exact Hnew]. }
  split; [|split; [|split]].
  - intros sock Hsock. destruct Hinv as [Hn|[id Hc]]; congruence.
  - unfold Native.close, Trace.since.
    destruct Hinv as [Hn|[id Hc]]; [rewrite Hn|rewrite Hc]; cbn [snd].
    + rewrite drop_all. constructor.
    + unfold checkout_close, call.
      cbn [snd trace record Native.State_Traced Native.set_trace Native.st_trace].
      rewrite drop_app_length. repeat constructor.
  - unfold Native.close.
    destruct Hinv as [Hn|[id Hc]]; [left; rewrite Hn; reflexivity|right].
    exists id. split; [exact Hc|]. rewrite Hc. reflexivity.
  - intros Hquiet Hnone.
    assert (Hinst : Native.instance
                      (Native.run_ops E props config payment serviceData ops
                         (Native.initNative s0)) = Native.InstNoop).
    { assert (H0 : Native.instance (Native.initNative s0) = Native.InstNoop) by reflexivity.
      revert H0. generalize (Native.initNative s0) as s. clear Hinv Hops.
      induction Hnone as [|o ops Ho _ IH]; intros s Hs; [exact Hs|].
      cbn [Native.run_ops fold_left]. apply IH.
      rewrite (no_fallback_instance E props config payment serviceData o s Hquiet Ho).
      exact Hs. }
    unfold Native.close. rewrite Hinst. reflexivity.
Qed.

(** C7, after a click that opened the popup. *)
Lemma C7_native_close_before_start_witness :
  Native.close (Scenario.android false)
    (Scenario.native_run (Scenario.android false) [Native.OpClick])
  = (Resolved tt,
     Scenario.native_run (Scenario.android false) [Native.OpClick]).
Proof.
  apply (C7_native_close_before_start (Scenario.android false) Scenario.props_native
           Scenario.config_native Scenario.payment_native Scenario.serviceData_I1
           (Scenario.after_setup (Scenario.android false)) [Native.OpClick]).
  - repeat constructor.
  - intros h data. reflexivity.
  - repeat constructor.
Defined.

(** C7 as stated fails.  A click whose validation says no starts the inner
    close; when its timer fires the popup has closed on its own, which the
    flow takes for an app switch, so the callback registers the handlers;
    the native app then asks for a fallback, which installs a web checkout
    as the delegate.  [start()] was never called, and [close()] is now that
    checkout's [close()]: here it rejects. *)
Lemma C7_counterexample :
  let s := Native.run_ops Cases.refused_click Cases.props_validating Scenario.config_native
             Scenario.payment_native Scenario.serviceData_I1 Cases.fallback_before_start
             (Cases.ready_page Cases.refused_click) in
  existsb (fun o => match o with Native.OpStart => true | _ => false end)
          Cases.fallback_before_start = false /\
  Native.startMemo s = None /\
  Native.instance s = Native.InstCheckout 0 /\
  Native.close Cases.refused_click s
  = (Rejected (new_Error "checkout already closed"), record (ECheckoutClose 0) s).
Proof. vm_compute. repeat split. Qed.

(** C10.  Without a module-level native socket [isNativePaymentEligible]
    returns false for every payment; the socket is absent on a fresh page,
    stays absent until [setup] runs, and is absent again after a socket
    error. *)
Theorem C10_no_socket_no_native_payment (E : Env) :
  (forall s payment props,
     Native.nativeSocket s = None ->
     Native.isNativePaymentEligible E s payment props = false) /\
  (forall props config payment serviceData ops,
     Forall (fun o => o <> Native.OpSetup) ops ->
     Native.nativeSocket
       (Native.run_ops E props config payment serviceData ops
          (Native.initNative Native.initial_state)) = None) /\
  (forall err s, Native.nativeSocket (snd (Native.onSocketError E err s)) = None).
Proof.
  split; [|split].
  - intros s payment props Hs. unfold Native.isNativePaymentEligible. rewrite Hs.
    destruct (truthy (Payment.win payment)); [reflexivity|].
    destruct (_ && _); reflexivity.
  - intros props config payment serviceData ops Hops.
    assert (H0 : Native.nativeSocket (Native.initNative Native.initial_state) = None)
      by reflexivity.
    revert H0. generalize (Native.initNative Native.initial_state) as s.
    induction Hops as [|o ops Ho _ IH]; intros s Hs; [exact Hs|].
    cbn [Native.run_ops fold_left]. apply IH.
    destruct o as [|err| | | |sock m| |n]; [congruence|reflexivity|..];
      match goal with
      | |- Native.nativeSocket (Native.run_op _ _ _ _ _ ?o _) = None =>
        rewrite (proj1 (flow_op_module E props config payment serviceData o s I));
        exact Hs
      end.
  - reflexivity.
Qed.

(** C10, on a fresh page and for a PayPal payment. *)
Lemma C10_no_socket_witness :
  Native.isNativePaymentEligible (Scenario.android false)
    (Native.initNative Native.initial_state) Scenario.payment_native Scenario.props_native
  = false.
Proof.
  apply (proj1 (C10_no_socket_no_native_payment (Scenario.android false))).
  reflexivity.
Defined.

(** C3 (as amended).  The module-level socket variable is written by
    [setup] and by the socket's error handler only, and sockets are created
    by [setup] only: every other operation leaves the variable and the
    number of sockets as they are, and the error handler sets the variable
    to absent.  [setup] draws a new session id on every call and takes the
    socket that is memoized for (session id, firebase config, version):
    when that triple was used before, the earlier socket is installed again
    and none is created; otherwise a new socket is created and installed,
    whether or not a valid socket was there. *)
Theorem C3_native_socket_lifecycle
  (E : Env) (props : Native.Props) (config : Native.Config) (payment : Payment.t)
  (serviceData : ServiceData) :
  (forall o s,
     Native.flow_op o ->
     let s' := Native.run_op E props config payment serviceData o s in
     Native.nativeSocket s' = Native.nativeSocket s /\
     Native.socketMemo s' = Native.socketMemo s /\
     Native.count_sockets (trace s') = Native.count_sockets (trace s)) /\
  (forall err s,
     let s' := snd (Native.onSocketError E err s) in
     Native.nativeSocket s' = None /\
     Native.count_sockets (trace s') = Native.count_sockets (trace s)) /\
  (forall s,
     let s' := snd (Native.setupNative E config props s) in
     let key := (env_uniqueID E (trace s), Native.firebase config, Native.version config) in
     match Native.socketMemo s !! key with
     | Some sock =>
       Native.nativeSocket s' = Some sock /\
       Native.count_sockets (trace s') = Native.count_sockets (trace s)
     | None =>
       Native.nativeSocket s' = Some (Native.count_sockets (trace s)) /\
       Native.socketMemo s' !! key = Some (Native.count_sockets (trace s)) /\
       Native.count_sockets (trace s') = S (Native.count_sockets (trace s))
     end).
Proof.
  split; [|split].
  - intros o s Ho. apply flow_op_module, Ho.
  - intros err s. split; [reflexivity|].
    pose proof (onSocketError_run E err s) as Hrun. cbv zeta in Hrun.
    destruct Hrun as (-> & _). rewrite count_sockets_snoc. lia.
  - intros s. cbv zeta.
    destruct (setupNative_run E props config s) as (Ht & Hsock & Hmemo & _).
    rewrite Ht, Hsock, Hmemo.
    destruct (Native.socketMemo s !! _) as [sock|].
    + split; [reflexivity|].
      unfold Native.count_sockets. rewrite !filter_app, !length_app. cbn. lia.
    + split; [reflexivity|]. split; [apply lookup_insert_eq|].
      unfold Native.count_sockets. rewrite !filter_app, !length_app. cbn. lia.
Qed.

(** C3, for a click on a page where [setup] has run. *)
Lemma C3_native_socket_witness :
  Native.nativeSocket
    (Scenario.native_run (Scenario.android false) [Native.OpClick])
  = Native.nativeSocket (Scenario.native_run (Scenario.android false) []).
Proof.
  apply (proj1 (C3_native_socket_lifecycle (Scenario.android false) Scenario.props_native
                  Scenario.config_native Scenario.payment_native Scenario.serviceData_I1)
           Native.OpClick
           (Scenario.native_run (Scenario.android false) [])).
  exact I.
Defined.

(** C3 as stated fails: a second [setup] on a page whose socket 0 is valid
    and has reported no error creates socket 1 and installs it. *)
Lemma C3_counterexample :
  Native.nativeSocket (Scenario.after_setup (Scenario.android false)) = Some 0 /\
  Native.nativeSocket
    (snd (Native.setupNative (Scenario.android false) Scenario.config_native
            Scenario.props_native (Scenario.after_setup (Scenario.android false))))
    = Some 1 /\
  filter Scenario.is_socket_created
    (trace (snd (Native.setupNative (Scenario.android false) Scenario.config_native
                   Scenario.props_native (Scenario.after_setup (Scenario.android false)))))
    = [EFirebaseSocket "A" "5.0.1" (Some "firebase-config");
       EFirebaseSocket "B" "5.0.1" (Some "firebase-config")].
Proof. vm_compute. repeat split. Qed.

(** ** Native: the order of socket traffic *)

Section SocketOrder.
Import Native.
Variable E : Env.
Variable props : Props.
Variable config : Config.
Variable payment : Payment.t.
Variable serviceData : ServiceData.

Lemma ready_app (sock : socket) (h l : history) : ready sock h -> ready sock (h ++ l).
Proof.
  intros (h1 & h2 & -> & Hon). exists h1, (h2 ++ l). split; [|exact Hon].
  rewrite <- app_assoc. reflexivity.
Qed.

Lemma setProps_guarded_nil : setProps_guarded [].
Proof. intros [|e pre] post sock p H; discriminate H. Qed.

Lemma setProps_guarded_snoc (h : history) (e : event) :
  (forall sock p, e = ESocketSend sock MESSAGE.SET_PROPS p -> ready sock h) ->
  setProps_guarded h -> setProps_guarded (h ++ [e]).
Proof.
  intros He Hg pre post sock p Heq.
  destruct post as [|x post _] using rev_ind.
  - apply app_inj_tail in Heq as [-> ->]. eapply He. reflexivity.
  - rewrite app_comm_cons, app_assoc in Heq.
    apply app_inj_tail in Heq as [-> _].
    eapply Hg. reflexivity.
Qed.

Lemma setProps_guarded_app (h l : history) :
  Forall (fun e => forall sock p, e <> ESocketSend sock MESSAGE.SET_PROPS p) l ->
  setProps_guarded h -> setProps_guarded (h ++ l).
Proof.
  intros Hl. revert h. induction Hl as [|e l He _ IH]; intros h Hg.
  - rewrite app_nil_r. exact Hg.
  - change (e :: l) with ([e] ++ l). rewrite app_assoc. apply IH.
    apply setProps_guarded_snoc; [|exact Hg].
    intros sock p Heq. destruct (He sock p Heq).
Qed.

(** A list of events that holds no [setProps] message. *)
Ltac no_setProps :=
  repeat (constructor; [intros ? ?; discriminate|]); constructor.

Lemma connectNative_run (sock : socket) (s : State) :
  nativeSocket s = Some sock ->
  connectNative s =
  (Resolved sock,
   set_trace (trace s ++ connect_events sock) s).
Proof.
  intros Hs. unfold connectNative. rewrite Hs. run_promise.
  cbn [trace record State_Traced set_trace st_trace]. unfold set_trace.
  cbn. rewrite <- !app_assoc. reflexivity.
Qed.

Lemma ready_after_connect (sock : socket) (h : history) :
  ready sock (h ++ connect_events sock).
Proof.
  exists (h ++ [ESocketOn sock MESSAGE.GET_PROPS; ESocketOn sock MESSAGE.ON_APPROVE;
                ESocketOn sock MESSAGE.ON_CANCEL; ESocketOn sock MESSAGE.ON_ERROR;
                ESocketOn sock MESSAGE.FALLBACK]), [].
  split; [rewrite <- app_assoc; reflexivity|].
  intros m Hm. apply in_or_app. right.
  cbn in Hm. cbn. intuition (subst; auto).
Qed.

(** The relation that [setProps] keeps on a socket that is ready. *)
Lemma setProps_keeps_guarded (sock : socket) :
  keeps (fun s s' => setProps_guarded (trace s) /\ ready sock (trace s) ->
                     setProps_guarded (trace s') /\ ready sock (trace s'))
        (modify (set_instance (InstNative sock)) ;;; setProps E props payment serviceData sock).
Proof.
  set (Q := fun s s' : State =>
              setProps_guarded (trace s) /\ ready sock (trace s) ->
              setProps_guarded (trace s') /\ ready sock (trace s')).
  assert (Q_refl : forall s, Q s s) by (intros s H; exact H).
  assert (Q_trans : forall a b c, Q a b -> Q b c -> Q a c)
    by (intros a b c Hab Hbc H; auto).
  assert (Q_any : forall e s,
             (forall sock' p, e = ESocketSend sock' MESSAGE.SET_PROPS p -> sock' = sock) ->
             Q s (record e s)).
  { intros e s He [Hg Hr]. cbn [trace record State_Traced set_trace st_trace]. split.
    - apply setProps_guarded_snoc; [|exact Hg].
      intros sock' p Heq. rewrite (He sock' p Heq). exact Hr.
    - apply ready_app, Hr. }
  assert (Q_record : forall e s, quiet e -> Q s (record e s)).
  { intros e s He. apply Q_any. intros sock' p ->. contradiction. }
  framed (keeps_then Q).
  - intros s Hq. exact Hq.
  - intros _. unfold setProps.
    framed (keeps_then Q); [framed (keeps_getSDKProps E props payment serviceData Q)|].
    intros sdkProps. framed (keeps_then Q); [framed (keeps_log_flush Q)|].
    intros _. framed (keeps_then Q); [|intros _; framed (keeps_log_flush Q)].
    intros s. apply Q_any. intros sock' p [= -> _]. reflexivity.
Qed.

Lemma connect_setProps_guarded :
  keeps (fun s s' => setProps_guarded (trace s) -> setProps_guarded (trace s'))
        (connect_setProps E props payment serviceData).
Proof.
  intros s Hg. unfold connect_setProps, then_ at 1.
  destruct (nativeSocket s) as [sock|] eqn:Hs.
  - rewrite (connectNative_run sock s Hs).
    apply (setProps_keeps_guarded sock). cbn [trace State_Traced set_trace st_trace].
    split; [|apply ready_after_connect].
    apply setProps_guarded_app; [|exact Hg]. no_setProps.
  - unfold connectNative. rewrite Hs. exact Hg.
Qed.

(** No operation on the page breaks the order. *)
Lemma run_op_guarded (o : op) (s : State) :
  setProps_guarded (trace s) ->
  setProps_guarded (trace (run_op E props config payment serviceData o s)).
Proof.
  set (R := fun s s' : State => setProps_guarded (trace s) -> setProps_guarded (trace s')).
  assert (R_refl : forall s, R s s) by (intros s0 H; exact H).
  assert (R_trans : forall a b c, R a b -> R b c -> R a c)
    by (intros a b c Hab Hbc H; auto).
  assert (R_record : forall e s, quiet e -> R s (record e s)).
  { intros e s0 He Hg. cbn [trace record State_Traced set_trace st_trace].
    apply setProps_guarded_app; [|exact Hg].
    constructor; [|constructor]. intros sock p ->. contradiction. }
  assert (R_appSwitch : forall v s, R s (set_appSwitch v s)) by (intros v s0 H; exact H).
  assert (R_checkout : forall id s, R s (set_instance (InstCheckout id) s))
    by (intros v s0 H; exact H).
  assert (R_startMemo : forall v s, R s (set_startMemo v s)) by (intros v s0 H; exact H).
  assert (R_pending : forall v s, R s (set_pending v s)) by (intros v s0 H; exact H).
  assert (R_connect_setProps : keeps R (connect_setProps E props payment serviceData))
    by exact connect_setProps_guarded.
  change (R s (run_op E props config payment serviceData o s)).
  destruct o as [|err| | | |sock m| |n];
    try (framed (keeps_flow_op E props config payment serviceData R); exact I).
  - intros Hg. cbn [run_op].
    destruct (setupNative_run E props config s) as (-> & _).
    apply setProps_guarded_app; [|exact Hg].
    destruct (socketMemo s !! _); no_setProps.
  - intros Hg. cbn [run_op].
    pose proof (onSocketError_run E err s) as Hrun. cbv zeta in Hrun.
    destruct Hrun as (-> & _).
    apply setProps_guarded_app; [no_setProps|exact Hg].
Qed.

End SocketOrder.

(** C9.  On a page that starts fresh, whatever the caller, the socket and
    the native app do with the native flow, every [setProps] message goes
    out on a socket on which the handlers for [getProps], [onApprove],
    [onCancel], [onError] and [fallback] were registered and [reconnect()]
    was called after them. *)
Theorem C9_handlers_before_setProps
  (E : Env) (props : Native.Props) (config : Native.Config) (payment : Payment.t)
  (serviceData : ServiceData) (ops : list Native.op) :
  Native.setProps_guarded
    (trace (Native.run_ops E props config payment serviceData ops
              (Native.initNative Native.initial_state))).
Proof.
  assert (H0 : Native.setProps_guarded (trace (Native.initNative Native.initial_state)))
    by exact setProps_guarded_nil.
  revert H0. generalize (Native.initNative Native.initial_state) as s.
  induction ops as [|o ops IH]; intros s Hs; [exact Hs|].
  cbn [Native.run_ops fold_left]. apply IH, run_op_guarded, Hs.
Qed.

(** ** Native: closing *)

Section Closing.
Import Native.
Variable E : Env.

(** [closeNative], step by step: the close notice goes out first, and the
    socket is released once the notice is acknowledged. *)
Lemma closeNative_run (sock : socket) (s : State) :
  let h1 := trace s ++ [ELog "info" "native_message_close" None true] in
  closeNative E sock s =
  match env_socketSend E h1 sock MESSAGE.CLOSE with
  | Resolved _ =>
    (Resolved tt,
     set_trace (h1 ++ [ESocketSend sock MESSAGE.CLOSE None;
                       ELog "info" "native_response_close" None true;
                       ESocketClose sock]) s)
  | Rejected e => (Rejected e, set_trace (h1 ++ [ESocketSend sock MESSAGE.CLOSE None]) s)
  | Pending => (Pending, set_trace (h1 ++ [ESocketSend sock MESSAGE.CLOSE None]) s)
  end.
Proof.
  unfold closeNative, closeNative_acked. run_promise.
  cbn [trace record State_Traced set_trace st_trace].
  destruct (env_socketSend E _ sock MESSAGE.CLOSE) as [[]|e|];
    unfold set_trace; cbn; rewrite <- ?app_assoc; reflexivity.
Qed.

(** The same call with its promise dropped: the notice goes out, and the
    release of the socket is left to the event loop. *)
Lemma closeNative_dropped_run (sock : socket) (s : State) :
  let h1 := trace s ++ [ELog "info" "native_message_close" None true] in
  let sent := set_trace (h1 ++ [ESocketSend sock MESSAGE.CLOSE None]) s in
  closeNative_dropped E sock s =
  match env_socketSend E h1 sock MESSAGE.CLOSE with
  | Resolved _ => (Pending, defer (TaskReleased sock) sent)
  | Rejected e => (Rejected e, sent)
  | Pending => (Pending, sent)
  end.
Proof.
  unfold closeNative_dropped. run_promise.
  cbn [trace record State_Traced set_trace st_trace].
  destruct (env_socketSend E _ sock MESSAGE.CLOSE) as [[]|e|];
    unfold defer, set_pending, set_trace; cbn; reflexivity.
Qed.

(** The callback of the inner [close], step by step, once [click()] has
    set up the popup. *)
Lemma close_body_run (s : State) (a : AppSwitchPopup) :
  appSwitch s = Some a ->
  let popup_closed := match as_win a with Some w => [EWindowClose w] | None => [] end in
  close_body E s =
  if didSwitch E a (trace s) then
    match nativeSocket s with
    | Some sock =>
      let notified := trace s ++ connect_events sock
                      ++ [ELog "info" "native_message_close" None true] in
      let sent := set_trace (notified ++ [ESocketSend sock MESSAGE.CLOSE None]
                             ++ popup_closed) s in
      (Resolved tt,
       match env_socketSend E notified sock MESSAGE.CLOSE with
       | Resolved _ => defer (TaskReleased sock) sent
       | _ => sent
       end)
    | None => (Rejected (new_Error "Native socket connection not established"), s)
    end
  else (Resolved tt, set_trace (trace s ++ popup_closed) s).
Proof.
  intros Ha. cbv zeta. unfold close_body, popup_close.
  unfold then_ at 1. rewrite Ha.
  destruct (didSwitch E a _).
  - unfold then_ at 1. destruct (nativeSocket s) as [sock|] eqn:Hs.
    + rewrite (connectNative_run sock) by exact Hs.
      unfold detach. rewrite closeNative_dropped_run.
      cbn [trace State_Traced set_trace st_trace]. rewrite <- !app_assoc.
      destruct (env_socketSend E _ sock MESSAGE.CLOSE) as [[]|e|];
        cbn [snd appSwitch set_trace defer set_pending]; rewrite Ha;
        destruct (as_win a); unfold emit, resolve, defer, set_pending, set_trace; cbn;
        rewrite <- ?app_assoc, ?app_nil_r; reflexivity.
    + unfold connectNative. rewrite Hs. reflexivity.
  - rewrite Ha.
    destruct (as_win a); unfold emit, resolve, set_trace; cbn; rewrite ?app_nil_r;
      [reflexivity|destruct s; reflexivity].
Qed.

End Closing.

(** C2 (as amended).  The native flow has two closing routines.  The inner
    [close], which [click()] and [start()] call on failure without waiting
    for it, starts a 500 ms timer and does nothing else at the call.  When
    the timer fires, given the popup state that [click()] set up: if no app
    switch is detected, it closes the popup window if one exists; if an app
    switch is detected and the session socket is present, it registers the
    handlers, reconnects, sends a close notice to the native app and closes
    the popup window if one exists, and the socket is released when the
    notice is acknowledged; if an app switch is detected and the session
    socket is absent, it fails with "Native socket connection not
    established" and does not close the popup window.  The instance's
    [close()] delegates to the current delegate instead: while that is
    still the initial no-op it resolves at once and does nothing, however
    often it is called, and while it is a socket session, the pair that
    [connectNative] returns, it sends the close notice and then releases
    the socket once the notice is acknowledged; in neither case does it
    wait or close the popup window. *)
Theorem C2_native_close_routines (E : Env) :
  (forall s,
     Native.close_ s = (Pending, Native.defer Native.TaskClose (record (EDelay 500) s))) /\
  (forall s a,
     Native.appSwitch s = Some a ->
     let popup_closed := match Native.as_win a with
                         | Some w => [EWindowClose w]
                         | None => []
                         end in
     (Native.didSwitch E a (trace s) = false ->
      Native.run_task E Native.TaskClose s
      = (Resolved tt, Native.set_trace (trace s ++ popup_closed) s)) /\
     (forall sock,
        Native.didSwitch E a (trace s) = true ->
        Native.nativeSocket s = Some sock ->
        let notified := trace s ++ Native.connect_events sock
                        ++ [ELog "info" "native_message_close" None true] in
        let sent := Native.set_trace (notified ++ [ESocketSend sock MESSAGE.CLOSE None]
                                      ++ popup_closed) s in
        Native.run_task E Native.TaskClose s
        = (Resolved tt,
           match env_socketSend E notified sock MESSAGE.CLOSE with
           | Resolved _ => Native.defer (Native.TaskReleased sock) sent
           | _ => sent
           end)) /\
     (Native.didSwitch E a (trace s) = true ->
      Native.nativeSocket s = None ->
      Native.run_task E Native.TaskClose s
      = (Rejected (new_Error "Native socket connection not established"), s))) /\
  (forall s sock,
     Native.run_task E (Native.TaskReleased sock) s
     = (Resolved tt,
        Native.set_trace (trace s ++ [ELog "info" "native_response_close" None true;
                                      ESocketClose sock]) s)) /\
  (forall s,
     Native.instance s = Native.InstNoop ->
     forall n, Nat.iter n (fun s => snd (Native.close E s)) s = s /\
               Native.close E s = (Resolved tt, s)) /\
  (forall s sock,
     Native.instance s = Native.InstNative sock ->
     let notified := trace s ++ [ELog "info" "native_message_close" None true] in
     Native.close E s =
     match env_socketSend E notified sock MESSAGE.CLOSE with
     | Resolved _ =>
       (Resolved tt,
        Native.set_trace (notified ++ [ESocketSend sock MESSAGE.CLOSE None;
                                       ELog "info" "native_response_close" None true;
                                       ESocketClose sock]) s)
     | Rejected e =>
       (Rejected e, Native.set_trace (notified ++ [ESocketSend sock MESSAGE.CLOSE None]) s)
     | Pending =>
       (Pending, Native.set_trace (notified ++ [ESocketSend sock MESSAGE.CLOSE None]) s)
     end).
Proof.
  split; [|split; [|split; [|split]]].
  - intros s. reflexivity.
  - intros s a Ha. cbv zeta. cbn [Native.run_task].
    rewrite (close_body_run E s a Ha). cbv zeta.
    split; [|split].
    + intros ->. reflexivity.
    + intros sock -> ->. reflexivity.
    + intros -> ->. reflexivity.
  - intros s sock. cbn [Native.run_task]. unfold Native.closeNative_acked. run_promise.
    unfold Native.set_trace; cbn. rewrite <- app_assoc. reflexivity.
  - intros s Hs n.
    assert (Hclose : Native.close E s = (Resolved tt, s))
      by (unfold Native.close; rewrite Hs; reflexivity).
    split; [|exact Hclose].
    induction n as [|n IH]; [reflexivity|]. rewrite Nat.iter_succ, IH, Hclose. reflexivity.
  - intros s sock Hs. cbv zeta. unfold Native.close. rewrite Hs.
    apply closeNative_run.
Qed.

(** C2, for a click whose validation says no, on a page where the popup
    has closed on its own: the click leaves the timer's callback pending,
    and that callback registers the handlers, reconnects, sends the close
    notice and closes the popup window, while the release of the socket
    waits for the acknowledgement. *)
Lemma C2_native_close_witness :
  let clicked := Cases.clicked Cases.refused_click Cases.props_validating in
  Native.pending clicked = [Native.TaskClose] /\
  Trace.since (trace clicked)
    (trace (snd (Native.run_task Cases.refused_click Native.TaskClose clicked)))
  = Native.connect_events 0
    ++ [ELog "info" "native_message_close" None true;
        ESocketSend 0 MESSAGE.CLOSE None;
        EWindowClose 0] /\
  Native.pending (snd (Native.run_task Cases.refused_click Native.TaskClose clicked))
  = [Native.TaskClose; Native.TaskReleased 0].
Proof.
  cbv zeta.
  rewrite (proj1 (proj2 (proj1 (proj2 (C2_native_close_routines Cases.refused_click))
                           (Cases.clicked Cases.refused_click Cases.props_validating)
                           {| Native.as_win := Some 0; Native.as_appSwitched := false |}
                           eq_refl))
             0 eq_refl eq_refl).
  repeat split.
Defined.

(** C2 as stated fails for the flow's [close()].  After a click has opened
    popup window 0 and before [start()], [close()] resolves at once and
    leaves the page as it is, without a grace period and with the popup
    still open.  After a [start()] that found the app switched, [close()]
    sends the close notice and releases the socket, again without a grace
    period and without closing the popup window. *)
Lemma C2_counterexample :
  let clicked := Scenario.native_run (Scenario.android false) [Native.OpClick] in
  let started := Scenario.native_run (Scenario.android true) [Native.OpClick; Native.OpStart] in
  (Native.appSwitch clicked
     = Some {| Native.as_win := Some 0; Native.as_appSwitched := false |} /\
   Native.close (Scenario.android false) clicked = (Resolved tt, clicked) /\
   existsb Scenario.is_delay (trace clicked) = false /\
   existsb Scenario.is_window_close (trace clicked) = false) /\
  (Native.appSwitch started
     = Some {| Native.as_win := Some 0; Native.as_appSwitched := false |} /\
   Native.instance started = Native.InstNative 0 /\
   drop (length (trace started))
        (trace (snd (Native.close (Scenario.android true) started)))
     = [ELog "info" "native_message_close" None true;
        ESocketSend 0 MESSAGE.CLOSE None;
        ELog "info" "native_response_close" None true;
        ESocketClose 0]).
Proof. vm_compute. repeat split. Qed.

(** * Further properties *)

(** ** Wallet capture: eligibility and construction *)

Section WalletCaptureMore.
Import WalletCapture.
Variable E : Env.
Variable payment : Payment.t.
Variable serviceData : ServiceData.

Lemma truthy_string_Some (o : option string) :
  truthy_string o = true -> exists v, o = Some v /\ v <> "".
Proof.
  destruct o as [v|]; [|discriminate]. cbn. intros Hv. exists v. split; [reflexivity|].
  intros ->. discriminate Hv.
Qed.

(** A successful construction, with the approval request it will send. *)
Lemma initWalletCapture_Ok_request (flow : PaymentFlowInstance) :
  initWalletCapture E payment serviceData = Ok flow ->
  exists token id type wallet walletFunding inst,
    sd_buyerAccessToken serviceData = Some token /\
    Payment.instrumentID payment = Some id /\
    sd_wallet serviceData = Some wallet /\
    wallet !! Payment.fundingSource payment = Some walletFunding /\
    find_instrument walletFunding (Some id) = Some inst /\
    inst_type inst = Some type /\
    start flow = start_ E payment token id type /\
    restart flow = fallbackToWebCheckout E payment token.
Proof.
  unfold initWalletCapture.
  destruct (truthy_string (Payment.instrumentID payment)) eqn:Hid; [|discriminate].
  destruct (truthy_string (sd_buyerAccessToken serviceData)) eqn:Htok; [|discriminate].
  destruct (sd_wallet serviceData) as [wallet|]; [|discriminate].
  destruct (wallet !! Payment.fundingSource payment) as [wf|] eqn:Hwf; [|discriminate].
  destruct (find_instrument wf (Payment.instrumentID payment)) as [inst|] eqn:Hfind;
    [|discriminate].
  destruct (truthy_string (inst_type inst)) eqn:Hty; [|discriminate].
  apply truthy_string_Some in Hid as (id & Hid & _).
  apply truthy_string_Some in Htok as (token & Htok & _).
  apply truthy_string_Some in Hty as (type & Hty & _).
  cbn [negb]. rewrite Hid, Htok, Hty. rewrite Hid in Hfind. cbn [default].
  intros [= <-]. exists token, id, type, wallet, wf, inst.
  repeat split; first [reflexivity | assumption].
Qed.

(** Every way [start()] can go. *)
Lemma start_cases (token id type : string) (h : history) :
  start_ E payment token id type h =
  match env_createOrder E h with
  | Resolved orderID =>
    match env_getSupplementalOrderInfo E (h ++ [ECreateOrder]) orderID with
    | Resolved order =>
      let h1 := h ++ [ECreateOrder; EGetSupplementalOrderInfo orderID] in
      let req := approve_request token id type orderID in
      if isShippingAddressRequired order
         && negb (match shippingAddress order with
                  | Some a => isFullAddress a
                  | None => false
                  end)
      then fallbackToWebCheckout E payment token h1
      else
        match env_oneClickApproveOrder E h1 req with
        | Resolved r =>
          let data := {| payerID := payerID r; paymentID := None; billingToken := None;
                         isNativeTransaction := None |} in
          call_onApprove E data (fallbackToWebCheckout E payment token)
            (h1 ++ [EOneClickApproveOrder req])
        | Rejected err =>
          fallbackToWebCheckout E payment token
            (h1 ++ [EOneClickApproveOrder req;
                    ELog "warn" "approve_order_error" (Some (env_stringifyError E err)) true])
        | Pending => (Pending, h1 ++ [EOneClickApproveOrder req])
        end
    | Rejected e => (Rejected e, h ++ [ECreateOrder; EGetSupplementalOrderInfo orderID])
    | Pending => (Pending, h ++ [ECreateOrder; EGetSupplementalOrderInfo orderID])
    end
  | Rejected e => (Rejected e, h ++ [ECreateOrder])
  | Pending => (Pending, h ++ [ECreateOrder])
  end.
Proof.
  destruct (env_createOrder E h) as [orderID|e|] eqn:Hc;
    [|unfold start_; run_promise; rewrite Hc; reflexivity..].
  destruct (env_getSupplementalOrderInfo E (h ++ [ECreateOrder]) orderID)
    as [order|e|] eqn:Hq.
  - exact (start_after_lookup E payment token id type orderID order h Hc Hq).
  - unfold start_, shippingRequired. run_promise. rewrite Hc, Hq.
    rewrite <- app_assoc. reflexivity.
  - unfold start_, shippingRequired. run_promise. rewrite Hc, Hq.
    rewrite <- app_assoc. reflexivity.
Qed.

(** What an [onApprove] call leaves in the trace: the call itself and
    then what its [restart] calls do, which is never an approval call or
    another [onApprove]. *)
Lemma call_onApprove_trace (token : string) (data : ApproveData) (h : history) :
  exists l,
    snd (call_onApprove E data (fallbackToWebCheckout E payment token) h)
    = h ++ EOnApprove data :: l /\
    Forall (fun e => Trace.is_approve_call e = false /\ Trace.is_onApprove e = false) l /\
    (env_onApprove_restarts E h data = 0 -> l = []).
Proof.
  unfold call_onApprove. cbn [snd trace record history_Traced].
  induction (env_onApprove_restarts E h data) as [|n IH].
  - exists []. repeat split. constructor.
  - destruct IH as (l & Hl & Hok & _). cbn [Nat.iter nat_rect].
    change (nat_rect _ ?x ?f n) with (Nat.iter n (fun a => f n a) x). 
    cbn beta. rewrite Hl, fallbackToWebCheckout_run. cbv zeta.
    destruct (env_exchangeAccessTokenForAuthCode E _ token); cbn [snd];
      rewrite <- ?app_assoc; cbn [app];
      (eexists; split; [rewrite <- ?app_assoc; cbn [app]; reflexivity|];
       split; [|discriminate]);
      apply Forall_app; (split; [exact Hok|]); repeat constructor.
Qed.

Lemma count_none (p : event -> bool) (l : history) :
  Forall (fun e => p e = false) l -> Trace.count p l = 0.
Proof.
  unfold Trace.count. induction 1 as [|e l He _ IH]; [reflexivity|].
  cbn [filter]. rewrite He. exact IH.
Qed.

End WalletCaptureMore.

(** X1.  A session that [isWalletCaptureEligible] accepts and a payment that
    [isWalletCapturePaymentEligible] accepts can always be constructed:
    [initWalletCapture] does not throw for them. *)
Theorem X1_eligible_wallet_payment_constructs
  (E : Env) (props : WalletCapture.Props) (serviceData : ServiceData) (payment : Payment.t) :
  WalletCapture.isWalletCaptureEligible props serviceData = true ->
  WalletCapture.isWalletCapturePaymentEligible serviceData payment = true ->
  exists flow, WalletCapture.initWalletCapture E payment serviceData = Ok flow.
Proof.
  unfold WalletCapture.isWalletCaptureEligible, WalletCapture.isWalletCapturePaymentEligible,
    WalletCapture.initWalletCapture.
  intros Hs Hp.
  destruct (sd_wallet serviceData) as [wallet|]; [|discriminate Hs]. cbn [truthy negb] in Hs.
  destruct (truthy_string (sd_buyerAccessToken serviceData)); [|discriminate Hs].
  destruct (negb (String.eqb _ _)); [discriminate Hp|].
  destruct (truthy (Payment.win payment)); [discriminate Hp|].
  destruct (truthy_string (Payment.instrumentID payment)); [|discriminate Hp].
  cbn [negb] in *.
  destruct (wallet !! Payment.fundingSource payment) as [wf|]; [|discriminate Hp].
  destruct (WalletCapture.find_instrument wf _) as [inst|]; [|discriminate Hp].
  destruct (truthy_bool (inst_oneClick inst)); [|discriminate Hp].
  destruct (truthy_string (inst_type inst)); [|discriminate Hp].
  cbn [negb]. eauto.
Qed.

(** X1 on the wallet that holds the one-click card "I1". *)
Lemma X1_eligible_wallet_payment_witness :
  exists flow,
    WalletCapture.initWalletCapture
      (Cases.wallet_world Cases.order_id Cases.lookup_ok Scenario.approved)
      Scenario.payment_I1 Scenario.serviceData_I1 = Ok flow.
Proof.
  apply (X1_eligible_wallet_payment_constructs
           (Cases.wallet_world Cases.order_id Cases.lookup_ok Scenario.approved)
           {| WalletCapture.onShippingChange := false |}
           Scenario.serviceData_I1 Scenario.payment_I1); reflexivity.
Defined.

(** X2.  [isWalletCapturePaymentEligible] accepts a payment only for the
    PAYPAL funding source, without an open window, with a non-empty
    instrument id, and with a wallet instrument of that id that has
    [oneClick = true] and a non-empty type. *)
Theorem X2_wallet_payment_eligibility_sound
  (serviceData : ServiceData) (payment : Payment.t) :
  WalletCapture.isWalletCapturePaymentEligible serviceData payment = true ->
  Payment.fundingSource payment = FUNDING.PAYPAL /\
  Payment.win payment = None /\
  exists id wallet walletFunding inst,
    Payment.instrumentID payment = Some id /\ id <> "" /\
    sd_wallet serviceData = Some wallet /\
    wallet !! FUNDING.PAYPAL = Some walletFunding /\
    In inst (instruments walletFunding) /\
    inst_instrumentID inst = Some id /\
    inst_oneClick inst = Some true /\
    truthy_string (inst_type inst) = true.
Proof.
  unfold WalletCapture.isWalletCapturePaymentEligible. intros Hp.
  destruct (String.eqb_spec (Payment.fundingSource payment) FUNDING.PAYPAL) as [Hfs|];
    [|discriminate Hp].
  cbn [negb] in Hp. rewrite Hfs in *.
  destruct (Payment.win payment); [discriminate Hp|].
  destruct (sd_wallet serviceData) as [wallet|]; [|discriminate Hp].
  destruct (truthy_string (Payment.instrumentID payment)) eqn:Hid; [|discriminate Hp].
  apply truthy_string_Some in Hid as (id & Hid & Hne). cbn [negb] in Hp.
  destruct (wallet !! FUNDING.PAYPAL) as [wf|] eqn:Hwf; [|discriminate Hp].
  destruct (WalletCapture.find_instrument wf _) as [inst|] eqn:Hfind; [|discriminate Hp].
  destruct (inst_oneClick inst) as [[]|] eqn:Hone; try discriminate Hp.
  destruct (truthy_string (inst_type inst)) eqn:Hty; [|discriminate Hp].
  apply find_some in Hfind as [Hin Heq].
  unfold strict_eq in Heq. apply bool_decide_eq_true_1 in Heq.
  split; [reflexivity|]. split; [reflexivity|].
  rewrite Hid in Heq.
  exists id, wallet, wf, inst. auto 10.
Qed.

(** X2 on the wallet that holds the one-click card "I1". *)
Lemma X2_wallet_payment_eligibility_witness :
  Payment.fundingSource Scenario.payment_I1 = FUNDING.PAYPAL /\
  Payment.win Scenario.payment_I1 = None.
Proof.
  destruct (X2_wallet_payment_eligibility_sound Scenario.serviceData_I1 Scenario.payment_I1)
    as (Hfs & Hwin & _); [reflexivity|].
  split; assumption.
Defined.

(** ** Wallet capture: the paths of [start()] *)

(** Make the events that [start()] added explicit, whichever way it went. *)
Ltac wallet_paths E payment token :=
  cbv zeta;
  repeat match goal with
         | |- context [call_onApprove E ?data
                         (WalletCapture.fallbackToWebCheckout E payment token) ?h] =>
           let l := fresh "l" in
           let Hl := fresh "Hl" in
           let Hrest := fresh "Hrest" in
           let Hquiet := fresh "Hquiet" in
           destruct (call_onApprove_trace E payment token data h) as (l & Hl & Hrest & Hquiet);
           rewrite Hl; clear Hl
         | |- context [env_createOrder E ?h] =>
           destruct (env_createOrder E h) eqn:?
         | |- context [env_getSupplementalOrderInfo E ?h ?o] =>
           destruct (env_getSupplementalOrderInfo E h o) eqn:?
         | |- context [isShippingAddressRequired ?o && ?b] =>
           destruct (isShippingAddressRequired o && b) eqn:?
         | |- context [env_oneClickApproveOrder E ?h ?r] =>
           destruct (env_oneClickApproveOrder E h r) eqn:?
         | |- context [WalletCapture.fallbackToWebCheckout E payment token ?h] =>
           rewrite (fallbackToWebCheckout_run E payment token h); cbv zeta
         | |- context [env_exchangeAccessTokenForAuthCode E ?h ?t] =>
           destruct (env_exchangeAccessTokenForAuthCode E h t) eqn:?
         end;
  unfold Trace.since; cbn [snd fst]; rewrite <- ?app_assoc; rewrite ?drop_app_length;
  cbn [app].

(** Find the place of an event in an explicit list. *)
Ltac locate H pre :=
  repeat (destruct pre as [|? pre]; cbn [app] in H;
          [ first [discriminate H | injection H as ? H]
          | first [discriminate H | injection H as ? H] ]).

(** X3.  When no shipping address is needed and the approval call
    succeeds, [start()] of the wallet-capture instance sends one approval
    request, made of the order id, the type of the selected wallet
    instrument, the buyer access token and the instrument id, and then
    calls [onApprove] once with the payer id and the [restart] action; its
    outcome is that of [onApprove], and unless that [onApprove] calls
    [restart] nothing else happens: no web checkout is created. *)
Theorem X3_wallet_start_approves
  (E : Env) (payment : Payment.t) (serviceData : ServiceData)
  (flow : WalletCapture.PaymentFlowInstance)
  (h : history) (orderID : string) (order : CheckoutSession) (r : ApproveData) :
  WalletCapture.initWalletCapture E payment serviceData = Ok flow ->
  env_createOrder E h = Resolved orderID ->
  env_getSupplementalOrderInfo E (h ++ [ECreateOrder]) orderID = Resolved order ->
  (isShippingAddressRequired order = false \/
   exists a, shippingAddress order = Some a /\ isFullAddress a = true) ->
  (forall req, env_oneClickApproveOrder E
                 (h ++ [ECreateOrder; EGetSupplementalOrderInfo orderID]) req
               = Resolved r) ->
  exists token id type wallet walletFunding inst,
    sd_buyerAccessToken serviceData = Some token /\
    Payment.instrumentID payment = Some id /\
    sd_wallet serviceData = Some wallet /\
    wallet !! Payment.fundingSource payment = Some walletFunding /\
    WalletCapture.find_instrument walletFunding (Some id) = Some inst /\
    inst_type inst = Some type /\
    let req := {| ar_orderID := orderID; ar_instrumentType := type;
                  ar_buyerAccessToken := token; ar_instrumentID := id |} in
    let data := {| payerID := payerID r; paymentID := None; billingToken := None;
                   isNativeTransaction := None |} in
    let h1 := h ++ [ECreateOrder; EGetSupplementalOrderInfo orderID;
                    EOneClickApproveOrder req] in
    fst (WalletCapture.start flow h) = env_onApprove E h1 data /\
    WalletCapture.start flow h
    = call_onApprove E data (WalletCapture.restart flow) h1 /\
    (env_onApprove_restarts E h1 data = 0 ->
     WalletCapture.start flow h = (env_onApprove E h1 data, h1 ++ [EOnApprove data])).
Proof.
  intros Hinit Hc Hq Hship Happ.
  destruct (initWalletCapture_Ok_request _ _ _ _ Hinit)
    as (token & id & type & wallet & wf & inst & Htok & Hid & Hw & Hwf & Hfind & Hty
        & Hstart & Hrestart).
  exists token, id, type, wallet, wf, inst. repeat (split; [assumption|]).
  rewrite Hstart, Hrestart, start_cases, Hc, Hq. cbv zeta.
  assert (Hno : isShippingAddressRequired order
                && negb (match shippingAddress order with
                         | Some a => isFullAddress a
                         | None => false
                         end) = false).
  { destruct Hship as [-> | (a & -> & ->)]; [reflexivity|]. apply andb_false_r. }
  rewrite Hno, Happ.
  replace (h ++ [ECreateOrder; EGetSupplementalOrderInfo orderID;
                 EOneClickApproveOrder
                   {| ar_orderID := orderID; ar_instrumentType := type;
                      ar_buyerAccessToken := token; ar_instrumentID := id |}])
    with ((h ++ [ECreateOrder; EGetSupplementalOrderInfo orderID])
          ++ [EOneClickApproveOrder (WalletCapture.approve_request token id type orderID)])
    by (rewrite <- app_assoc; reflexivity).
  split; [reflexivity|]. split; [reflexivity|].
  intros Hquiet. apply call_onApprove_plain. exact Hquiet.
Qed.

(** X3, on the page of the one-click card "I1" with an approving server. *)
Lemma X3_wallet_start_approves_witness :
  WalletCapture.start
    (Scenario.flow_I1 (Cases.wallet_world Cases.order_id Cases.lookup_ok Scenario.approved)) []
  = (Resolved tt,
     [ECreateOrder; EGetSupplementalOrderInfo "ORDER-1";
      EOneClickApproveOrder {| ar_orderID := "ORDER-1"; ar_instrumentType := "card";
                               ar_buyerAccessToken := "TOKEN-1"; ar_instrumentID := "I1" |};
      EOnApprove {| payerID := Some "PAYER-1"; paymentID := None; billingToken := None;
                    isNativeTransaction := None |}]).
Proof.
  destruct (X3_wallet_start_approves
              (Cases.wallet_world Cases.order_id Cases.lookup_ok Scenario.approved)
              Scenario.payment_I1 Scenario.serviceData_I1
              (Scenario.flow_I1 (Cases.wallet_world Cases.order_id Cases.lookup_ok Scenario.approved))
              [] "ORDER-1" Scenario.no_shipping
              {| payerID := Some "PAYER-1"; paymentID := None; billingToken := None;
                 isNativeTransaction := None |})
    as (token & id & type & wallet & wf & inst & Htok & Hid & Hw & Hwf & Hfind & Hty
        & _ & _ & Hrun).
  - reflexivity.
  - reflexivity.
  - reflexivity.
  - left. reflexivity.
  - intros req. reflexivity.
  - injection Htok as <-. injection Hid as <-. injection Hw as <-.
    vm_compute in Hwf. injection Hwf as <-.
    vm_compute in Hfind. injection Hfind as <-.
    injection Hty as <-. apply Hrun. reflexivity.
Defined.

(** X4.  [start()] of the wallet-capture instance issues an approval call
    only as its third step: right after an order creation and an order
    lookup that both resolved, for the order just created, and only when
    the lookup says that no shipping address is missing. *)
Theorem X4_wallet_approval_follows_lookup
  (E : Env) (payment : Payment.t) (serviceData : ServiceData)
  (flow : WalletCapture.PaymentFlowInstance)
  (h pre post : history) (req : ApproveRequest) :
  WalletCapture.initWalletCapture E payment serviceData = Ok flow ->
  Trace.since h (snd (WalletCapture.start flow h)) = pre ++ EOneClickApproveOrder req :: post ->
  exists orderID order,
    pre = [ECreateOrder; EGetSupplementalOrderInfo orderID] /\
    ar_orderID req = orderID /\
    env_createOrder E h = Resolved orderID /\
    env_getSupplementalOrderInfo E (h ++ [ECreateOrder]) orderID = Resolved order /\
    (isShippingAddressRequired order = false \/
     exists a, shippingAddress order = Some a /\ isFullAddress a = true).
Proof.
  intros Hinit.
  destruct (initWalletCapture_Ok _ _ _ _ Hinit) as (token & id & type & _ & _ & Hstart & _).
  rewrite Hstart, start_cases.
  assert (Hship : forall order,
             isShippingAddressRequired order
             && negb (match shippingAddress order with
                      | Some a => isFullAddress a
                      | None => false
                      end) = false ->
             isShippingAddressRequired order = false \/
             exists a, shippingAddress order = Some a /\ isFullAddress a = true).
  { intros order Hno. destruct (isShippingAddressRequired order); [|left; reflexivity].
    right. destruct (shippingAddress order) as [a|]; [|discriminate Hno].
    exists a. split; [reflexivity|]. destruct (isFullAddress a); [reflexivity|discriminate Hno]. }
  wallet_paths E payment token; intros Hsplit; locate Hsplit pre; subst;
    try (eexists _, _; repeat split; eauto; fail).
  exfalso.
  match goal with
  | H : Forall _ (_ ++ _ :: _) |- _ =>
    apply Forall_app in H as [_ H]; inversion H as [|? ? [Hbad _] _]; discriminate Hbad
  end.
Qed.

(** X4, read on the run of the approving page. *)
Lemma X4_wallet_approval_follows_lookup_witness :
  env_createOrder (Cases.wallet_world Cases.order_id Cases.lookup_ok Scenario.approved) []
  = Resolved "ORDER-1".
Proof.
  destruct (X4_wallet_approval_follows_lookup
              (Cases.wallet_world Cases.order_id Cases.lookup_ok Scenario.approved)
              Scenario.payment_I1 Scenario.serviceData_I1
              (Scenario.flow_I1 (Cases.wallet_world Cases.order_id Cases.lookup_ok Scenario.approved))
              [] [ECreateOrder; EGetSupplementalOrderInfo "ORDER-1"]
              [EOnApprove {| payerID := Some "PAYER-1"; paymentID := None;
                             billingToken := None; isNativeTransaction := None |}]
              {| ar_orderID := "ORDER-1"; ar_instrumentType := "card";
                 ar_buyerAccessToken := "TOKEN-1"; ar_instrumentID := "I1" |})
    as (orderID & order & _ & Hreq & Hc & _).
  - reflexivity.
  - reflexivity.
  - rewrite <- Hreq in Hc. exact Hc.
Defined.

(** X5.  A failure before the approval step ends [start()] of the
    wallet-capture instance at once: when the order creation rejects,
    [start()] rejects with that error and nothing else is called, and when
    the order lookup rejects, [start()] rejects with that error without an
    approval call, without a log entry and without a web checkout. *)
Theorem X5_wallet_start_early_failure
  (E : Env) (payment : Payment.t) (serviceData : ServiceData)
  (flow : WalletCapture.PaymentFlowInstance) (h : history) (e : error) :
  WalletCapture.initWalletCapture E payment serviceData = Ok flow ->
  (env_createOrder E h = Rejected e ->
   WalletCapture.start flow h = (Rejected e, h ++ [ECreateOrder])) /\
  (forall orderID,
     env_createOrder E h = Resolved orderID ->
     env_getSupplementalOrderInfo E (h ++ [ECreateOrder]) orderID = Rejected e ->
     WalletCapture.start flow h
     = (Rejected e, h ++ [ECreateOrder; EGetSupplementalOrderInfo orderID])).
Proof.
  intros Hinit.
  destruct (initWalletCapture_Ok _ _ _ _ Hinit) as (token & id & type & _ & _ & Hstart & _).
  rewrite Hstart, start_cases. split.
  - intros ->. reflexivity.
  - intros orderID -> ->. reflexivity.
Qed.

(** X5, on a page whose order creation fails. *)
Lemma X5_wallet_start_early_failure_witness :
  WalletCapture.start
    (Scenario.flow_I1
       (Cases.wallet_world (Cases.failed "no order") Cases.lookup_ok Scenario.approved)) []
  = (Rejected (new_Error "no order"), [ECreateOrder]).
Proof.
  apply (X5_wallet_start_early_failure
           (Cases.wallet_world (Cases.failed "no order") Cases.lookup_ok Scenario.approved)
           Scenario.payment_I1 Scenario.serviceData_I1
           (Scenario.flow_I1
              (Cases.wallet_world (Cases.failed "no order") Cases.lookup_ok Scenario.approved))
           [] (new_Error "no order")); reflexivity.
Defined.

(** X6.  One [start()] of the wallet-capture instance makes at most one
    approval call and calls [onApprove] at most once, whatever the
    merchant's [onApprove] does with the [restart] action.  On a page whose
    [onApprove] never calls [restart], [start()] either calls [onApprove]
    or creates a web checkout, never both and neither twice. *)
Theorem X6_wallet_start_single_outcome
  (E : Env) (payment : Payment.t) (serviceData : ServiceData)
  (flow : WalletCapture.PaymentFlowInstance) (h : history) :
  WalletCapture.initWalletCapture E payment serviceData = Ok flow ->
  let new := Trace.since h (snd (WalletCapture.start flow h)) in
  Trace.count Trace.is_approve_call new <= 1 /\
  Trace.count Trace.is_onApprove new <= 1 /\
  ((forall h' data, env_onApprove_restarts E h' data = 0) ->
   Trace.count Trace.is_onApprove new + Trace.count Trace.is_checkout_init new <= 1).
Proof.
  intros Hinit.
  destruct (initWalletCapture_Ok _ _ _ _ Hinit) as (token & id & type & _ & _ & Hstart & _).
  rewrite Hstart, start_cases.
  wallet_paths E payment token;
    try (cbn; repeat split; intros; lia).
  assert (Hno_approve : Trace.count Trace.is_approve_call l = 0)
    by (apply count_none; eapply Forall_impl; [|exact Hrest]; intros e [He _]; exact He).
  assert (Hno_onApprove : Trace.count Trace.is_onApprove l = 0)
    by (apply count_none; eapply Forall_impl; [|exact Hrest]; intros e [_ He]; exact He).
  unfold Trace.count in *. cbn [filter Trace.is_approve_call Trace.is_onApprove length].
  split; [lia|]. split; [lia|].
  intros Hnever. rewrite (Hquiet (Hnever _ _)). cbn. lia.
Qed.

(** X6, on the page of the one-click card "I1" with a declining server. *)
Lemma X6_wallet_start_single_outcome_witness :
  Trace.count Trace.is_onApprove
    (snd (WalletCapture.start
            (Scenario.flow_I1
               (Cases.wallet_world Cases.order_id Cases.lookup_ok Scenario.declined)) []))
  + Trace.count Trace.is_checkout_init
      (snd (WalletCapture.start
              (Scenario.flow_I1
                 (Cases.wallet_world Cases.order_id Cases.lookup_ok Scenario.declined)) []))
  <= 1.
Proof.
  apply (X6_wallet_start_single_outcome
           (Cases.wallet_world Cases.order_id Cases.lookup_ok Scenario.declined)
           Scenario.payment_I1 Scenario.serviceData_I1
           (Scenario.flow_I1
              (Cases.wallet_world Cases.order_id Cases.lookup_ok Scenario.declined))
           []).
  - reflexivity.
  - intros h data. reflexivity.
Defined.

(** ** Native: eligibility *)

(** X7.  [isNativeEligible] accepts a session exactly when the platform is
    mobile, the merchant passes no [onShippingChange], [createBillingAgreement]
    or [createSubscription], popups are supported, a firebase config is
    present, the browser is Safari if the device is iOS and otherwise Chrome
    on Android, and the buyer is opted in or the server says native is
    eligible.  On iOS the Android and Chrome probes are not consulted. *)
Theorem X7_isNativeEligible_iff
  (E : Env) (props : Native.Props) (config : Native.Config) (serviceData : ServiceData)
  (h : history) :
  Native.isNativeEligible E props config serviceData h = true <->
  Native.platform props = PLATFORM.MOBILE /\
  Native.onShippingChange props = false /\
  Native.createBillingAgreement props = false /\
  Native.createSubscription props = false /\
  env_supportsPopups E = true /\
  Native.firebase config <> None /\
  (if env_isIos E then env_isSafari E else env_isAndroid E && env_isChrome E) = true /\
  (Native.isNativeOptedIn E props h = true \/ sd_eligibility_native serviceData = true).
Proof.
  unfold Native.isNativeEligible.
  destruct (String.eqb_spec (Native.platform props) PLATFORM.MOBILE) as [Hp|Hp];
    destruct (Native.onShippingChange props), (Native.createBillingAgreement props),
      (Native.createSubscription props), (env_supportsPopups E),
      (Native.firebase config) as [cfg|];
    cbn [negb orb truthy];
    try (split; [discriminate|intros (? & ? & ? & ? & ? & ? & _); congruence]).
  destruct (env_isIos E), (env_isSafari E), (env_isAndroid E), (env_isChrome E);
    cbn [negb andb];
    try (split; [discriminate|intros (_ & _ & _ & _ & _ & _ & ? & _); discriminate]);
    destruct (Native.isNativeOptedIn E props h), (sd_eligibility_native serviceData);
    (split;
     [ intros Hyes; try discriminate Hyes; repeat split; auto; discriminate
     | intros (_ & _ & _ & _ & _ & _ & _ & [Ho|Hn]); try reflexivity; congruence ]).
Qed.

(** X8.  [isNativePaymentEligible] accepts a payment exactly when no window
    is open yet, the funding source is PayPal or Venmo, the module-level
    socket is present, and, for Venmo, the buyer is opted in to native
    checkout. *)
Theorem X8_isNativePaymentEligible_iff
  (E : Env) (s : Native.State) (payment : Payment.t) (props : Native.Props) :
  Native.isNativePaymentEligible E s payment props = true <->
  Payment.win payment = None /\
  (Payment.fundingSource payment = FUNDING.PAYPAL \/
   Payment.fundingSource payment = FUNDING.VENMO) /\
  Native.nativeSocket s <> None /\
  (Payment.fundingSource payment = FUNDING.VENMO ->
   Native.isNativeOptedIn E props (trace s) = true).
Proof.
  unfold Native.isNativePaymentEligible.
  destruct (Payment.win payment) as [w|]; cbn [truthy];
    [split; [discriminate|intros (? & _); discriminate]|].
  destruct (String.eqb_spec (Payment.fundingSource payment) FUNDING.PAYPAL) as [Hp|Hp];
    destruct (String.eqb_spec (Payment.fundingSource payment) FUNDING.VENMO) as [Hv|Hv];
    cbn [negb andb].
  - rewrite Hp in Hv. discriminate Hv.
  - destruct (Native.nativeSocket s) as [sock|]; cbn [truthy negb].
    + split; [intros _|reflexivity].
      split; [reflexivity|]. split; [left; exact Hp|]. split; [discriminate|].
      intros Hv'. contradiction.
    + split; [discriminate|]. intros (_ & _ & Hs & _). contradiction.
  - destruct (Native.nativeSocket s) as [sock|]; cbn [truthy negb].
    + destruct (Native.isNativeOptedIn E props (trace s)); cbn [negb].
      * split; [intros _|reflexivity].
        split; [reflexivity|]. split; [right; exact Hv|]. split; [discriminate|].
        reflexivity.
      * split; [discriminate|]. intros (_ & _ & _ & Ho). specialize (Ho Hv). discriminate Ho.
    + split; [discriminate|]. intros (_ & _ & Hs & _). contradiction.
  - split; [discriminate|]. intros (_ & [Hf|Hf] & _); contradiction.
Qed.

(** ** Native: the click *)

(** Read the fields of a state through the setters. *)
Ltac native_fields :=
  cbn [trace record Native.State_Traced Native.set_trace Native.set_instance
       Native.set_appSwitch Native.set_startMemo Native.set_nativeSocket
       Native.set_sessionUID Native.set_initialPageUrl Native.set_socketMemo
       Native.set_pending Native.defer
       Native.st_trace Native.sessionUID Native.nativeSocket Native.initialPageUrl
       Native.socketMemo Native.instance Native.appSwitch Native.startMemo
       Native.pending fst snd].

(** Run one more step of a native operation and flatten the history. *)
Ltac native_step :=
  unfold Native.modify; run_promise; native_fields; rewrite <- ?app_assoc; cbn [app].

Section Click.
Import Native.
Variable E : Env.
Variable props : Props.
Variable payment : Payment.t.

(** The click validation and what follows it, as [click] runs them once
    the popup is there. *)
Lemma click_after_open (s : State) :
  click E props payment s =
  match open E props payment s with
  | (Throw e, s1) => (Throw e, s1)
  | (Ok _, s1) =>
    let (o, s2) :=
      then2 (if onClick props
             then call (EOnClick (Payment.fundingSource payment))
                       (fun h => env_onClick E h (Payment.fundingSource payment))
             else resolve true)
            (fun valid : bool => if negb valid then detach close_ else resolve tt)
            (fun err => detach close_ ;;; reject err) s1 in
    (Ok o, s2)
  end.
Proof. reflexivity. Qed.

(** Nothing after [open()] touches the popup state or the delegate. *)
Lemma click_keeps_popup_state (s s1 : State) (u : unit) :
  open E props payment s = (Ok u, s1) ->
  appSwitch (snd (click E props payment s)) = appSwitch s1 /\
  instance (snd (click E props payment s)) = instance s1.
Proof.
  intros Ho. rewrite click_after_open, Ho.
  set (R := fun s s' : State => appSwitch s' = appSwitch s /\ instance s' = instance s).
  assert (R_refl : forall s, R s s) by (intros; split; reflexivity).
  assert (R_trans : forall a b c, R a b -> R b c -> R a c).
  { unfold R. intros a b c [-> ->] [-> ->]. split; reflexivity. }
  assert (R_record : forall e s, quiet e -> R s (record e s)) by (intros; split; reflexivity).
  assert (R_pending : forall v s, R s (set_pending v s)) by (intros; split; reflexivity).
  match goal with
  | |- context [let (o, s2) := ?m s1 in _] =>
    assert (Hm : keeps R m); [|specialize (Hm s1); destruct (m s1) as [o s2]; exact Hm]
  end.
  framed (keeps_then2 R).
  - destruct (onClick props); [framed (keeps_call R); exact I|framed (keeps_resolve R)].
  - intros [|]; cbn [negb]; [framed (keeps_resolve R)|].
    apply keeps_detach. framed (keeps_close_ R).
  - intros err. framed (keeps_then R); [|intros _; framed (keeps_reject R)].
    apply keeps_detach. framed (keeps_close_ R).
Qed.

End Click.

(** X9.  When the popup cannot be opened, [click()] of the native flow
    goes on only for a blocked popup on iOS Safari: it then does not throw
    and keeps a popup state without a window that counts as an app switch
    from then on.  For any other error, and for a blocked popup on any other
    browser, [click()] throws the error before the click validation runs
    and leaves the popup state unset. *)
Theorem X9_native_click_without_popup
  (E : Env) (props : Native.Props) (payment : Payment.t) (s : Native.State) (err : error) :
  env_popup E (trace s) (Native.getNativeUrl E props payment s) = Throw err ->
  (err_kind err = PopupOpenError -> env_isIos E = true -> env_isSafari E = true ->
   (exists o, fst (Native.click E props payment s) = Ok o) /\
   Native.appSwitch (snd (Native.click E props payment s))
   = Some {| Native.as_win := None; Native.as_appSwitched := true |} /\
   forall h, Native.didSwitch E {| Native.as_win := None; Native.as_appSwitched := true |} h
             = true) /\
  (err_kind err <> PopupOpenError \/ env_isIos E = false \/ env_isSafari E = false ->
   Native.click E props payment s
   = (Throw err, record (EPopup (Native.getNativeUrl E props payment s)) s)).
Proof.
  intros Hpop. split.
  - intros Hk Hios Hsaf.
    assert (Ho : Native.open E props payment s
                 = (Ok tt,
                    Native.set_appSwitch
                      (Some {| Native.as_win := None; Native.as_appSwitched := true |})
                      (record (EPopup (Native.getNativeUrl E props payment s)) s))).
    { unfold Native.open, Native.appSwitchPopup. rewrite Hpop, Hk, Hios, Hsaf. reflexivity. }
    split; [|split].
    + rewrite click_after_open, Ho.
      match goal with
      | |- context [let (o, s2) := ?m ?s1 in _] => destruct (m s1) as [o s2]
      end.
      eexists. reflexivity.
    + rewrite (proj1 (click_keeps_popup_state E props payment s _ tt Ho)). reflexivity.
    + reflexivity.
  - intros Hother. unfold Native.click, Native.open, Native.appSwitchPopup. rewrite Hpop.
    destruct (err_kind err) eqn:Hk; try reflexivity.
    destruct Hother as [Hne|[Hios|Hsaf]]; [contradiction| |].
    + rewrite Hios. reflexivity.
    + rewrite Hsaf, andb_false_r. reflexivity.
Qed.

(** X9, for a blocked popup on iOS Safari. *)
Lemma X9_native_click_without_popup_witness :
  Native.appSwitch
    (Cases.clicked
       (Cases.native_world Cases.order_id (Resolved true) Cases.blocked false Cases.ios_safari)
       Scenario.props_native)
  = Some {| Native.as_win := None; Native.as_appSwitched := true |}.
Proof.
  apply (X9_native_click_without_popup
           (Cases.native_world Cases.order_id (Resolved true) Cases.blocked false
              Cases.ios_safari)
           Scenario.props_native Scenario.payment_native
           (Cases.ready_page
              (Cases.native_world Cases.order_id (Resolved true) Cases.blocked false
                 Cases.ios_safari))
           (Error PopupOpenError "popup blocked")); reflexivity.
Defined.

(** The event loop finds the callback that was deferred last. *)
Lemma run_deferred (E : Env) (props : Native.Props) (config : Native.Config)
  (payment : Payment.t) (serviceData : ServiceData) (t : Native.task) (s : Native.State) :
  Native.run_op E props config payment serviceData
    (Native.OpTask (length (Native.pending s))) (Native.defer t s)
  = snd (Native.run_task E t s).
Proof.
  cbn [Native.run_op]. unfold Native.defer.
  cbn [Native.pending Native.set_pending].
  rewrite list_lookup_middle by reflexivity.
  rewrite delete_middle, app_nil_r. destruct s; reflexivity.
Qed.

(** X10.  When the popup opens and the click validation answers false, or
    fails, [click()] of the native flow starts the 500 ms timer of the
    inner close and settles without waiting for it: it resolves after a
    false answer and rejects with the validation's error after a failure,
    with the popup window still open.  The window is closed when the timer
    fires, if no app switch is seen then. *)
Theorem X10_native_click_validation_fails
  (E : Env) (props : Native.Props) (config : Native.Config) (payment : Payment.t)
  (serviceData : ServiceData) (s : Native.State) (w : window) :
  let url := Native.getNativeUrl E props payment s in
  let a := {| Native.as_win := Some w; Native.as_appSwitched := false |} in
  let asked := trace s ++ [EPopup url; EOnClick (Payment.fundingSource payment)] in
  let opened := Native.set_appSwitch (Some a) s in
  let waiting := Native.defer Native.TaskClose
                   (Native.set_trace (asked ++ [EDelay 500]) opened) in
  env_popup E (trace s) url = Ok w ->
  Native.onClick props = true ->
  (env_onClick E (trace s ++ [EPopup url]) (Payment.fundingSource payment) = Resolved false ->
   Native.click E props payment s = (Ok (Resolved tt), waiting)) /\
  (forall err,
     env_onClick E (trace s ++ [EPopup url]) (Payment.fundingSource payment) = Rejected err ->
     Native.click E props payment s = (Ok (Rejected err), waiting)) /\
  (Native.didSwitch E a (asked ++ [EDelay 500]) = false ->
   Native.run_op E props config payment serviceData
     (Native.OpTask (length (Native.pending s))) waiting
   = Native.set_trace (asked ++ [EDelay 500; EWindowClose w]) opened).
Proof.
  cbv zeta. intros Hpop Hval.
  split; [|split].
  - intros Hno. cbn [trace Native.State_Traced] in Hno. rewrite click_after_open.
    unfold Native.open, Native.appSwitchPopup. rewrite Hpop, Hval.
    unfold then2, call, Native.fundingSource. native_fields. rewrite Hno. cbn [negb].
    unfold detach, Native.close_. native_step. reflexivity.
  - intros err Hrej. cbn [trace Native.State_Traced] in Hrej. rewrite click_after_open.
    unfold Native.open, Native.appSwitchPopup. rewrite Hpop, Hval.
    unfold then2, call, Native.fundingSource. native_fields. rewrite Hrej.
    unfold detach, Native.close_. native_step. reflexivity.
  - intros Hsw.
    rewrite (run_deferred E props config payment serviceData Native.TaskClose
               (Native.set_trace
                  ((trace s ++ [EPopup (Native.getNativeUrl E props payment s);
                                EOnClick (Payment.fundingSource payment)]) ++ [EDelay 500])
                  (Native.set_appSwitch
                     (Some {| Native.as_win := Some w; Native.as_appSwitched := false |}) s))).
    cbn [Native.run_task].
    rewrite (close_body_run E _ {| Native.as_win := Some w; Native.as_appSwitched := false |})
      by reflexivity.
    cbv zeta. cbn [trace Native.State_Traced] in Hsw. native_fields. rewrite Hsw.
    native_fields. rewrite <- !app_assoc. reflexivity.
Qed.

(** X10, on Android Chrome with a validation that answers false. *)
Lemma X10_native_click_validation_witness :
  Cases.clicked
    (Cases.native_world Cases.order_id (Resolved false) (Ok 0) false Cases.android_chrome)
    Cases.props_validating
  = Native.defer Native.TaskClose
      (Native.set_trace
         (trace (Cases.ready_page
                   (Cases.native_world Cases.order_id (Resolved false) (Ok 0) false
                      Cases.android_chrome))
          ++ [EPopup "https://www.paypal.com/smart/checkout/native"; EOnClick "paypal";
              EDelay 500])
         (Native.set_appSwitch
            (Some {| Native.as_win := Some 0; Native.as_appSwitched := false |})
            (Cases.ready_page
               (Cases.native_world Cases.order_id (Resolved false) (Ok 0) false
                  Cases.android_chrome)))).
Proof.
  unfold Cases.clicked.
  rewrite (proj1 (X10_native_click_validation_fails
                    (Cases.native_world Cases.order_id (Resolved false) (Ok 0) false
                       Cases.android_chrome)
                    Cases.props_validating Scenario.config_native Scenario.payment_native
                    Scenario.serviceData_I1
                    (Cases.ready_page
                       (Cases.native_world Cases.order_id (Resolved false) (Ok 0) false
                          Cases.android_chrome))
                    0 eq_refl eq_refl) eq_refl).
  reflexivity.
Defined.

(** ** Native: the paths of [start()] *)

(** X11.  When the order is created and no app switch is seen, the first
    [start()] of the native flow logs the web fallback and creates and
    starts a web checkout for the same payment with the popup window that
    the click opened, marked [isClick: false] and without a buyer access
    token or Venmo payload; unless that checkout fails to start, [start()]
    ends as the checkout's [start()] did, and [close()] of the instance then
    closes that checkout. *)
Theorem X11_native_start_web_fallback
  (E : Env) (props : Native.Props) (payment : Payment.t) (serviceData : ServiceData)
  (s : Native.State) (a : Native.AppSwitchPopup) (orderID : string) :
  let p := {| Payment.win := Native.as_win a;
              Payment.fundingSource := Payment.fundingSource payment;
              Payment.instrumentID := Payment.instrumentID payment;
              Payment.buyerAccessToken := None;
              Payment.venmoPayloadID := None;
              Payment.authCode := Payment.authCode payment;
              Payment.isClick := Some false;
              Payment.buyerIntent := Payment.buyerIntent payment |} in
  let logged := trace s ++ [ECreateOrder; ELog "info" "native_app_web_fallback" None true] in
  let id := count_checkout_inits logged in
  let r := Native.start E props payment serviceData s in
  Native.startMemo s = None ->
  Native.appSwitch s = Some a ->
  env_createOrder E (trace s) = Resolved orderID ->
  Native.didSwitch E a (trace s ++ [ECreateOrder]) = false ->
  (forall e, env_checkoutStart E (logged ++ [ECheckoutInit p]) id <> Rejected e) ->
  fst r = env_checkoutStart E (logged ++ [ECheckoutInit p]) id /\
  trace (snd r) = logged ++ [ECheckoutInit p; ECheckoutStart id] /\
  Native.instance (snd r) = Native.InstCheckout id /\
  Native.close E (snd r)
  = (env_checkoutClose E (trace (snd r)) id, record (ECheckoutClose id) (snd r)).
Proof.
  cbv zeta. intros Hmemo Ha Hc Hsw Hok.
  cbn [trace Native.State_Traced] in *.
  match goal with
  | |- context [env_checkoutStart E ?h ?id] =>
    assert (Hrun : Native.start E props payment serviceData s
                   = (env_checkoutStart E h id,
                      Native.set_startMemo (Some (env_checkoutStart E h id))
                        (Native.set_trace (h ++ [ECheckoutStart id])
                           (Native.set_instance (Native.InstCheckout id) s))))
  end.
  { unfold Native.start. rewrite Hmemo.
    unfold Native.start_body, catch, then2. unfold then_ at 1. unfold call at 1.
    native_fields. rewrite Hc, Ha, Hsw.
    unfold Native.fallbackToWebCheckout. native_step.
    rewrite <- ?app_assoc in Hok. cbn [app] in Hok.
    rewrite <- ?app_assoc. cbn [app].
    destruct (env_checkoutStart E _ _) as [[]|e|] eqn:Hstart;
      [|exfalso; exact (Hok e eq_refl)|]; reflexivity. }
  rewrite Hrun. native_fields.
  split; [reflexivity|]. split; [rewrite <- app_assoc; reflexivity|].
  split; reflexivity.
Qed.

(** X11, on Android Chrome with a popup that stays open. *)
Lemma X11_native_start_web_fallback_witness :
  Native.instance
    (snd (Native.start (Scenario.android false) Scenario.props_native Scenario.payment_native
            Scenario.serviceData_I1
            (Scenario.native_run (Scenario.android false) [Native.OpClick])))
  = Native.InstCheckout 0.
Proof.
  apply (X11_native_start_web_fallback (Scenario.android false) Scenario.props_native
           Scenario.payment_native Scenario.serviceData_I1
           (Scenario.native_run (Scenario.android false) [Native.OpClick])
           {| Native.as_win := Some 0; Native.as_appSwitched := false |} "ORDER-1");
    try reflexivity.
  intros e. discriminate.
Defined.

(** X12.  When the order is created, the app switch is seen and the socket
    is there, the first [start()] of the native flow registers the handlers,
    reconnects, and then builds the props for the native app from a second
    [createOrder()] call and a [getPageUrl()] call: the order id it sends
    with [setProps] is the one the second call resolved.  With the props
    sent and acknowledged [start()] resolves, and the delegate of [close()]
    is the socket session. *)
Theorem X12_native_start_app_switch
  (E : Env) (props : Native.Props) (payment : Payment.t) (serviceData : ServiceData)
  (s : Native.State) (a : Native.AppSwitchPopup) (sock : socket)
  (first second pageUrl : string) :
  let connected := trace s ++ [ECreateOrder; ELog "info" "native_app_switch" None true]
                   ++ Native.connect_events sock in
  let asked := connected ++ [ECreateOrder; EGetPageUrl] in
  let sdkProps := {|
    sdk_orderID := second;
    sdk_facilitatorAccessToken := sd_facilitatorAccessToken serviceData;
    sdk_pageUrl := pageUrl;
    sdk_commit := Native.commit props;
    sdk_userAgent := env_getUserAgent E;
    sdk_buttonSessionID := Native.buttonSessionID props;
    sdk_env := Native.env props;
    sdk_webCheckoutUrl := Native.getWebCheckoutFallbackUrl E props payment serviceData second;
    sdk_stageHost := Native.stageHost props;
    sdk_apiStageHost := Native.apiStageHost props;
    sdk_forceEligible := Native.isNativeOptedIn E props asked |} in
  let r := Native.start E props payment serviceData s in
  Native.startMemo s = None ->
  Native.appSwitch s = Some a ->
  Native.nativeSocket s = Some sock ->
  env_createOrder E (trace s) = Resolved first ->
  Native.didSwitch E a (trace s ++ [ECreateOrder]) = true ->
  env_createOrder E connected = Resolved second ->
  env_getPageUrl E (connected ++ [ECreateOrder]) = Resolved pageUrl ->
  env_socketSend E (asked ++ [ELog "info" "native_message_setprops" None true])
                 sock MESSAGE.SET_PROPS = Resolved tt ->
  fst r = Resolved tt /\
  trace (snd r)
  = asked ++ [ELog "info" "native_message_setprops" None true;
              ESocketSend sock MESSAGE.SET_PROPS (Some sdkProps);
              ELog "info" "native_response_setprops" None true] /\
  Native.instance (snd r) = Native.InstNative sock.
Proof.
  cbv zeta. intros Hmemo Ha Hs Hc Hsw Hc2 Hurl Hsend.
  cbn [trace Native.State_Traced] in *.
  unfold Native.connect_events in *. rewrite <- ?app_assoc in *. cbn [app] in *.
  match goal with
  | |- _ /\ Native.st_trace _ = ?t /\ _ =>
    assert (Hrun : Native.start E props payment serviceData s
                   = (Resolved tt,
                      Native.set_startMemo (Some (Resolved tt))
                        (Native.set_trace t
                           (Native.set_instance (Native.InstNative sock) s))))
  end.
  { unfold Native.start. rewrite Hmemo.
    unfold Native.start_body, catch, then2. unfold then_ at 1. unfold call at 1.
    native_fields. rewrite Hc, Ha, Hsw.
    unfold then_ at 1. unfold log_flush, emit. native_fields.
    unfold Native.connect_setProps. unfold then_ at 1.
    rewrite (connectNative_run sock) by exact Hs.
    unfold Native.connect_events. native_step.
    unfold Native.setProps, Native.getSDKProps. native_step.
    rewrite Hc2, Hurl. cbn [Native.hash2]. native_step.
    rewrite Hsend. reflexivity. }
  rewrite Hrun. native_fields. repeat split.
Qed.

(** X12, on Android Chrome with a popup that has closed on its own. *)
Lemma X12_native_start_app_switch_witness :
  Native.instance
    (snd (Native.start (Scenario.android true) Scenario.props_native Scenario.payment_native
            Scenario.serviceData_I1
            (Scenario.native_run (Scenario.android true) [Native.OpClick])))
  = Native.InstNative 0.
Proof.
  apply (X12_native_start_app_switch (Scenario.android true) Scenario.props_native
           Scenario.payment_native Scenario.serviceData_I1
           (Scenario.native_run (Scenario.android true) [Native.OpClick])
           {| Native.as_win := Some 0; Native.as_appSwitched := false |} 0
           "ORDER-1" "ORDER-1" "https://merchant.example/");
    reflexivity.
Defined.

(** X13.  When the order creation rejects, the first [start()] of the
    native flow starts the 500 ms timer of the inner close and rejects with
    the order's error without waiting for it.  The rejection is what
    [start()] keeps: a second [start()] on the same instance returns it
    again without creating an order.  When the timer fires and no app
    switch is seen then, the popup window that the click opened is closed. *)
Theorem X13_native_start_order_fails
  (E : Env) (props : Native.Props) (config : Native.Config) (payment : Payment.t)
  (serviceData : ServiceData) (s : Native.State) (err : error) :
  let waited := trace s ++ [ECreateOrder; EDelay 500] in
  let r := Native.start E props payment serviceData s in
  Native.startMemo s = None ->
  env_createOrder E (trace s) = Rejected err ->
  r = (Rejected err,
       Native.set_startMemo (Some (Rejected err))
         (Native.defer Native.TaskClose (Native.set_trace waited s))) /\
  Native.start E props payment serviceData (snd r) = (Rejected err, snd r) /\
  (forall a,
     Native.appSwitch s = Some a ->
     Native.didSwitch E a waited = false ->
     trace (Native.run_op E props config payment serviceData
              (Native.OpTask (length (Native.pending s))) (snd r))
     = waited ++ match Native.as_win a with
                 | Some w => [EWindowClose w]
                 | None => []
                 end).
Proof.
  cbv zeta. intros Hmemo Hc.
  cbn [trace Native.State_Traced] in *.
  assert (Hrun : Native.start E props payment serviceData s
                 = (Rejected err,
                    Native.set_startMemo (Some (Rejected err))
                      (Native.defer Native.TaskClose
                         (Native.set_trace
                            (Native.st_trace s ++ [ECreateOrder; EDelay 500]) s)))).
  { unfold Native.start. rewrite Hmemo.
    unfold Native.start_body, catch, then2. unfold then_ at 1. unfold call at 1.
    native_fields. rewrite Hc.
    unfold detach, Native.close_. native_step. reflexivity. }
  rewrite Hrun. split; [reflexivity|]. split.
  - unfold Native.start. native_fields. reflexivity.
  - intros a Ha Hsw.
    etransitivity;
      [exact (f_equal trace
                (run_deferred E props config payment serviceData Native.TaskClose
                   (Native.set_startMemo (Some (Rejected err))
                      (Native.set_trace
                         (Native.st_trace s ++ [ECreateOrder; EDelay 500]) s))))|].
    cbn [Native.run_task].
    rewrite (close_body_run E _ a) by exact Ha.
    cbv zeta. native_fields. rewrite Hsw. reflexivity.
Qed.

(** X13, on Android Chrome with a failing order creation. *)
Lemma X13_native_start_order_fails_witness :
  fst (Native.start
         (Cases.native_world (Cases.failed "no order") (Resolved true) (Ok 0) false
            Cases.android_chrome)
         Scenario.props_native Scenario.payment_native Scenario.serviceData_I1
         (Cases.clicked
            (Cases.native_world (Cases.failed "no order") (Resolved true) (Ok 0) false
               Cases.android_chrome)
            Scenario.props_native))
  = Rejected (new_Error "no order").
Proof.
  rewrite (proj1 (X13_native_start_order_fails
                    (Cases.native_world (Cases.failed "no order") (Resolved true) (Ok 0) false
                       Cases.android_chrome)
                    Scenario.props_native Scenario.config_native Scenario.payment_native
                    Scenario.serviceData_I1
                    (Cases.clicked
                       (Cases.native_world (Cases.failed "no order") (Resolved true) (Ok 0)
                          false Cases.android_chrome)
                       Scenario.props_native)
                    (new_Error "no order") eq_refl eq_refl)).
  reflexivity.
Defined.

(** X14.  A first [start()] of the native flow that runs before any
    [click()] has set up the popup state creates the order and then fails on
    the missing popup state: it starts the 500 ms timer of the inner close
    and rejects with a [TypeError] without waiting for it.  When the timer
    fires and the popup state is still unset, its callback fails the same
    way and does nothing. *)
Theorem X14_native_start_before_click
  (E : Env) (props : Native.Props) (payment : Payment.t) (serviceData : ServiceData)
  (s : Native.State) (orderID : string) :
  let r := Native.start E props payment serviceData s in
  Native.startMemo s = None ->
  Native.appSwitch s = None ->
  env_createOrder E (trace s) = Resolved orderID ->
  (exists e, fst r = Rejected e /\ err_kind e = TypeError) /\
  trace (snd r) = trace s ++ [ECreateOrder; EDelay 500] /\
  Native.instance (snd r) = Native.instance s /\
  Native.pending (snd r) = Native.pending s ++ [Native.TaskClose] /\
  (forall later,
     Native.appSwitch later = None ->
     exists e,
       Native.run_task E Native.TaskClose later = (Rejected e, later) /\
       err_kind e = TypeError).
Proof.
  cbv zeta. intros Hmemo Ha Hc.
  cbn [trace Native.State_Traced] in *.
  assert (Hrun : Native.start E props payment serviceData s
                 = (Rejected Native.undefined_appSwitch,
                    Native.set_startMemo (Some (Rejected Native.undefined_appSwitch))
                      (Native.defer Native.TaskClose
                         (Native.set_trace
                            (Native.st_trace s ++ [ECreateOrder; EDelay 500]) s)))).
  { unfold Native.start. rewrite Hmemo.
    unfold Native.start_body, catch, then2. unfold then_ at 1. unfold call at 1.
    native_fields. rewrite Hc, Ha.
    unfold detach, Native.close_. native_step. reflexivity. }
  rewrite Hrun. native_fields.
  split; [eexists; split; reflexivity|].
  split; [reflexivity|]. split; [reflexivity|]. split; [reflexivity|].
  intros later Hlater. exists Native.undefined_appSwitch. split; [|reflexivity].
  cbn [Native.run_task]. unfold Native.close_body, then_. rewrite Hlater. reflexivity.
Qed.

(** X14, on a page where [setup] has run and nothing was clicked. *)
Lemma X14_native_start_before_click_witness :
  trace (snd (Native.start (Scenario.android false) Scenario.props_native
                Scenario.payment_native Scenario.serviceData_I1
                (Cases.ready_page (Scenario.android false))))
  = trace (Cases.ready_page (Scenario.android false)) ++ [ECreateOrder; EDelay 500].
Proof.
  apply (X14_native_start_before_click (Scenario.android false) Scenario.props_native
           Scenario.payment_native Scenario.serviceData_I1
           (Cases.ready_page (Scenario.android false)) "ORDER-1");
    reflexivity.
Defined.



(** ** Native: messages from the native app and [setup] *)

(** X16.  The handlers for [onApprove], [onCancel] and [onError] log the
    message, close the socket, and only then call the merchant's callback,
    once; the handler ends as the callback does.  [onApprove] passes the
    payer id, payment id and billing token on, marks the data as a native
    transaction and hands the callback the [restart] action; [onError]
    wraps the message in an [Error].  After [onCancel] and [onError] the
    delegate of [close()] is what it was, and so it is after an [onApprove]
    that does not call [restart]. *)
Theorem X16_native_handlers_close_then_forward
  (E : Env) (props : Native.Props) (payment : Payment.t) (serviceData : ServiceData)
  (sock : socket) (s : Native.State) :
  (forall payer pay billing,
     let data := {| payerID := payer; paymentID := pay; billingToken := billing;
                    isNativeTransaction := Some true |} in
     let closed := trace s ++ [ELog "info" "native_message_onapprove" None true;
                               ESocketClose sock] in
     Native.onMessage E props payment serviceData sock (Native.MsgOnApprove payer pay billing) s
     = call_onApprove E data (Native.restart E payment) (Native.set_trace closed s) /\
     fst (Native.onMessage E props payment serviceData sock
            (Native.MsgOnApprove payer pay billing) s)
     = env_onApprove E closed data /\
     (env_onApprove_restarts E closed data = 0 ->
      Native.onMessage E props payment serviceData sock (Native.MsgOnApprove payer pay billing) s
      = (env_onApprove E closed data, Native.set_trace (closed ++ [EOnApprove data]) s))) /\
  (let closed := trace s ++ [ELog "info" "native_message_oncancel" None true;
                             ESocketClose sock] in
   Native.onMessage E props payment serviceData sock Native.MsgOnCancel s
   = (env_onCancel E closed, Native.set_trace (closed ++ [EOnCancel]) s)) /\
  (forall msg,
     let closed := trace s ++ [ELog "info" "native_message_onerror" (Some msg) true;
                               ESocketClose sock] in
     Native.onMessage E props payment serviceData sock (Native.MsgOnError msg) s
     = (env_onError E closed (new_Error msg),
        Native.set_trace (closed ++ [EOnError (new_Error msg)]) s)).
Proof.
  split; [|split]; intros;
    repeat match goal with x := _ |- _ => subst x end;
    cbv zeta; cbn [Native.onMessage].
  - assert (Hrun : (log_flush "info" "native_message_onapprove" None ;;;
                    emit (ESocketClose sock) ;;;
                    call_onApprove E
                      {| payerID := payer; paymentID := pay; billingToken := billing;
                         isNativeTransaction := Some true |} (Native.restart E payment)) s
                   = call_onApprove E
                       {| payerID := payer; paymentID := pay; billingToken := billing;
                          isNativeTransaction := Some true |} (Native.restart E payment)
                       (Native.set_trace
                          (trace s ++ [ELog "info" "native_message_onapprove" None true;
                                       ESocketClose sock]) s)).
    { native_step. reflexivity. }
    rewrite Hrun. split; [reflexivity|]. split; [reflexivity|].
    intros Hquiet. unfold call_onApprove. native_fields.
    cbn [trace Native.State_Traced] in Hquiet. rewrite Hquiet. cbn [Nat.iter nat_rect].
    rewrite <- app_assoc. reflexivity.
  - native_step. unfold Native.set_trace; cbn; rewrite <- ?app_assoc; reflexivity.
  - native_step. unfold Native.set_trace; cbn; rewrite <- ?app_assoc; reflexivity.
Qed.

(** X17.  A [fallback] message from the native app closes the socket and
    creates and starts a web checkout for the same payment, without a
    window, marked [isClick: false], and carrying the buyer access token
    and the Venmo payload id that the native app sent; the new checkout
    becomes the delegate of [close()].  The [restart] action given to
    [onApprove] does the same without touching the socket and without a
    token or payload id. *)
Theorem X17_native_fallback_message
  (E : Env) (props : Native.Props) (payment : Payment.t) (serviceData : ServiceData)
  (sock : socket) (s : Native.State) (token payload : option string) :
  let checkoutPayment (token payload : option string) :=
    {| Payment.win := None;
       Payment.fundingSource := Payment.fundingSource payment;
       Payment.instrumentID := Payment.instrumentID payment;
       Payment.buyerAccessToken := token;
       Payment.venmoPayloadID := payload;
       Payment.authCode := Payment.authCode payment;
       Payment.isClick := Some false;
       Payment.buyerIntent := Payment.buyerIntent payment |} in
  (let closed := trace s ++ [ELog "info" "native_message_fallback" None true;
                             ESocketClose sock] in
   let id := count_checkout_inits closed in
   let created := closed ++ [ECheckoutInit (checkoutPayment token payload)] in
   Native.onMessage E props payment serviceData sock (Native.MsgFallback token payload) s
   = (env_checkoutStart E created id,
      Native.set_trace (created ++ [ECheckoutStart id])
        (Native.set_instance (Native.InstCheckout id) s))) /\
  (let id := count_checkout_inits (trace s) in
   let created := trace s ++ [ECheckoutInit (checkoutPayment None None)] in
   Native.restart E payment s
   = (env_checkoutStart E created id,
      Native.set_trace (created ++ [ECheckoutStart id])
        (Native.set_instance (Native.InstCheckout id) s))).
Proof.
  cbv zeta. split.
  - cbn [Native.onMessage]. unfold Native.fallbackToWebCheckout. native_step.
    unfold count_checkout_inits.
    rewrite !filter_app, !length_app. cbn [filter length]. rewrite !Nat.add_0_r.
    unfold Native.set_trace, Native.set_instance; cbn. reflexivity.
  - unfold Native.restart, Native.fallbackToWebCheckout. native_step.
    unfold Native.set_trace, Native.set_instance; cbn. reflexivity.
Qed.

(** X18.  [setup] of the native flow installs the session socket before
    it asks for the page url: whatever becomes of that request, the socket
    is present afterwards and a PayPal payment without an open window is
    eligible for the native flow.  The outcome of [setup] is the outcome of
    the page url request, and the remembered page url changes only when the
    request resolves. *)
Theorem X18_native_setup_installs_socket_first
  (E : Env) (config : Native.Config) (props : Native.Props) (s : Native.State) :
  let uid := env_uniqueID E (trace s) in
  let key := (uid, Native.firebase config, Native.version config) in
  let sock := match Native.socketMemo s !! key with
              | Some sock => sock
              | None => Native.count_sockets (trace s)
              end in
  let created := match Native.socketMemo s !! key with
                 | Some _ => []
                 | None => [EFirebaseSocket uid (Native.version config) (Native.firebase config)]
                 end in
  let asked := trace s ++ [EUniqueID] ++ created ++ [ESocketOnError sock] in
  let r := Native.setupNative E config props s in
  Native.nativeSocket (snd r) = Some sock /\
  (forall payment props',
     Payment.win payment = None ->
     Payment.fundingSource payment = FUNDING.PAYPAL ->
     Native.isNativePaymentEligible E (snd r) payment props' = true) /\
  match env_getPageUrl E asked with
  | Resolved pageUrl => fst r = Resolved tt /\ Native.initialPageUrl (snd r) = Some pageUrl
  | Rejected e => fst r = Rejected e /\ Native.initialPageUrl (snd r) = Native.initialPageUrl s
  | Pending => fst r = Pending /\ Native.initialPageUrl (snd r) = Native.initialPageUrl s
  end.
Proof.
  cbv zeta.
  destruct (setupNative_run E props config s) as (_ & Hsock & _).
  split; [exact Hsock|]. split.
  - intros payment props' Hwin Hfs.
    unfold Native.isNativePaymentEligible. rewrite Hwin, Hfs, Hsock. reflexivity.
  - clear Hsock. unfold Native.setupNative, Native.getNativeSocket.
    cbn [trace record Native.State_Traced Native.set_sessionUID Native.set_trace
         Native.st_trace Native.socketMemo].
    assert (Hcount : Native.count_sockets (Native.st_trace s ++ [EUniqueID])
                     = Native.count_sockets (Native.st_trace s)).
    { unfold Native.count_sockets. rewrite filter_app, length_app. cbn. lia. }
    destruct (Native.socketMemo s !! _) as [sock|]; native_step; rewrite ?Hcount;
      destruct (env_getPageUrl E _); split; reflexivity.
Qed.

(** ** Native: what never shows up in a trace *)

Section Allowed.
Import Native.
Variable E : Env.
Variable props : Props.
Variable config : Config.
Variable payment : Payment.t.
Variable serviceData : ServiceData.

Let P := NativeTrace.allowed payment.
Let R := fun s s' : State => Forall P (trace s) -> Forall P (trace s').

Lemma allowed_refl (s : State) : R s s.
Proof. intros H. exact H. Qed.

Lemma allowed_trans (a b c : State) : R a b -> R b c -> R a c.
Proof. intros Hab Hbc H. apply Hbc, Hab, H. Qed.

Lemma allowed_record (e : event) (s : State) : P e -> R s (record e s).
Proof.
  intros He H. cbn [trace record State_Traced set_trace st_trace].
  apply Forall_app. split; [exact H|]. constructor; [exact He|constructor].
Qed.

Lemma allowed_emit (e : event) : P e -> keeps R (emit e).
Proof. intros He s. apply allowed_record, He. Qed.

Lemma allowed_call {A} (e : event) (oracle : history -> outcome A) :
  P e -> keeps R (call e oracle).
Proof. intros He s. apply allowed_record, He. Qed.

Lemma allowed_then {A B} (p : M State A) (f : A -> M State B) :
  keeps R p -> (forall a, keeps R (f a)) -> keeps R (then_ p f).
Proof. exact (keeps_then R allowed_trans p f). Qed.

Lemma allowed_then2 {A B} (p : M State A) (f : A -> M State B) (g : error -> M State B) :
  keeps R p -> (forall a, keeps R (f a)) -> (forall e, keeps R (g e)) ->
  keeps R (then2 p f g).
Proof. exact (keeps_then2 R allowed_trans p f g). Qed.

(** Discharge the steps of a promise chain one by one. *)
Ltac allowed_chain :=
  repeat first
    [ apply allowed_then; [|intros ?]
    | apply allowed_emit; cbn; auto
    | apply allowed_call; cbn; auto
    | intros ?; apply allowed_refl ].

Lemma allowed_getSDKProps : keeps R (getSDKProps E props payment serviceData).
Proof.
  apply allowed_then.
  - intros s. unfold call. cbn [snd].
    eapply allowed_trans; [|apply allowed_record; exact I]. apply allowed_record. exact I.
  - intros r s. apply allowed_refl.
Qed.

Lemma allowed_closeNative (sock : socket) : keeps R (closeNative E sock).
Proof. unfold closeNative, closeNative_acked, log_flush. allowed_chain. Qed.

Lemma allowed_closeNative_dropped (sock : socket) : keeps R (closeNative_dropped E sock).
Proof.
  unfold closeNative_dropped, log_flush.
  apply allowed_then; [apply allowed_emit; exact I|intros _].
  intros s. unfold call.
  destruct (env_socketSend E (trace s) sock MESSAGE.CLOSE) as [[]|e|]; cbn [snd];
    apply (allowed_record (ESocketSend sock MESSAGE.CLOSE None) s I).
Qed.

Lemma allowed_connectNative : keeps R connectNative.
Proof.
  intros s. unfold connectNative. destruct (nativeSocket s) as [sock|]; [|apply allowed_refl].
  revert s.
  change (keeps R (emit (ESocketOn sock MESSAGE.GET_PROPS) ;;;
                   emit (ESocketOn sock MESSAGE.ON_APPROVE) ;;;
                   emit (ESocketOn sock MESSAGE.ON_CANCEL) ;;;
                   emit (ESocketOn sock MESSAGE.ON_ERROR) ;;;
                   emit (ESocketOn sock MESSAGE.FALLBACK) ;;;
                   emit (ESocketReconnect sock) ;;;
                   resolve sock)).
  allowed_chain.
Qed.

Lemma allowed_close_body : keeps R (close_body E).
Proof.
  unfold close_body. apply allowed_then; [|intros _].
  - intros s. destruct (appSwitch s) as [a|]; [|apply allowed_refl].
    destruct (didSwitch E a (trace s)); [|apply allowed_refl].
    apply allowed_then; [apply allowed_connectNative|].
    intros sock. apply keeps_detach, allowed_closeNative_dropped.
  - intros s. destruct (appSwitch s) as [a|]; [|apply allowed_refl].
    unfold popup_close. destruct (as_win a); [apply allowed_emit; exact I|apply allowed_refl].
Qed.

Lemma allowed_close_ : keeps R close_.
Proof.
  unfold close_. apply allowed_then; [apply allowed_emit; reflexivity|intros _].
  intros s H. exact H.
Qed.

Lemma allowed_run_task (t : task) : keeps R (run_task E t).
Proof.
  destruct t; cbn [run_task]; [apply allowed_close_body|].
  unfold closeNative_acked, log_flush. allowed_chain.
Qed.

Lemma allowed_click (s : State) : R s (snd (click E props payment s)).
Proof.
  rewrite click_after_open.
  assert (Ho : R s (snd (open E props payment s))).
  { unfold open, appSwitchPopup.
    destruct (env_popup E (trace s) _) as [w|err]; cbn [snd].
    - apply (allowed_record (EPopup _) s I).
    - destruct (err_kind err); cbn [snd]; try apply (allowed_record (EPopup _) s I).
      destruct (env_isIos E && env_isSafari E); cbn [snd];
        apply (allowed_record (EPopup _) s I). }
  destruct (open E props payment s) as [[[]|e] s1]; cbn [snd] in *; [|exact Ho].
  match goal with
  | |- R s (snd (let (o, s2) := ?m s1 in _)) =>
    assert (Hm : keeps R m); [|specialize (Hm s1); destruct (m s1) as [o s2]]
  end.
  - apply allowed_then2.
    + destruct (onClick props); [apply allowed_call; reflexivity|intros s0; apply allowed_refl].
    + intros [|]; cbn [negb]; [intros s0; apply allowed_refl|].
      apply keeps_detach, allowed_close_.
    + intros err. apply allowed_then; [apply keeps_detach, allowed_close_|].
      intros _ s0. apply allowed_refl.
  - cbn [snd] in *. eapply allowed_trans; eassumption.
Qed.

Lemma allowed_fallbackToWebCheckout (w : option window) (token payload : option string) :
  keeps R (fallbackToWebCheckout E payment w token payload).
Proof.
  unfold fallbackToWebCheckout.
  apply allowed_then; [|intros id].
  - intros s. apply allowed_record. cbn. auto.
  - apply allowed_then; [intros s H; exact H|intros _].
    apply allowed_call. exact I.
Qed.

Lemma allowed_connect_setProps : keeps R (connect_setProps E props payment serviceData).
Proof.
  unfold connect_setProps.
  apply allowed_then; [apply allowed_connectNative|intros sock].
  apply allowed_then; [intros s H; exact H|intros _].
  unfold setProps. apply allowed_then; [apply allowed_getSDKProps|intros sdkProps].
  unfold log_flush. allowed_chain.
Qed.

Lemma allowed_start : keeps R (start E props payment serviceData).
Proof.
  intros s. unfold start. destruct (startMemo s); [apply allowed_refl|].
  assert (Hb : keeps R (start_body E props payment serviceData)).
  { unfold start_body, catch. apply allowed_then2.
    - apply allowed_then; [apply allowed_call; exact I|intros _].
      intros s0. destruct (appSwitch s0) as [a|]; [|apply allowed_refl].
      destruct (didSwitch E a (trace s0)).
      + apply allowed_then; [apply allowed_emit; exact I|intros _].
        apply allowed_connect_setProps.
      + apply allowed_then; [apply allowed_emit; exact I|intros _].
        apply allowed_fallbackToWebCheckout.
    - intros a s0. apply allowed_refl.
    - intros err. apply allowed_then; [apply keeps_detach, allowed_close_|].
      intros _ s0. apply allowed_refl. }
  specialize (Hb s). destruct (start_body E props payment serviceData s) as [o s'].
  exact Hb.
Qed.

Lemma allowed_onMessage (sock : socket) (m : message) :
  keeps R (onMessage E props payment serviceData sock m).
Proof.
  destruct m; cbn [onMessage]; unfold log_flush.
  - apply allowed_then; [apply allowed_emit; exact I|intros _].
    apply allowed_then; [apply allowed_getSDKProps|]. intros _ s. apply allowed_refl.
  - apply allowed_then; [apply allowed_emit; exact I|intros _].
    apply allowed_then; [apply allowed_emit; exact I|intros _].
    intros s. unfold call_onApprove. cbn [snd].
    induction (env_onApprove_restarts E (trace s) _) as [|n IH].
    + apply allowed_record. reflexivity.
    + cbn [Nat.iter nat_rect]. eapply allowed_trans; [exact IH|].
      apply allowed_fallbackToWebCheckout.
  - allowed_chain.
  - allowed_chain.
  - apply allowed_then; [apply allowed_emit; exact I|intros _].
    apply allowed_then; [apply allowed_emit; exact I|intros _].
    apply allowed_fallbackToWebCheckout.
Qed.

Lemma allowed_run_op (o : op) (s : State) :
  R s (run_op E props config payment serviceData o s).
Proof.
  destruct o as [|err| | | |sock m| |n]; cbn [run_op].
  - intros H. destruct (setupNative_run E props config s) as (-> & _).
    apply Forall_app. split; [exact H|].
    destruct (socketMemo s !! _); repeat constructor.
  - intros H. pose proof (onSocketError_run E err s) as Hrun. cbv zeta in Hrun.
    destruct Hrun as (-> & _). apply Forall_app. split; [exact H|]. repeat constructor.
  - apply allowed_click.
  - apply allowed_start.
  - intros H. unfold close. destruct (instance s).
    + exact H.
    + apply (allowed_record (ECheckoutClose _) s I H).
    + apply allowed_closeNative, H.
  - destruct (registered _ _ _); [apply allowed_onMessage|apply allowed_refl].
  - apply allowed_fallbackToWebCheckout.
  - destruct (pending s !! n) as [t|]; [|apply allowed_refl].
    intros H. apply allowed_run_task. exact H.
Qed.

End Allowed.

(** X19.  Whatever the caller, the socket and the native app do with a
    native flow on a fresh page, the flow never calls the order lookup, the
    token exchange or the one-click approval; every web checkout it creates
    is for the flow's own funding source, instrument, auth code and buyer
    intent and is marked [isClick: false]; every [onApprove] it forwards is
    marked as a native transaction; the click validation is asked about the
    flow's funding source only; and every wait is 500 ms. *)
Theorem X19_native_trace_allowed
  (E : Env) (props : Native.Props) (config : Native.Config) (payment : Payment.t)
  (serviceData : ServiceData) (ops : list Native.op) :
  Forall (NativeTrace.allowed payment)
    (trace (Native.run_ops E props config payment serviceData ops
              (Native.initNative Native.initial_state))).
Proof.
  assert (H0 : Forall (NativeTrace.allowed payment)
                 (trace (Native.initNative Native.initial_state))) by constructor.
  revert H0. generalize (Native.initNative Native.initial_state) as s.
  induction ops as [|o ops IH]; intros s Hs; [exact Hs|].
  cbn [Native.run_ops fold_left]. apply IH.
  exact (allowed_run_op E props config payment serviceData o s Hs).
Qed.
